(** * TRAC code generator (dev/codegen/generator.py): a shallow embedding

    The Python generator turns protobuf descriptors into Python source
    text.  This development embeds the generator as Rocq functions and
    proves properties of its package assembler, type and default
    resolvers, enum emitter, source-location index and comment formatter.

    Conventions of the embedding:
    - a Python [str] is a [string]; a character is a code point below 256
      (every literal of the generator is ASCII);
    - a Python exception is a value of [exn], carried by the [result]
      monad; a function that cannot raise returns a plain value;
    - Python [int]s that index or count are [nat], protobuf numbers are [Z];
    - a [dict] is a [gmap], [None] is [option]'s [None];
    - calls to the logger are left out: they do not touch the result. *)

From Stdlib Require Import ZArith String Ascii List Bool Lia DecimalString.
From stdpp Require Import base option list gmap strings.

Local Open Scope Z_scope.

(** ** Python strings *)

Module PyStr.

Definition nl : string := String "010"%char "".
Definition dq : string := String "034"%char "".

(** [s.startswith(p)] *)
Fixpoint startswith (s p : string) : bool :=
  match p, s with
  | EmptyString, _ => true
  | String _ _, EmptyString => false
  | String b p', String a s' => if Ascii.eqb a b then startswith s' p' else false
  end.

Fixpoint rev_onto (s acc : string) : string :=
  match s with
  | EmptyString => acc
  | String c s' => rev_onto s' (String c acc)
  end.

Definition rev (s : string) : string := rev_onto s "".

(** [s.endswith(p)] *)
Definition endswith (s p : string) : bool := startswith (rev s) (rev p).

(** [s[n:]] *)
Fixpoint drop (n : nat) (s : string) : string :=
  match n, s with
  | O, _ => s
  | S _, EmptyString => ""
  | S k, String _ s' => drop k s'
  end.

(** [s[:n]] *)
Fixpoint take (n : nat) (s : string) : string :=
  match n, s with
  | O, _ => ""
  | S _, EmptyString => ""
  | S k, String c s' => String c (take k s')
  end.

(** [s[:-1]] *)
Definition drop_last (s : string) : string := take (String.length s - 1) s.

(** [s * n] *)
Fixpoint repeat (s : string) (n : nat) : string :=
  match n with
  | O => ""
  | S k => s +:+ repeat s k
  end.

(** [sep.join(l)] *)
Fixpoint join (sep : string) (l : list string) : string :=
  match l with
  | [] => ""
  | [x] => x
  | x :: l' => x +:+ sep +:+ join sep l'
  end.

(** [c in s] for a one-character string [c] *)
Fixpoint contains_char (c : ascii) (s : string) : bool :=
  match s with
  | EmptyString => false
  | String a s' => if Ascii.eqb a c then true else contains_char c s'
  end.

(** [s.split(c)] for a one-character separator: never the empty list. *)
Fixpoint split (c : ascii) (s : string) : list string :=
  match s with
  | EmptyString => [""]
  | String a s' =>
      if Ascii.eqb a c then "" :: split c s'
      else match split c s' with
           | [] => [String a ""]
           | w :: ws => String a w :: ws
           end
  end.

(** The loop of [s.replace(old, new)] for a non-empty [old]: [skip] counts
    the characters of a match that are still to be passed over. *)
Fixpoint replace_go (old new s : string) (skip : nat) : string :=
  match s with
  | EmptyString => ""
  | String c s' =>
      match skip with
      | S k => replace_go old new s' k
      | O =>
          if startswith s old
          then new +:+ replace_go old new s' (String.length old - 1)
          else String c (replace_go old new s' 0)
      end
  end.

Fixpoint intersperse (new s : string) : string :=
  match s with
  | EmptyString => ""
  | String c s' => String c (new +:+ intersperse new s')
  end.

(** [s.replace(old, new)]: every non-overlapping occurrence, left to
    right; an empty [old] matches between all characters. *)
Definition replace (old new s : string) : string :=
  match old with
  | EmptyString => new +:+ intersperse new s
  | String _ _ => replace_go old new s 0
  end.

(** [str.isspace] on the characters below 256. *)
Definition isspace (c : ascii) : bool :=
  let n := nat_of_ascii c in
  ((9 <=? n) && (n <=? 13))%nat || ((28 <=? n) && (n <=? 32))%nat
  || (n =? 133)%nat || (n =? 160)%nat.

(** [s.lstrip()] *)
Fixpoint lstrip (s : string) : string :=
  match s with
  | EmptyString => ""
  | String c s' => if isspace c then lstrip s' else s
  end.

(** [s.rstrip()] *)
Definition rstrip (s : string) : string := rev (lstrip (rev s)).

(** [s.strip()] *)
Definition strip (s : string) : string := rstrip (lstrip s).

(** [s.rfind(c)] for a one-character [c]: [None] stands for -1. *)
Fixpoint rfind_char (c : ascii) (s : string) : option nat :=
  match s with
  | EmptyString => None
  | String a s' =>
      match rfind_char c s' with
      | Some i => Some (S i)
      | None => if Ascii.eqb a c then Some O else None
      end
  end.

(** [str(n)] for an [int] *)
Definition of_Z (z : Z) : string := NilZero.string_of_int (Z.to_int z).

(** The [while s.endswith("\n\n"): s = s[:-1]] loop, on the reversed
    string. *)
Fixpoint strip_double_nl_rev (r : string) : string :=
  match r with
  | String c1 r1 =>
      match r1 with
      | String c2 _ =>
          if Ascii.eqb c1 "010" && Ascii.eqb c2 "010"
          then strip_double_nl_rev r1 else r
      | EmptyString => r
      end
  | EmptyString => r
  end.

Definition strip_double_nl (s : string) : string :=
  rev (strip_double_nl_rev (rev s)).

End PyStr.

(** ** Exceptions *)

(** The exceptions the generator can raise: its own [ECodeGeneration] and
    the built-in ones raised by indexing, attribute access on [None] and
    [pathlib]. *)
Inductive exn : Type :=
  | ECodeGeneration (msg : string)
  | IndexError
  | AttributeError
  | ValueError.

Inductive result (A : Type) : Type :=
  | Ok (a : A)
  | Raise (e : exn).
Arguments Ok {A} a.
Arguments Raise {A} e.

#[global] Instance result_ret : MRet result := fun A a => Ok a.
#[global] Instance result_bind : MBind result := fun A B f r =>
  match r with
  | Ok a => f a
  | Raise e => Raise e
  end.
#[global] Instance result_fmap : FMap result := fun A B f r =>
  match r with
  | Ok a => Ok (f a)
  | Raise e => Raise e
  end.

Definition is_ok {A} (r : result A) : bool :=
  match r with Ok _ => true | Raise _ => false end.

(** [l[i]] on a list *)
Definition index {A} (l : list A) (i : nat) : result A :=
  match l !! i with
  | Some a => Ok a
  | None => Raise IndexError
  end.

(** [map] over an enumerated list, left to right, stopping at the first
    exception: the [zip(ctx_iterator, descriptors)] loops of the generator,
    where the i-th descriptor meets the context of index i. *)
Fixpoint mapM_from {A B} (f : nat -> A -> result B) (i : nat) (l : list A)
  : result (list B) :=
  match l with
  | [] => Ok []
  | a :: l' => b ← f i a; bs ← mapM_from f (S i) l'; Ok (b :: bs)
  end.

(** The loop over [zip(ctx_iterator, nested_type)] of [generate_data_class]:
    like [mapM_from], but a descriptor flagged as a map entry is passed
    over (its position still counts). *)
Section NestedLoop.

Context {A B : Type} (skip : A -> bool) (f : nat -> A -> result B).

Fixpoint mapM_unless (i : nat) (l : list A) : result (list B) :=
  match l with
  | [] => Ok []
  | a :: l' =>
      if negb (skip a) then
        b ← f i a; bs ← mapM_unless (S i) l'; Ok (b :: bs)
      else mapM_unless (S i) l'
  end.

End NestedLoop.

(** ** [pathlib]: pure POSIX paths *)

Module Pathlib.

(** A parsed path: the root ([""], ["/"] or ["//"]) and the components
    after it. *)
Record PurePath : Type := { root : string; parts : list string }.

Fixpoint lstrip_sep (s : string) : string :=
  match s with
  | String "/" s' => lstrip_sep s'
  | _ => s
  end.

Definition splitroot (part : string) : string * string :=
  if PyStr.startswith part "/" then
    let stripped := lstrip_sep part in
    if (String.length part - String.length stripped =? 2)%nat
    then ("//", stripped) else ("/", stripped)
  else ("", part).

Definition is_component (x : string) : bool :=
  negb (String.eqb x "") && negb (String.eqb x ".").

Definition components (rel : string) : list string :=
  List.filter is_component (PyStr.split "/" rel).

(** One argument of the [PurePath] constructor: a rooted argument restarts the
    path, any other one extends it; empty arguments are skipped. *)
Definition add_arg (p : PurePath) (arg : string) : PurePath :=
  if String.eqb arg "" then p
  else
    let '(r, rel) := splitroot arg in
    if String.eqb r "" then {| root := root p; parts := parts p ++ components rel |}
    else {| root := r; parts := components rel |}.

(** The [PurePath] constructor on its argument list *)
Definition of_args (args : list string) : PurePath :=
  fold_left add_arg args {| root := ""; parts := [] |}.

(** [p.joinpath(arg)] *)
Definition joinpath (p : PurePath) (arg : string) : PurePath :=
  let q := of_args [arg] in
  if String.eqb (root q) "" then {| root := root p; parts := parts p ++ parts q |}
  else q.

(** [p.name] *)
Definition name (p : PurePath) : string := List.last (parts p) "".

(** The position of the dot that starts the suffix of a file name. *)
Definition suffix_index (n : string) : option nat :=
  match PyStr.rfind_char "." n with
  | Some i => if (0 <? i)%nat && (i <? String.length n - 1)%nat then Some i else None
  | None => None
  end.

(** [p.suffix] *)
Definition suffix (p : PurePath) : string :=
  match suffix_index (name p) with
  | Some i => PyStr.drop i (name p)
  | None => ""
  end.

(** [p.stem] *)
Definition stem (p : PurePath) : string :=
  match suffix_index (name p) with
  | Some i => PyStr.take i (name p)
  | None => name p
  end.

(** [p.with_suffix(sfx)]: [ValueError] for an invalid suffix or a path
    with an empty name. *)
Definition with_suffix (p : PurePath) (sfx : string) : result PurePath :=
  if PyStr.contains_char "/" sfx then Raise ValueError
  else if (negb (String.eqb sfx "") && negb (PyStr.startswith sfx "."))
          || String.eqb sfx "." then Raise ValueError
  else if String.eqb (name p) "" then Raise ValueError
  else
    let new_name :=
      match suffix_index (name p) with
      | Some i => PyStr.take i (name p) +:+ sfx
      | None => name p +:+ sfx
      end in
    Ok {| root := root p; parts := removelast (parts p) ++ [new_name] |}.

(** [str(p)] *)
Definition str (p : PurePath) : string :=
  let s := root p +:+ PyStr.join "/" (parts p) in
  if String.eqb s "" then "." else s.

End Pathlib.

(** ** Protobuf descriptors (google.protobuf.descriptor_pb2) *)

(** [SourceCodeInfo.Location] *)
Record Location : Type := {
  path : list Z;
  span : list Z;
  leading_comments : string;
  trailing_comments : string;
  leading_detached_comments : list string
}.

Record EnumValueDescriptorProto : Type := {
  ev_name : string;
  ev_number : Z
}.

Record EnumDescriptorProto : Type := {
  enum_name : string;
  enum_value : list EnumValueDescriptorProto
}.

Inductive Label : Type := LABEL_OPTIONAL | LABEL_REQUIRED | LABEL_REPEATED.

#[global] Instance Label_eq_dec : EqDecision Label.
Proof. solve_decision. Defined.

(** [FieldDescriptorProto.Type]: the type codes of descriptor.proto. *)
Definition TYPE_DOUBLE : Z := 1.
Definition TYPE_FLOAT : Z := 2.
Definition TYPE_INT64 : Z := 3.
Definition TYPE_UINT64 : Z := 4.
Definition TYPE_INT32 : Z := 5.
Definition TYPE_FIXED64 : Z := 6.
Definition TYPE_FIXED32 : Z := 7.
Definition TYPE_BOOL : Z := 8.
Definition TYPE_STRING : Z := 9.
Definition TYPE_GROUP : Z := 10.
Definition TYPE_MESSAGE : Z := 11.
Definition TYPE_BYTES : Z := 12.
Definition TYPE_UINT32 : Z := 13.
Definition TYPE_ENUM : Z := 14.
Definition TYPE_SFIXED32 : Z := 15.
Definition TYPE_SFIXED64 : Z := 16.
Definition TYPE_SINT32 : Z := 17.
Definition TYPE_SINT64 : Z := 18.

(** [oneof_index] is [Some] exactly when [HasField('oneof_index')]. *)
Record FieldDescriptorProto : Type := {
  field_name : string;
  field_label : Label;
  field_type : Z;
  field_type_name : string;
  field_oneof_index : option Z;
  field_proto3_optional : bool
}.

(** [DescriptorProto]; [msg_map_entry] is [options.map_entry]. *)
#[warnings="-register-all"]
Inductive DescriptorProto : Type :=
  Build_DescriptorProto
    (name : string)
    (field : list FieldDescriptorProto)
    (nested_type : list DescriptorProto)
    (enum_type : list EnumDescriptorProto)
    (map_entry : bool).

Definition msg_name (d : DescriptorProto) : string :=
  match d with Build_DescriptorProto n _ _ _ _ => n end.
Definition msg_field (d : DescriptorProto) : list FieldDescriptorProto :=
  match d with Build_DescriptorProto _ f _ _ _ => f end.
Definition msg_nested_type (d : DescriptorProto) : list DescriptorProto :=
  match d with Build_DescriptorProto _ _ n _ _ => n end.
Definition msg_enum_type (d : DescriptorProto) : list EnumDescriptorProto :=
  match d with Build_DescriptorProto _ _ _ e _ => e end.
Definition msg_map_entry (d : DescriptorProto) : bool :=
  match d with Build_DescriptorProto _ _ _ _ m => m end.

Record MethodDescriptorProto : Type := {
  method_name : string;
  method_input_type : string;
  method_output_type : string
}.

Record ServiceDescriptorProto : Type := {
  service_name : string;
  service_method : list MethodDescriptorProto
}.

(** [FileDescriptorProto]; [file_locations] is
    [source_code_info.location]. *)
Record FileDescriptorProto : Type := {
  file_name : string;
  file_package : string;
  file_dependency : list string;
  file_message_type : list DescriptorProto;
  file_enum_type : list EnumDescriptorProto;
  file_service : list ServiceDescriptorProto;
  file_locations : list Location
}.

(** [CodeGeneratorResponse.File] *)
Record File : Type := {
  out_name : string;
  out_content : string
}.

(** The field tables of the descriptor messages themselves, as
    descriptor.proto declares them: what [DESCRIPTOR.fields] enumerates. *)
Record MessageSchema : Type := {
  schema_name : string;
  schema_fields : list (string * Z)
}.

Definition FileDescriptorProto_schema : MessageSchema := {|
  schema_name := "FileDescriptorProto";
  schema_fields :=
    [("name", 1); ("package", 2); ("dependency", 3); ("public_dependency", 10);
     ("weak_dependency", 11); ("message_type", 4); ("enum_type", 5);
     ("service", 6); ("extension", 7); ("options", 8);
     ("source_code_info", 9); ("syntax", 12)]
|}.

Definition DescriptorProto_schema : MessageSchema := {|
  schema_name := "DescriptorProto";
  schema_fields :=
    [("name", 1); ("field", 2); ("extension", 6); ("nested_type", 3);
     ("enum_type", 4); ("extension_range", 5); ("oneof_decl", 8);
     ("options", 7); ("reserved_range", 9); ("reserved_name", 10)]
|}.

Definition EnumDescriptorProto_schema : MessageSchema := {|
  schema_name := "EnumDescriptorProto";
  schema_fields :=
    [("name", 1); ("value", 2); ("options", 3); ("reserved_range", 4);
     ("reserved_name", 5)]
|}.

Definition ServiceDescriptorProto_schema : MessageSchema := {|
  schema_name := "ServiceDescriptorProto";
  schema_fields := [("name", 1); ("method", 2); ("options", 3)]
|}.

(** ** The generator's own types *)

Record LocationContext : Type := {
  src_locations : list Location;
  src_loc_code : Z;
  src_loc_index : Z;
  indent : nat
}.

Definition for_index (self : LocationContext) (i : Z) : LocationContext :=
  {| src_locations := src_locations self;
     src_loc_code := src_loc_code self;
     src_loc_index := i;
     indent := indent self |}.

Inductive TypeClass : Type := ENUM | MESSAGE | SERVICE.

Record TypeInfo : Type := {
  typeClass : TypeClass;
  ti_enum : option EnumDescriptorProto;
  ti_message : option DescriptorProto;
  ti_service : option ServiceDescriptorProto
}.

(** The instance state set up by [__init__]. *)
Record TracGenerator : Type := {
  _options : gmap string string;
  _desc_file_enum : Z;
  _desc_file_message : Z;
  _desc_file_service : Z;
  _desc_enum_value : Z;
  _desc_message_field : Z;
  _desc_service_method : Z
}.

Definition get_field_number (message_descriptor : MessageSchema)
    (field_name : string) : result Z :=
  match List.find (fun f => String.eqb (fst f) field_name)
          (schema_fields message_descriptor) with
  | Some field_descriptor => Ok (snd field_descriptor)
  | None =>
      Raise (ECodeGeneration
        ("Field " +:+ field_name +:+ " not found in type "
         +:+ schema_name message_descriptor))
  end.

Definition TracGenerator_init (options : gmap string string)
  : result TracGenerator :=
  fe ← get_field_number FileDescriptorProto_schema "enum_type";
  fm ← get_field_number FileDescriptorProto_schema "message_type";
  fs ← get_field_number FileDescriptorProto_schema "service";
  ev ← get_field_number EnumDescriptorProto_schema "value";
  mf ← get_field_number DescriptorProto_schema "field";
  sm ← get_field_number ServiceDescriptorProto_schema "method";
  Ok {| _options := options; _desc_file_enum := fe; _desc_file_message := fm;
        _desc_file_service := fs; _desc_enum_value := ev;
        _desc_message_field := mf; _desc_service_method := sm |}.

(** ** The [re] module

    The generator calls [re.sub] and [re.match] of the Python standard
    library.  The library is not part of the generator: it is a parameter
    of the embedding, and every call site passes the pattern, replacement,
    count and flag the source passes. *)
Record ReModule : Type := {
  (** [re.sub(pattern, repl, string, count, flags)]; [count = 0] replaces
      every match, the flag is [re.IGNORECASE]. *)
  re_sub : string -> string -> string -> nat -> bool -> string;
  (** [re.compile(pattern).match(string)] for a pattern with two groups:
      [group(1)] and [group(2)] of the match, if there is one. *)
  re_match2 : string -> string -> option (string * string)
}.

(** ** Templates *)

Definition nl : string := PyStr.nl.
Definition dq3 : string := PyStr.dq +:+ PyStr.dq +:+ PyStr.dq.

Definition INDENT_TEMPLATE : string := "    ".

Definition PACKAGE_IMPORT_TEMPLATE : string :=
  "from .{MODULE_NAME} import {SYMBOL}" +:+ nl.

Definition FILE_TEMPLATE : string :=
  "{FILE_HEADER}" +:+ "{STD_IMPORTS}" +:+ "{PKG_IMPORTS}" +:+ "{ENUMS_CODE}"
  +:+ nl +:+ "{MESSAGES_CODE}" +:+ nl +:+ "{SERVICES_CODE}" +:+ nl.

Definition FILE_HEADER : string := "# Code generated by TRAC" +:+ nl +:+ nl.

Definition STD_IMPORTS : string :=
  "from __future__ import annotations" +:+ nl
  +:+ "import typing as _tp  # noqa" +:+ nl
  +:+ "import dataclasses as _dc  # noqa" +:+ nl
  +:+ "import enum as _enum  # noqa" +:+ nl +:+ nl.

Definition MODULE_ALIAS_IMPORT : string := "import {MODULE} as {ALIAS}" +:+ nl.

Definition SCOPE_IMPORT : string := "from .{MODULE} import *  # noqa" +:+ nl.

Definition ENUM_TEMPLATE : string :=
  "{INDENT}class {CLASS_NAME}(_enum.Enum):" +:+ nl +:+ nl
  +:+ "{DOC_COMMENT}" +:+ "{ENUM_VALUES}".

Definition ENUM_VALUE_TEMPLATE : string :=
  "{INDENT}{ENUM_VALUE_NAME} = {ENUM_VALUE_NUMBER}, {QUOTED_COMMENT}" +:+ nl +:+ nl.

Definition DATA_CLASS_TEMPLATE : string :=
  "{INDENT}@_dc.dataclass" +:+ nl
  +:+ "{INDENT}class {CLASS_NAME}:" +:+ nl
  +:+ nl
  +:+ "{DOC_COMMENT}" +:+ "{NESTED_ENUMS}" +:+ "{NESTED_CLASSES}" +:+ "{DATA_MEMBERS}".

Definition DATA_MEMBER_TEMPLATE : string :=
  "{INDENT}{MEMBER_NAME}: {MEMBER_TYPE} = {MEMBER_DEFAULT}" +:+ nl +:+ nl
  +:+ "{DOC_COMMENT}".

Definition SERVICE_CLASS_TEMPLATE : string :=
  "{INDENT}class {SERVICE_NAME}:" +:+ nl
  +:+ nl
  +:+ "{DOC_COMMENT}" +:+ "{METHODS}".

Definition SERVICE_METHOD_TEMPLATE : string :=
  "{INDENT}def {METHOD_NAME}(self, request: {REQUEST_TYPE}) -> {RESPONSE_TYPE}:" +:+ nl
  +:+ nl
  +:+ "{DOC_COMMENT}"
  +:+ "{NEXT_INDENT}pass" +:+ nl +:+ nl.

Definition PASS_TEMPLATE : string := "{INDENT}pass" +:+ nl +:+ nl.

Definition COMMENT_SINGLE_LINE : string :=
  "{INDENT}" +:+ dq3 +:+ "{COMMENT}" +:+ dq3 +:+ nl +:+ nl.

Definition COMMENT_MULTI_LINE : string :=
  "{INDENT}" +:+ dq3 +:+ nl
  +:+ "{COMMENT}" +:+ nl
  +:+ "{INDENT}" +:+ dq3 +:+ nl +:+ nl.

Definition ENUM_COMMENT_SINGLE_LINE : string := dq3 +:+ "{COMMENT}" +:+ dq3.

Definition ENUM_COMMENT_MULTI_LINE : string :=
  dq3 +:+ "{COMMENT}" +:+ nl +:+ "{INDENT}" +:+ dq3.

(** [INDENT_TEMPLATE * n] *)
Definition indent_str (n : nat) : string := PyStr.repeat INDENT_TEMPLATE n.

(** ** The static primitive type table *)

(** The Python types of the table; [py_name] is their [__name__]. *)
Inductive PyType : Type := py_float | py_int | py_bool | py_str | py_bytes.

Definition py_name (t : PyType) : string :=
  match t with
  | py_float => "float"
  | py_int => "int"
  | py_bool => "bool"
  | py_str => "str"
  | py_bytes => "bytes"
  end.

Definition PRIMITIVE_TYPE_MAPPING : gmap Z PyType :=
  list_to_map
    [(TYPE_DOUBLE, py_float);
     (TYPE_FLOAT, py_float);
     (TYPE_INT64, py_int);
     (TYPE_UINT64, py_int);
     (TYPE_INT32, py_int);
     (TYPE_FIXED64, py_int);
     (TYPE_FIXED32, py_int);
     (TYPE_BOOL, py_bool);
     (TYPE_STRING, py_str);
     (TYPE_BYTES, py_bytes);
     (TYPE_UINT32, py_int);
     (TYPE_SFIXED32, py_int);
     (TYPE_SFIXED64, py_int);
     (TYPE_SINT32, py_int);
     (TYPE_SINT64, py_int)].

(** ** Source location filtering *)

Definition relative_path (loc : Location) : Location :=
  {| path := drop 2 (path loc);
     span := span loc;
     leading_comments := leading_comments loc;
     trailing_comments := trailing_comments loc;
     leading_detached_comments := leading_detached_comments loc |}.

Definition filter_src_location (locations : list Location)
    (loc_type loc_index : Z) : list Location :=
  List.map relative_path
    (List.filter
       (fun l => (2 <=? length (path l))%nat
                 && bool_decide (path l !! 0%nat = Some loc_type)
                 && bool_decide (path l !! 1%nat = Some loc_index))
       locations).

Definition current_location (locations : list Location) : option Location :=
  List.find (fun l => (length (path l) =? 0)%nat) locations.

(** The iterator of [index_sub_ctx], as the function from a position to
    the context it yields there. *)
Definition index_sub_ctx (src_locations : list Location) (field_number : Z)
    (indent : nat) (i : nat) : LocationContext :=
  for_index
    {| src_locations := src_locations; src_loc_code := field_number;
       src_loc_index := 0; indent := indent |}
    (Z.of_nat i).

Definition comment_for_current_location (locations : list Location)
  : option string :=
  match current_location locations with
  | Some current_loc => Some (leading_comments current_loc)
  | None => None
  end.

(** ** Type registry *)

#[warnings="-register-all"]
Fixpoint build_type_map_for_message (scope : string)
    (types : gmap string TypeInfo) (proto_msg : DescriptorProto)
  : gmap string TypeInfo :=
  let inner_scope := scope +:+ msg_name proto_msg +:+ "." in
  let local_types :=
    fold_left (build_type_map_for_message inner_scope)
      (msg_nested_type proto_msg) types in
  let local_types :=
    fold_left
      (fun local_types enum_type =>
         <[inner_scope +:+ enum_name enum_type :=
             {| typeClass := ENUM; ti_enum := Some enum_type;
                ti_message := None; ti_service := None |}]> local_types)
      (msg_enum_type proto_msg) local_types in
  <[scope +:+ msg_name proto_msg :=
      {| typeClass := MESSAGE; ti_enum := None;
         ti_message := Some proto_msg; ti_service := None |}]> local_types.

Definition build_type_map_for_file (types : gmap string TypeInfo)
    (proto_file : FileDescriptorProto) : gmap string TypeInfo :=
  let scope :=
    if String.eqb (file_package proto_file) "" then ""
    else file_package proto_file +:+ "." in
  let local_types :=
    fold_left (build_type_map_for_message scope)
      (file_message_type proto_file) types in
  let local_types :=
    fold_left
      (fun local_types enum_type =>
         <[scope +:+ enum_name enum_type :=
             {| typeClass := ENUM; ti_enum := Some enum_type;
                ti_message := None; ti_service := None |}]> local_types)
      (file_enum_type proto_file) local_types in
  fold_left
    (fun local_types service =>
       <[scope +:+ service_name service :=
           {| typeClass := SERVICE; ti_enum := None;
              ti_message := None; ti_service := Some service |}]> local_types)
    (file_service proto_file) local_types.

Definition build_type_map (proto_files : list FileDescriptorProto)
  : gmap string TypeInfo :=
  fold_left build_type_map_for_file proto_files ∅.

(** ** Python type hints and defaults *)

Definition python_type_name (package proto_type_name : string)
    (make_relative alias : bool) : string :=
  let type_name :=
    if PyStr.startswith proto_type_name "."
    then PyStr.drop 1 proto_type_name else proto_type_name in
  let type_name :=
    if make_relative && PyStr.startswith type_name package
    then PyStr.drop (String.length package + 1) type_name else type_name in
  let type_name :=
    if alias && PyStr.startswith type_name "trac."
    then PyStr.drop (String.length "trac.") type_name else type_name in
  type_name.

Definition python_base_type (package : string) (field : FieldDescriptorProto)
    (make_relative alias : bool) : result string :=
  if (field_type field =? TYPE_MESSAGE) || (field_type field =? TYPE_ENUM) then
    Ok (python_type_name package (field_type_name field) make_relative alias)
  else
    match PRIMITIVE_TYPE_MAPPING !! field_type field with
    | Some t => Ok (py_name t)
    | None =>
        Raise (ECodeGeneration
          ("Unknown type in protobuf field descriptor: field = "
           +:+ field_name field +:+ ", type code = "
           +:+ PyStr.of_Z (field_type field)))
    end.

Definition python_field_type (package : string) (field : FieldDescriptorProto)
    (message : DescriptorProto) : result string :=
  base_type ← python_base_type package field true true;
  if bool_decide (field_label field = LABEL_REPEATED) then
    let nested_type :=
      List.find
        (fun nt => String.eqb base_type (msg_name message +:+ "." +:+ msg_name nt))
        (msg_nested_type message) in
    match nested_type with
    | Some nested_type =>
        if msg_map_entry nested_type then
          key_field ← index (msg_field nested_type) 0;
          key_type ← python_base_type package key_field true true;
          value_field ← index (msg_field nested_type) 1;
          value_type ← python_base_type package value_field true true;
          Ok ("_tp.Dict[" +:+ key_type +:+ ", " +:+ value_type +:+ "]")
        else Ok ("_tp.List[" +:+ base_type +:+ "]")
    | None => Ok ("_tp.List[" +:+ base_type +:+ "]")
    end
  else if field_proto3_optional field then
    Ok ("_tp.Optional[" +:+ base_type +:+ "]")
  else if bool_decide (is_Some (field_oneof_index field)) then
    Ok ("_tp.Optional[" +:+ base_type +:+ "]")
  else Ok base_type.

Definition python_default_value (package : string)
    (field : FieldDescriptorProto) (message : DescriptorProto)
    (types : gmap string TypeInfo) : result string :=
  type_name ← python_base_type package field false false;
  let type_info := types !! type_name in
  if bool_decide (field_label field = LABEL_REPEATED) then
    let nested_type :=
      List.find
        (fun nt => PyStr.endswith type_name (msg_name message +:+ "." +:+ msg_name nt))
        (msg_nested_type message) in
    match nested_type with
    | Some nested_type =>
        if msg_map_entry nested_type
        then Ok "_dc.field(default_factory=dict)"
        else Ok "_dc.field(default_factory=list)"
    | None => Ok "_dc.field(default_factory=list)"
    end
  else if bool_decide (is_Some (field_oneof_index field)) then Ok "None"
  else if field_type field =? TYPE_MESSAGE then Ok "None"
  else if field_type field =? TYPE_ENUM then
    match type_info with
    | None => Raise AttributeError
    | Some type_info =>
        match ti_enum type_info with
        | None => Raise AttributeError
        | Some enum_type =>
            first_value ← index (enum_value enum_type) 0;
            Ok (enum_name enum_type +:+ "." +:+ ev_name first_value)
        end
    end
  else Ok "None".

(** ** Comments and declarations *)

Fixpoint foldM {A S : Type} (f : S -> A -> result S) (s : S) (l : list A)
  : result S :=
  match l with
  | [] => Ok s
  | a :: l' => s' ← f s a; foldM f s' l'
  end.

Section Generator.

Context (re : ReModule).

Definition translate_comment_from_proto (ctx : LocationContext)
    (comment : option string) (use_next_indent : bool) : option string :=
  match comment with
  | None => Some ""
  | Some comment =>
      let indent := if use_next_indent then (indent ctx + 1)%nat else indent ctx in
      let next_indent := indent_str (indent + 1) in
      let translated_comment :=
        re_sub re ("^(\*" +:+ nl +:+ ")|/") "" comment 1 false in
      let translated_comment :=
        re_sub re (nl +:+ "$") "" translated_comment 0 false in
      let translated_comment :=
        re_sub re "^ ?" (indent_str indent) translated_comment 0 false in
      let translated_comment :=
        re_sub re "\n ?" (nl +:+ indent_str indent) translated_comment 0 false in
      let translated_comment :=
        re_sub re "@see ((?:\w+\.)*)(\w+\.)(\w+)\(\)"
          (".. seealso::\n" +:+ next_indent +:+ ":meth:`\2\3 <\1\2\3>`")
          translated_comment 0 true in
      let translated_comment :=
        re_sub re "@see ((?:\w+\.)*)(\w+)"
          (".. seealso::\n" +:+ next_indent +:+ ":class:`\2 <\1\2>`")
          translated_comment 0 true in
      let translated_comment :=
        re_sub re "(:class:.*)\n\s*\.\. seealso::\n" ("\1," +:+ nl)
          translated_comment 0 true in
      if String.eqb (PyStr.strip translated_comment) "" then Some ""
      else Some translated_comment
  end.

Definition format_doc_comment (ctx : LocationContext)
    (comment : option string) (next_indent : bool) : string :=
  let translated_comment := translate_comment_from_proto ctx comment next_indent in
  let indent := if next_indent then (indent ctx + 1)%nat else indent ctx in
  match translated_comment with
  | None => ""
  | Some translated_comment =>
      if String.eqb (PyStr.strip translated_comment) "" then ""
      else if PyStr.contains_char "010" (PyStr.strip translated_comment) then
        PyStr.replace "{COMMENT}" translated_comment
          (PyStr.replace "{INDENT}" (indent_str indent) COMMENT_MULTI_LINE)
      else
        PyStr.replace "{COMMENT}" (PyStr.strip translated_comment)
          (PyStr.replace "{INDENT}" (indent_str indent) COMMENT_SINGLE_LINE)
  end.

(** [translated_comment.lstrip()] raises [AttributeError] on [None]. *)
Definition format_enum_comment (ctx : LocationContext)
    (comment : option string) : result string :=
  match translate_comment_from_proto ctx comment false with
  | None => Raise AttributeError
  | Some translated_comment =>
      let translated_comment := PyStr.lstrip translated_comment in
      if String.eqb (PyStr.strip translated_comment) "" then Ok ""
      else if negb (PyStr.contains_char "010" (PyStr.strip translated_comment)) then
        Ok (PyStr.replace "{COMMENT}" (PyStr.strip translated_comment)
              (PyStr.replace "{INDENT}" (indent_str (indent ctx))
                 ENUM_COMMENT_SINGLE_LINE))
      else
        Ok (PyStr.replace "{COMMENT}" translated_comment
              (PyStr.replace "{INDENT}" (indent_str (indent ctx))
                 ENUM_COMMENT_MULTI_LINE))
  end.

Definition generate_enum_value (ctx : LocationContext)
    (descriptor : EnumValueDescriptorProto) : result string :=
  let filtered_loc :=
    filter_src_location (src_locations ctx) (src_loc_code ctx) (src_loc_index ctx) in
  let raw_comment := comment_for_current_location filtered_loc in
  formatted_comment ← format_enum_comment ctx raw_comment;
  Ok (PyStr.replace "{ENUM_VALUE_NUMBER}" (PyStr.of_Z (ev_number descriptor))
     (PyStr.replace "{ENUM_VALUE_NAME}" (ev_name descriptor)
     (PyStr.replace "{QUOTED_COMMENT}" formatted_comment
     (PyStr.replace "{INDENT}" (indent_str (indent ctx))
        ENUM_VALUE_TEMPLATE)))).

(** [if enum_scope:] holds for a scope that is neither [None] nor the
    empty string. *)
Definition truthy (s : option string) : bool :=
  match s with
  | None => false
  | Some s => negb (String.eqb s "")
  end.

Definition generate_enum (self : TracGenerator) (ctx : LocationContext)
    (descriptor : EnumDescriptorProto) (enum_scope : option string)
  : result string :=
  if truthy enum_scope then
    let scoped_name := default "" enum_scope +:+ "." +:+ enum_name descriptor in
    let err := " [ ENUM  ] " +:+ scoped_name +:+ ": Nested enums not currently supported" in
    Raise (ECodeGeneration err)
  else
    let filtered_loc :=
      filter_src_location (src_locations ctx) (src_loc_code ctx) (src_loc_index ctx) in
    if bool_decide (enum_value descriptor = []) then
      Ok (PyStr.replace "{INDENT}" (indent_str (indent ctx)) PASS_TEMPLATE)
    else
      let values_ctx :=
        index_sub_ctx filtered_loc (_desc_enum_value self) (indent ctx + 1) in
      values ← mapM_from (fun i ev => generate_enum_value (values_ctx i) ev)
                 0 (enum_value descriptor);
      let raw_comment := comment_for_current_location filtered_loc in
      let doc_comment := format_doc_comment ctx raw_comment true in
      Ok (PyStr.replace "{ENUM_VALUES}" (PyStr.join "" values)
         (PyStr.replace "{CLASS_NAME}" (enum_name descriptor)
         (PyStr.replace "{DOC_COMMENT}" doc_comment
         (PyStr.replace "{NEXT_INDENT}" (indent_str (indent ctx + 1))
         (PyStr.replace "{INDENT}" (indent_str (indent ctx))
            ENUM_TEMPLATE))))).

Definition generate_data_member (package : string) (ctx : LocationContext)
    (message : DescriptorProto) (field : FieldDescriptorProto)
    (types : gmap string TypeInfo) : result string :=
  let filtered_loc :=
    filter_src_location (src_locations ctx) (src_loc_code ctx) (src_loc_index ctx) in
  field_type ← python_field_type package field message;
  field_default ← python_default_value package field message types;
  let raw_comment := comment_for_current_location filtered_loc in
  let doc_comment := format_doc_comment ctx raw_comment false in
  Ok (PyStr.replace "{DOC_COMMENT}" doc_comment
     (PyStr.replace "{MEMBER_DEFAULT}" field_default
     (PyStr.replace "{MEMBER_TYPE}" field_type
     (PyStr.replace "{MEMBER_NAME}" (field_name field)
     (PyStr.replace "{INDENT}" (indent_str (indent ctx))
        DATA_MEMBER_TEMPLATE))))).

Definition generate_data_members (self : TracGenerator) (package : string)
    (ctx : LocationContext) (descriptor : DescriptorProto)
    (types : gmap string TypeInfo) : result string :=
  if bool_decide (msg_field descriptor = []) then
    Ok (PyStr.replace "{INDENT}" (indent_str (indent ctx)) PASS_TEMPLATE)
  else
    let members_ctx :=
      index_sub_ctx (src_locations ctx) (_desc_message_field self) (indent ctx) in
    members ← mapM_from
                (fun i f => generate_data_member package (members_ctx i) descriptor f types)
                0 (msg_field descriptor);
    Ok (PyStr.join "" members).

#[warnings="-register-all"]
Fixpoint generate_data_class (self : TracGenerator) (package : string)
    (message_scope : option string) (ctx : LocationContext)
    (descriptor : DescriptorProto) (types : gmap string TypeInfo)
    {struct descriptor} : result string :=
  let filtered_loc :=
    filter_src_location (src_locations ctx) (src_loc_code ctx) (src_loc_index ctx) in
  let nested_scope :=
    match message_scope with
    | None => msg_name descriptor
    | Some message_scope => message_scope +:+ "." +:+ msg_name descriptor
    end in
  let nested_enums_ctx :=
    index_sub_ctx filtered_loc (_desc_file_enum self) (indent ctx + 1) in
  nested_enums ← mapM_from
      (fun i enum_desc => generate_enum self (nested_enums_ctx i) enum_desc (Some nested_scope))
      0 (msg_enum_type descriptor);
  let nested_types_ctx :=
    index_sub_ctx filtered_loc (_desc_file_message self) (indent ctx + 1) in
  nested_types ← mapM_unless msg_map_entry
      (fun i sub_desc =>
         generate_data_class self package (Some nested_scope)
           (nested_types_ctx i) sub_desc types)
      0 (msg_nested_type descriptor);
  let data_members_ctx :=
    {| src_locations := filtered_loc; src_loc_code := src_loc_code ctx;
       src_loc_index := src_loc_index ctx; indent := (indent ctx + 1)%nat |} in
  data_members ← generate_data_members self package data_members_ctx descriptor types;
  let raw_comment := comment_for_current_location filtered_loc in
  let doc_comment := format_doc_comment ctx raw_comment true in
  Ok (PyStr.replace "{DATA_MEMBERS}" data_members
     (PyStr.replace "{NESTED_CLASSES}" (PyStr.join "" nested_types)
     (PyStr.replace "{NESTED_ENUMS}" (PyStr.join "" nested_enums)
     (PyStr.replace "{DOC_COMMENT}" doc_comment
     (PyStr.replace "{CLASS_NAME}" (msg_name descriptor)
     (PyStr.replace "{NEXT_INDENT}" (indent_str (indent ctx + 1))
     (PyStr.replace "{INDENT}" (indent_str (indent ctx))
        DATA_CLASS_TEMPLATE))))))).

Definition generate_service_method (package : string) (ctx : LocationContext)
    (descriptor : MethodDescriptorProto) : string :=
  let filtered_loc :=
    filter_src_location (src_locations ctx) (src_loc_code ctx) (src_loc_index ctx) in
  let request_type :=
    python_type_name package (method_input_type descriptor) true false in
  let response_type :=
    python_type_name package (method_output_type descriptor) true false in
  let raw_comment := comment_for_current_location filtered_loc in
  let doc_comment := format_doc_comment ctx raw_comment true in
  PyStr.replace "{DOC_COMMENT}" doc_comment
    (PyStr.replace "{RESPONSE_TYPE}" response_type
    (PyStr.replace "{REQUEST_TYPE}" request_type
    (PyStr.replace "{METHOD_NAME}" (method_name descriptor)
    (PyStr.replace "{NEXT_INDENT}" (indent_str (indent ctx + 1))
    (PyStr.replace "{INDENT}" (indent_str (indent ctx))
       SERVICE_METHOD_TEMPLATE))))).

Definition generate_service_class (self : TracGenerator) (package : string)
    (ctx : LocationContext) (descriptor : ServiceDescriptorProto) : string :=
  let filtered_loc :=
    filter_src_location (src_locations ctx) (src_loc_code ctx) (src_loc_index ctx) in
  let raw_comment := comment_for_current_location filtered_loc in
  let doc_comment := format_doc_comment ctx raw_comment true in
  let methods_ctx :=
    index_sub_ctx filtered_loc (_desc_service_method self) (indent ctx + 1) in
  let methods :=
    imap (fun i method_desc => generate_service_method package (methods_ctx i) method_desc)
      (service_method descriptor) in
  PyStr.replace "{METHODS}" (PyStr.join "" methods)
    (PyStr.replace "{DOC_COMMENT}" doc_comment
    (PyStr.replace "{SERVICE_NAME}" (service_name descriptor)
    (PyStr.replace "{INDENT}" (indent_str (indent ctx))
       SERVICE_CLASS_TEMPLATE))).

(** One turn of the loop of [generate_module_imports] over
    [descriptor.dependency]; the state is [(import_stmts, prior_imports)]. *)
Definition module_import_step (self : TracGenerator) (api_package : string)
    (st : list string * gset string) (import_proto : string)
  : list string * gset string :=
  let '(import_stmts, prior_imports) := st in
  match re_match2 re "^(trac/.+)/([^/]+)\.proto$" import_proto with
  | None => st
  | Some (g1, g2) =>
      let import_package := PyStr.replace "/" "." g1 in
      let import_module := PyStr.replace "/" "." g2 in
      if String.eqb import_package api_package
         && negb (bool_decide (import_module ∈ prior_imports)) then
        let import_stmt := PyStr.replace "{MODULE}" import_module SCOPE_IMPORT in
        (import_stmts ++ [import_stmt], prior_imports ∪ {[import_module]})
      else if negb (bool_decide (import_package ∈ prior_imports)) then
        let target_package := default "trac" (_options self !! "target_package") in
        let sub_package := PyStr.replace "trac." "" import_package in
        let qualified_package := target_package +:+ "." +:+ sub_package in
        let alias :=
          match PyStr.rfind_char "." import_package with
          | Some i => PyStr.drop (i + 1) import_package
          | None => import_package
          end in
        let import_stmt :=
          PyStr.replace "{ALIAS}" alias
            (PyStr.replace "{MODULE}" qualified_package MODULE_ALIAS_IMPORT) in
        (import_stmts ++ [import_stmt], prior_imports ∪ {[import_package]})
      else st
  end.

Definition generate_module_imports (self : TracGenerator)
    (descriptor : FileDescriptorProto) (api_package : string) : list string :=
  fst (fold_left (module_import_step self api_package)
         (file_dependency descriptor) ([], ∅)).

Definition generate_file (self : TracGenerator) (src_loc : list Location)
    (indent : nat) (descriptor : FileDescriptorProto) (api_package : string)
    (type_map : gmap string TypeInfo) (include_header : bool) : result string :=
  let '(file_header, std_imports, import_stmts) :=
    if include_header
    then (FILE_HEADER, STD_IMPORTS, generate_module_imports self descriptor api_package)
    else ("", "", []) in
  let pkg_imports :=
    if existsb (fun s => negb (String.eqb s "")) import_stmts
    then PyStr.join "" import_stmts +:+ nl +:+ nl else "" in
  let enums_ctx := index_sub_ctx src_loc (_desc_file_enum self) indent in
  enums ← mapM_from (fun i desc => generate_enum self (enums_ctx i) desc None)
             0 (file_enum_type descriptor);
  let messages_ctx := index_sub_ctx src_loc (_desc_file_message self) indent in
  messages ← mapM_from
      (fun i desc =>
         generate_data_class self (file_package descriptor)
           (Some (file_package descriptor)) (messages_ctx i) desc type_map)
      0 (file_message_type descriptor);
  let services_ctx := index_sub_ctx src_loc (_desc_file_service self) indent in
  let services :=
    imap (fun i service_desc =>
            generate_service_class self (file_package descriptor)
              (services_ctx i) service_desc)
      (file_service descriptor) in
  Ok (PyStr.replace "{SERVICES_CODE}" (PyStr.join nl services)
     (PyStr.replace "{MESSAGES_CODE}" (PyStr.join nl messages)
     (PyStr.replace "{ENUMS_CODE}" (PyStr.join nl enums)
     (PyStr.replace "{PKG_IMPORTS}" pkg_imports
     (PyStr.replace "{STD_IMPORTS}" std_imports
     (PyStr.replace "{FILE_HEADER}" file_header
     (PyStr.replace "{INDENT}" (indent_str indent)
        FILE_TEMPLATE))))))).

(** [PACKAGE_IMPORT_TEMPLATE.format(MODULE_NAME=m, SYMBOL=s)] *)
Definition package_import (module_name symbol : string) : string :=
  "from ." +:+ module_name +:+ " import " +:+ symbol +:+ nl.

Definition generate_package_imports (descriptor : FileDescriptorProto) : string :=
  let file_path := Pathlib.of_args [file_name descriptor] in
  let module_name := Pathlib.stem file_path in
  let imports :=
    if (0 <? length (file_enum_type descriptor))%nat
       || (0 <? length (file_message_type descriptor))%nat
    then nl else "" in
  let imports :=
    fold_left (fun imports enum_type =>
                 imports +:+ package_import module_name (enum_name enum_type))
      (file_enum_type descriptor) imports in
  fold_left (fun imports message_type =>
               imports +:+ package_import module_name (msg_name message_type))
    (file_message_type descriptor) imports.

(** One turn of the loop of [generate_package] over [files]; the state is
    [(output_files, package_imports)]. *)
Definition package_file_step (self : TracGenerator) (api_package : string)
    (files : list FileDescriptorProto) (type_map : gmap string TypeInfo)
    (st : list File * string) (file_descriptor : FileDescriptorProto)
  : result (list File * string) :=
  let '(output_files, package_imports) := st in
  let flat_pack := bool_decide (is_Some (_options self !! "flat_pack")) in
  let package_path := Pathlib.of_args (PyStr.split "." api_package) in
  let src_locations := file_locations file_descriptor in
  module_code ← generate_file self src_locations 0 file_descriptor api_package
                  type_map (negb flat_pack);
  if flat_pack && (0 <? length files)%nat then
    if (length output_files =? 0)%nat then
      let module_code := FILE_HEADER +:+ STD_IMPORTS +:+ module_code in
      module_path ← Pathlib.with_suffix package_path ".py";
      Ok (output_files ++ [{| out_name := Pathlib.str module_path;
                              out_content := module_code |}],
          package_imports)
    else
      Ok (output_files ++ [{| out_name := ""; out_content := module_code |}],
          package_imports)
  else
    let module_code := PyStr.strip_double_nl module_code in
    let proto_file := Pathlib.of_args [file_name file_descriptor] in
    module_path ← Pathlib.with_suffix
                    (Pathlib.joinpath package_path (Pathlib.stem proto_file)) ".py";
    let package_imports :=
      package_imports +:+ generate_package_imports file_descriptor in
    Ok (output_files ++ [{| out_name := Pathlib.str module_path;
                            out_content := module_code |}],
        package_imports).

(** The first part of [generate_package], up to the package filter: the
    list [output_files] of the module files and the package [__init__]
    file. *)
Definition package_output_files (self : TracGenerator) (api_package : string)
    (files : list FileDescriptorProto) (type_map : gmap string TypeInfo)
  : result (list File) :=
  let flat_pack := bool_decide (is_Some (_options self !! "flat_pack")) in
  let package_path := Pathlib.of_args (PyStr.split "." api_package) in
  '(output_files, package_imports) ←
    foldM (package_file_step self api_package files type_map) ([], "") files;
  if negb flat_pack || (length files =? 0)%nat then
    Ok (output_files ++
          [{| out_name := Pathlib.str (Pathlib.joinpath package_path "__init__.py");
              out_content := PyStr.drop_last FILE_HEADER +:+ package_imports |}])
  else Ok output_files.

Definition generate_package (self : TracGenerator) (api_package : string)
    (files : list FileDescriptorProto) (type_map : gmap string TypeInfo)
  : result (list File) :=
  let package_path := Pathlib.of_args (PyStr.split "." api_package) in
  output_files ← package_output_files self api_package files type_map;
  match _options self !! "packages" with
  | None => Ok output_files
  | Some package_filter =>
      if String.eqb api_package package_filter
         || PyStr.startswith api_package (package_filter +:+ ".")
      then Ok output_files
      else if PyStr.startswith package_filter (api_package +:+ ".") then
        Ok [{| out_name := Pathlib.str (Pathlib.joinpath package_path "__init__.py");
               out_content := "" |}]
      else Ok []
  end.

End Generator.

(** ** Specification-level notions *)

(** The primitive type table as the specification words it: double and
    float to float; the integer, fixed and signed-fixed variants to int;
    bool, string and bytes to their Python namesakes. *)
Definition spec_primitive_type (code : Z) : option string :=
  if (code =? TYPE_DOUBLE) || (code =? TYPE_FLOAT) then Some "float"
  else if (code =? TYPE_INT64) || (code =? TYPE_UINT64) || (code =? TYPE_INT32)
          || (code =? TYPE_UINT32) || (code =? TYPE_SINT32) || (code =? TYPE_SINT64)
          || (code =? TYPE_FIXED64) || (code =? TYPE_FIXED32)
          || (code =? TYPE_SFIXED32) || (code =? TYPE_SFIXED64) then Some "int"
  else if code =? TYPE_BOOL then Some "bool"
  else if code =? TYPE_STRING then Some "str"
  else if code =? TYPE_BYTES then Some "bytes"
  else None.

(** A field type that is a message or an enum reference. *)
Definition is_reference (field : FieldDescriptorProto) : Prop :=
  field_type field = TYPE_MESSAGE \/ field_type field = TYPE_ENUM.

(** An engine that matches nothing: [re.sub] returns its subject and
    [re.match] returns [None].  The examples below run the generator on
    texts in which the real engine finds nothing to rewrite either. *)
Definition re_no_match : ReModule :=
  {| re_sub := fun _ _ s _ _ => s; re_match2 := fun _ _ => None |}.

(** The generator that [__init__] builds from the given options. *)
Definition generator (options : gmap string string) : TracGenerator :=
  {| _options := options; _desc_file_enum := 5; _desc_file_message := 4;
     _desc_file_service := 6; _desc_enum_value := 2;
     _desc_message_field := 2; _desc_service_method := 2 |}.

(** [stripped t i l l']: the entry [l'] is the entry [l] with the prefix
    [t; i] taken off its path and every other datum unchanged. *)
Definition stripped (loc_type loc_index : Z) (l l' : Location) : Prop :=
  path l = loc_type :: loc_index :: path l'
  /\ span l' = span l
  /\ leading_comments l' = leading_comments l
  /\ trailing_comments l' = trailing_comments l
  /\ leading_detached_comments l' = leading_detached_comments l.

(** [Narrowed t i locations out]: [out] lists, in order, the stripped
    copies of exactly those entries of [locations] whose path begins with
    [t; i]. *)
Inductive Narrowed (loc_type loc_index : Z)
  : list Location -> list Location -> Prop :=
  | narrowed_nil : Narrowed loc_type loc_index [] []
  | narrowed_keep l l' locations out :
      stripped loc_type loc_index l l' ->
      Narrowed loc_type loc_index locations out ->
      Narrowed loc_type loc_index (l :: locations) (l' :: out)
  | narrowed_skip l locations out :
      (forall rest, path l <> loc_type :: loc_index :: rest) ->
      Narrowed loc_type loc_index locations out ->
      Narrowed loc_type loc_index (l :: locations) out.

(** [first_with_empty_path ls r]: [r] is the first entry of [ls] whose path
    is empty, or [None] when there is none. *)
Definition first_with_empty_path (ls : list Location) (r : option Location)
  : Prop :=
  match r with
  | Some cur =>
      exists before after,
        ls = before ++ cur :: after /\ path cur = []
        /\ Forall (fun l => path l <> []) before
  | None => Forall (fun l => path l <> []) ls
  end.

(** The invariants of descriptor.proto on a field: a proto3 [optional]
    field belongs to a (synthetic) oneof, and a member of a oneof is not
    repeated. *)
Definition wf_field (field : FieldDescriptorProto) : Prop :=
  (field_proto3_optional field = true -> is_Some (field_oneof_index field))
  /\ (is_Some (field_oneof_index field) -> field_label field <> LABEL_REPEATED).

(** ** Example descriptors *)

(** [enum Color { RED = 0; BLUE = 1; }] *)
Definition ex_color : EnumDescriptorProto :=
  {| enum_name := "Color";
     enum_value := [ {| ev_name := "RED"; ev_number := 0 |};
                     {| ev_name := "BLUE"; ev_number := 1 |} ] |}.

(** A field outside any oneof and not marked [optional]. *)
Definition ex_field (name : string) (label : Label) (type : Z)
    (type_name : string) : FieldDescriptorProto :=
  {| field_name := name; field_label := label; field_type := type;
     field_type_name := type_name; field_oneof_index := None;
     field_proto3_optional := false |}.

(** The nested type protoc synthesises for [map<string, int32> tags]; the
    flag is [options.map_entry]. *)
Definition ex_entry (flag : bool) : DescriptorProto :=
  Build_DescriptorProto "TagsEntry"
    [ ex_field "key" LABEL_OPTIONAL TYPE_STRING "";
      ex_field "value" LABEL_OPTIONAL TYPE_INT32 "" ]
    [] [] flag.

(** The field [tags] of a message whose fully qualified name is [fqn]. *)
Definition ex_tags (fqn : string) : FieldDescriptorProto :=
  ex_field "tags" LABEL_REPEATED TYPE_MESSAGE ("." +:+ fqn +:+ ".TagsEntry").

(** [message M { map<string, int32> tags = 1; }] of package [pkg], with the
    entry type flagged or not. *)
Definition ex_message (flag : bool) : DescriptorProto :=
  Build_DescriptorProto "M" [ ex_tags "pkg.M" ] [ ex_entry flag ] [] false.

(** The same message declared inside [message Outer] of package [pkg]. *)
Definition ex_inner : DescriptorProto :=
  Build_DescriptorProto "M" [ ex_tags "pkg.Outer.M" ] [ ex_entry true ] [] false.

Definition ex_outer : DescriptorProto :=
  Build_DescriptorProto "Outer" [] [ ex_inner ] [] false.

(** A field [Color c] of package [pkg]. *)
Definition ex_color_field : FieldDescriptorProto :=
  ex_field "c" LABEL_OPTIONAL TYPE_ENUM ".pkg.Color".

(** [optional Color c], member of its synthetic oneof. *)
Definition ex_optional_color_field : FieldDescriptorProto :=
  {| field_name := "c"; field_label := LABEL_OPTIONAL; field_type := TYPE_ENUM;
     field_type_name := ".pkg.Color"; field_oneof_index := Some 0;
     field_proto3_optional := true |}.

(** A file of package [pkg] that declares [Color] and a message using it. *)
Definition ex_color_file : FileDescriptorProto :=
  {| file_name := "pkg/color.proto"; file_package := "pkg";
     file_dependency := [];
     file_message_type := [ Build_DescriptorProto "Pixel" [ ex_color_field ] [] [] false ];
     file_enum_type := [ ex_color ];
     file_service := [];
     file_locations := [] |}.

(** A string made of whitespace only (the empty string included). *)
Fixpoint whitespace_only (s : string) : Prop :=
  match s with
  | EmptyString => True
  | String c s' => PyStr.isspace c = true /\ whitespace_only s'
  end.

(** The single-line documentation comment of [text] at indentation [ind]:
    the text between triple quotes on one line, then an empty line. *)
Definition single_line_comment (ind text : string) : string :=
  ind +:+ dq3 +:+ text +:+ dq3 +:+ nl +:+ nl.

(** The multi-line documentation comment block of [text] at indentation
    [ind]: opening quotes, the text, closing quotes, each on lines of their
    own, then an empty line. *)
Definition multi_line_comment (ind text : string) : string :=
  ind +:+ dq3 +:+ nl +:+ text +:+ nl +:+ ind +:+ dq3 +:+ nl +:+ nl.

(** The context of a top-level declaration of a file without comments. *)
Definition ex_ctx : LocationContext :=
  {| src_locations := []; src_loc_code := 4; src_loc_index := 0; indent := 0 |}.

(** [has_nested_enum m]: the message [m] declares an enum, or one of its
    nested messages that is emitted (not a map entry) does. *)
Inductive has_nested_enum : DescriptorProto -> Prop :=
  | nested_enum_here m :
      msg_enum_type m <> [] -> has_nested_enum m
  | nested_enum_deeper m sub :
      In sub (msg_nested_type m) -> msg_map_entry sub = false ->
      has_nested_enum sub -> has_nested_enum m.

(** The message of the error raised for the nested enum [name] of the
    scope [scope]. *)
Definition nested_enum_error (scope name : string) : exn :=
  ECodeGeneration
    (" [ ENUM  ] " +:+ (scope +:+ "." +:+ name)
     +:+ ": Nested enums not currently supported").

(** [message Shape { enum Kind { ... } }] and a file of package [pkg]
    declaring it behind a well-formed message. *)
Definition ex_shape : DescriptorProto :=
  Build_DescriptorProto "Shape" []
    [] [ {| enum_name := "Kind";
            enum_value := [ {| ev_name := "ROUND"; ev_number := 0 |} ] |} ] false.

Definition ex_shape_file : FileDescriptorProto :=
  {| file_name := "pkg/shape.proto"; file_package := "pkg";
     file_dependency := [];
     file_message_type := [ ex_message true; ex_shape ];
     file_enum_type := [ ex_color ];
     file_service := [];
     file_locations := [] |}.

(** [is_descendant a b]: the dotted name [a] is [b], a dot, and the
    further segments. *)
Definition is_descendant (a b : string) : Prop :=
  exists rest, a = b +:+ "." +:+ rest.

(** The directory of a package: its dotted name as a path. *)
Definition package_path (api_package : string) : Pathlib.PurePath :=
  Pathlib.of_args (PyStr.split "." api_package).

(** The name of the [__init__] file of a package. *)
Definition init_name (api_package : string) : string :=
  Pathlib.str (Pathlib.joinpath (package_path api_package) "__init__.py").

(** The empty [__init__] placeholder of a package. *)
Definition placeholder (api_package : string) : File :=
  {| out_name := init_name api_package; out_content := "" |}.

(** The path of the module generated for an input file: the stem of the
    file's name under the package directory, with the suffix [.py]. *)
Definition module_file (api_package : string) (file : FileDescriptorProto)
  : result Pathlib.PurePath :=
  Pathlib.with_suffix
    (Pathlib.joinpath (package_path api_package)
       (Pathlib.stem (Pathlib.of_args [file_name file]))) ".py".

(** The path of the single module of a package in flat-pack mode. *)
Definition package_module (api_package : string) : result Pathlib.PurePath :=
  Pathlib.with_suffix (package_path api_package) ".py".

(** An input file of package [p] that declares nothing. *)
Definition ex_empty_file (name : string) : FileDescriptorProto :=
  {| file_name := name; file_package := "p"; file_dependency := [];
     file_message_type := []; file_enum_type := []; file_service := [];
     file_locations := [] |}.

Definition ex_three_files : list FileDescriptorProto :=
  [ ex_empty_file "p/a.proto"; ex_empty_file "p/b.proto"; ex_empty_file "p/c.proto" ].

(** The generator run with the option [flat_pack]. *)
Definition ex_flat_generator : TracGenerator :=
  generator {[ "flat_pack" := "true" ]}.

(** The generator run without options, and the empty type registry. *)
Definition ex_generator : TracGenerator := generator ∅.

Definition ex_no_types : gmap string TypeInfo := ∅.

(** A text without an opening brace: no placeholder of a template can
    begin in it. *)
Definition brace_free (s : string) : Prop :=
  PyStr.contains_char "{" s = false.

(** A registry entry that carries the descriptor of its class and no
    other. *)
Definition wf_type_info (info : TypeInfo) : Prop :=
  match typeClass info with
  | ENUM => is_Some (ti_enum info) /\ ti_message info = None /\ ti_service info = None
  | MESSAGE => ti_enum info = None /\ is_Some (ti_message info) /\ ti_service info = None
  | SERVICE => ti_enum info = None /\ ti_message info = None /\ is_Some (ti_service info)
  end.

(** [declares scope m key]: [key] is the qualified name of the message
    [m] declared in [scope], of one of its enums, or of a message or enum
    declared inside it at any depth. *)
Inductive declares : string -> DescriptorProto -> string -> Prop :=
  | declares_self scope m :
      declares scope m (scope +:+ msg_name m)
  | declares_enum scope m e :
      In e (msg_enum_type m) ->
      declares scope m ((scope +:+ msg_name m +:+ ".") +:+ enum_name e)
  | declares_nested scope m sub key :
      In sub (msg_nested_type m) ->
      declares (scope +:+ msg_name m +:+ ".") sub key ->
      declares scope m key.

(** The scope of the top-level declarations of a file: its package and a
    dot, or nothing for a file without package. *)
Definition file_scope (f : FileDescriptorProto) : string :=
  if String.eqb (file_package f) "" then "" else file_package f +:+ ".".

(** [declared_in f key]: [key] is the qualified name of a message, enum or
    service that the file [f] declares. *)
Inductive declared_in (f : FileDescriptorProto) : string -> Prop :=
  | declared_message m key :
      In m (file_message_type f) -> declares (file_scope f) m key ->
      declared_in f key
  | declared_enum e :
      In e (file_enum_type f) ->
      declared_in f (file_scope f +:+ enum_name e)
  | declared_service s :
      In s (file_service f) ->
      declared_in f (file_scope f +:+ service_name s).

(** ** Templates as segments

    A template read as the list of its literal texts and placeholders,
    to state what a chain of [replace] calls makes of it. *)
Inductive segment : Type :=
  | Lit (text : string)
  | Tok (name : string).

Definition segment_text (s : segment) : string :=
  match s with
  | Lit text => text
  | Tok name => "{" +:+ name +:+ "}"
  end.

Fixpoint flatten (l : list segment) : string :=
  match l with
  | [] => ""
  | s :: l' => segment_text s +:+ flatten l'
  end.

(** Filling the placeholder [name] with [value]. *)
Definition fill (name value : string) (s : segment) : segment :=
  match s with
  | Lit _ => s
  | Tok n => if String.eqb n name then Lit value else s
  end.

(** A placeholder name: no brace in it. *)
Definition token_name (n : string) : Prop :=
  PyStr.contains_char "{" n = false /\ PyStr.contains_char "}" n = false.

(** A segment in which no placeholder can begin or end by accident. *)
Definition plain (s : segment) : Prop :=
  match s with
  | Lit text => brace_free text
  | Tok name => token_name name
  end.

(** The generator run with a package filter that selects another
    package. *)
Definition ex_filtered_generator : TracGenerator :=
  generator {[ "packages" := "x.y" ]}.

(** An engine that knows one dependency: on [trac/metadata/object.proto]
    the import pattern matches with the groups [trac/metadata] and
    [object], as the real engine finds them. *)
Definition re_one_import : ReModule :=
  {| re_sub := fun _ _ s _ _ => s;
     re_match2 := fun _ s =>
       if String.eqb s "trac/metadata/object.proto"
       then Some ("trac/metadata", "object") else None |}.

(** A file of package [trac.api] that imports the metadata objects. *)
Definition ex_importing_file : FileDescriptorProto :=
  {| file_name := "trac/api/meta.proto"; file_package := "trac.api";
     file_dependency := [ "trac/metadata/object.proto" ];
     file_message_type := []; file_enum_type := []; file_service := [];
     file_locations := [] |}.

(** The pattern of the dependencies that are imported. *)
Definition import_proto_pattern : string := "^(trac/.+)/([^/]+)\.proto$".

(** * Sanity checks of the embedding *)

Example replace_all : PyStr.replace "ab" "X" "abcabab" = "XcXX".
Proof. reflexivity. Qed.

Example replace_empty : PyStr.replace "" "-" "abc" = "-a-b-c-".
Proof. reflexivity. Qed.

Example split_dots : PyStr.split "." "a..b" = ["a"; ""; "b"].
Proof. reflexivity. Qed.

Example strip_ws : PyStr.strip ("  x y " +:+ PyStr.nl) = "x y".
Proof. reflexivity. Qed.

Example of_Z_neg : PyStr.of_Z (-12) = "-12" /\ PyStr.of_Z 0 = "0".
Proof. split; reflexivity. Qed.

Example strip_double_nl_ex :
  PyStr.strip_double_nl ("a" +:+ PyStr.nl +:+ PyStr.nl +:+ PyStr.nl) = "a" +:+ PyStr.nl.
Proof. reflexivity. Qed.

Example path_of_package :
  Pathlib.str (Pathlib.of_args (PyStr.split "." "trac.metadata")) = "trac/metadata".
Proof. reflexivity. Qed.

Example path_empty_package :
  Pathlib.str (Pathlib.of_args (PyStr.split "." "")) = "."
  /\ Pathlib.with_suffix (Pathlib.of_args (PyStr.split "." "")) ".py" = Raise ValueError.
Proof. split; reflexivity. Qed.

Example path_module :
  Pathlib.str <$> Pathlib.with_suffix
    (Pathlib.joinpath (Pathlib.of_args ["trac"; "metadata"])
       (Pathlib.stem (Pathlib.of_args ["trac/metadata/object.proto"]))) ".py"
  = Ok "trac/metadata/object.py".
Proof. reflexivity. Qed.

Example init_field_numbers (options : gmap string string) :
  TracGenerator_init options = Ok (generator options).
Proof. reflexivity. Qed.

(** * The primitive type table and base-type resolution *)

Lemma primitive_table_spec (code : Z) :
  py_name <$> (PRIMITIVE_TYPE_MAPPING !! code) = spec_primitive_type code.
Proof.
  unfold PRIMITIVE_TYPE_MAPPING, spec_primitive_type.
  cbn [list_to_map foldr fst snd].
  repeat (rewrite lookup_insert; case_decide;
          [ subst code; reflexivity | ]).
  rewrite lookup_empty.
  unfold TYPE_DOUBLE, TYPE_FLOAT, TYPE_INT64, TYPE_UINT64, TYPE_INT32,
    TYPE_FIXED64, TYPE_FIXED32, TYPE_BOOL, TYPE_STRING, TYPE_BYTES,
    TYPE_UINT32, TYPE_SFIXED32, TYPE_SFIXED64, TYPE_SINT32, TYPE_SINT64 in *.
  repeat match goal with
         | |- context [ (code =? ?k) ] =>
             destruct (Z.eqb_spec code k); [ congruence | ]
         end.
  reflexivity.
Qed.

Lemma reference_not_primitive (code : Z) :
  code = TYPE_MESSAGE \/ code = TYPE_ENUM -> PRIMITIVE_TYPE_MAPPING !! code = None.
Proof.
  intros [-> | ->]; vm_compute; reflexivity.
Qed.

Lemma python_base_type_cases (package : string) (field : FieldDescriptorProto)
    (make_relative alias : bool) :
  (is_reference field /\
   python_base_type package field make_relative alias =
     Ok (python_type_name package (field_type_name field) make_relative alias))
  \/ (~ is_reference field /\
      exists t, PRIMITIVE_TYPE_MAPPING !! field_type field = Some t /\
        python_base_type package field make_relative alias = Ok (py_name t))
  \/ (~ is_reference field /\
      PRIMITIVE_TYPE_MAPPING !! field_type field = None /\
      python_base_type package field make_relative alias =
        Raise (ECodeGeneration
          ("Unknown type in protobuf field descriptor: field = "
           +:+ field_name field +:+ ", type code = "
           +:+ PyStr.of_Z (field_type field)))).
Proof.
  unfold python_base_type, is_reference.
  destruct (Z.eqb_spec (field_type field) TYPE_MESSAGE) as [Hm | Hm];
    [ left; split; [ left; exact Hm | reflexivity ] | ].
  destruct (Z.eqb_spec (field_type field) TYPE_ENUM) as [He | He];
    [ left; split; [ right; exact He | reflexivity ] | ].
  cbn [orb].
  destruct (PRIMITIVE_TYPE_MAPPING !! field_type field) as [t | ] eqn:Ht.
  - right; left. split; [ intros [? | ?]; congruence | ].
    exists t. split; reflexivity.
  - right; right. split; [ intros [? | ?]; congruence | ].
    split; reflexivity.
Qed.

(** C7. Base-type resolution raises the generation error exactly when the
    field's type is neither a message nor an enum reference and its type
    code has no entry in the primitive type table, it raises nothing else,
    and for a type code of the table it returns the mapped Python type:
    float for double and float, int for the integer variants, bool, str
    and bytes. *)
Theorem python_base_type_raises_iff (package : string)
    (field : FieldDescriptorProto) (make_relative alias : bool) :
  ((exists msg, python_base_type package field make_relative alias
                = Raise (ECodeGeneration msg))
   <-> ~ is_reference field /\ PRIMITIVE_TYPE_MAPPING !! field_type field = None)
  /\ (is_ok (python_base_type package field make_relative alias) = false
      <-> ~ is_reference field /\ PRIMITIVE_TYPE_MAPPING !! field_type field = None)
  /\ (forall t, PRIMITIVE_TYPE_MAPPING !! field_type field = Some t ->
        python_base_type package field make_relative alias = Ok (py_name t))
  /\ (forall code, py_name <$> (PRIMITIVE_TYPE_MAPPING !! code)
                   = spec_primitive_type code).
Proof.
  destruct (python_base_type_cases package field make_relative alias)
    as [[Href Hr] | [[Hnref (t & Ht & Hr)] | (Hnref & Ht & Hr)]];
    rewrite Hr; clear Hr;
    try pose proof (reference_not_primitive _ Href) as Hnone;
    repeat split; intros;
    repeat match goal with
           | H : exists _, _ |- _ => destruct H
           | H : _ /\ _ |- _ => destruct H
           end;
    try discriminate; try congruence; try contradiction; try assumption;
    try apply primitive_table_spec; try (eexists; reflexivity).
Qed.

(** * Source location index *)

Lemma has_prefix_iff (loc_type loc_index : Z) (l : Location) :
  (2 <=? length (path l))%nat
  && bool_decide (path l !! 0%nat = Some loc_type)
  && bool_decide (path l !! 1%nat = Some loc_index) = true
  <-> exists rest, path l = loc_type :: loc_index :: rest.
Proof.
  destruct (path l) as [ | a [ | b rest ] ]; cbn.
  - split; [ discriminate | intros [? ?]; discriminate ].
  - split; [ discriminate | intros [? ?]; discriminate ].
  - rewrite andb_true_iff, !bool_decide_eq_true. split.
    + intros [Ha Hb]. exists rest. simplify_eq/=. reflexivity.
    + intros [rest' Hr]. simplify_eq/=. split; reflexivity.
Qed.

Lemma stripped_relative_path (loc_type loc_index : Z) (l : Location) rest :
  path l = loc_type :: loc_index :: rest ->
  stripped loc_type loc_index l (relative_path l).
Proof.
  intros Hp. unfold stripped, relative_path; cbn.
  rewrite Hp. repeat split; reflexivity.
Qed.

Lemma stripped_unique (loc_type loc_index : Z) (l l' : Location) :
  stripped loc_type loc_index l l' -> l' = relative_path l.
Proof.
  intros (Hp & Hs & Hl & Ht & Hd). unfold relative_path.
  destruct l' as [p' s' lc' tc' ld']; cbn in *.
  rewrite Hp. subst. reflexivity.
Qed.

Lemma filter_src_location_cons (l : Location) locations loc_type loc_index :
  filter_src_location (l :: locations) loc_type loc_index =
  if (2 <=? length (path l))%nat
     && bool_decide (path l !! 0%nat = Some loc_type)
     && bool_decide (path l !! 1%nat = Some loc_index)
  then relative_path l :: filter_src_location locations loc_type loc_index
  else filter_src_location locations loc_type loc_index.
Proof.
  unfold filter_src_location. cbn [List.filter].
  destruct (_ && _ && _); reflexivity.
Qed.

Lemma filter_src_location_narrowed locations loc_type loc_index :
  Narrowed loc_type loc_index locations
    (filter_src_location locations loc_type loc_index).
Proof.
  induction locations as [ | l locations IH ].
  - constructor.
  - rewrite filter_src_location_cons.
    destruct (_ && _ && _) eqn:Hpre.
    + apply has_prefix_iff in Hpre as [rest Hrest].
      apply narrowed_keep; [ eapply stripped_relative_path; eassumption | exact IH ].
    + apply narrowed_skip; [ | exact IH ].
      intros rest Hrest.
      assert (Htrue : (2 <=? length (path l))%nat
                && bool_decide (path l !! 0%nat = Some loc_type)
                && bool_decide (path l !! 1%nat = Some loc_index) = true)
        by (apply has_prefix_iff; eauto).
      congruence.
Qed.

Lemma narrowed_unique locations loc_type loc_index out :
  Narrowed loc_type loc_index locations out ->
  out = filter_src_location locations loc_type loc_index.
Proof.
  induction 1 as [ | l l' locations out Hs _ IH | l locations out Hn _ IH ].
  - reflexivity.
  - rewrite filter_src_location_cons.
    assert (Htrue : (2 <=? length (path l))%nat
              && bool_decide (path l !! 0%nat = Some loc_type)
              && bool_decide (path l !! 1%nat = Some loc_index) = true).
    { apply has_prefix_iff. destruct Hs as [Hp _]. eauto. }
    rewrite Htrue, IH. f_equal. eapply stripped_unique; eassumption.
  - rewrite filter_src_location_cons.
    destruct (_ && _ && _) eqn:Hpre; [ | exact IH ].
    apply has_prefix_iff in Hpre as [rest Hrest]. destruct (Hn rest Hrest).
Qed.

Lemma current_location_first (ls : list Location) :
  first_with_empty_path ls (current_location ls).
Proof.
  unfold current_location.
  induction ls as [ | l ls IH ]; cbn.
  - constructor.
  - destruct (path l) as [ | a p ] eqn:Hp; cbn.
    + exists [], ls. repeat split; [ exact Hp | constructor ].
    + destruct (List.find _ ls) as [cur | ]; cbn in IH |- *.
      * destruct IH as (before & after & -> & Hcur & Hbefore).
        exists (l :: before), after. repeat split; [ exact Hcur | ].
        constructor; [ rewrite Hp; discriminate | exact Hbefore ].
      * constructor; [ rewrite Hp; discriminate | exact IH ].
Qed.

Lemma current_location_of_narrowed locations loc_type loc_index :
  current_location (filter_src_location locations loc_type loc_index) =
  relative_path <$>
    List.find (fun l => bool_decide (path l = [loc_type; loc_index])) locations.
Proof.
  induction locations as [ | l locations IH ]; [ reflexivity | ].
  rewrite filter_src_location_cons. cbn [List.find].
  destruct (_ && _ && _) eqn:Hpre.
  - apply has_prefix_iff in Hpre as [rest Hrest].
    unfold current_location at 1. cbn [List.find].
    replace (path (relative_path l)) with rest
      by (unfold relative_path; cbn; rewrite Hrest; reflexivity).
    destruct rest as [ | c rest ]; cbn.
    + rewrite bool_decide_eq_true_2 by exact Hrest. reflexivity.
    + rewrite bool_decide_eq_false_2 by (rewrite Hrest; discriminate).
      exact IH.
  - rewrite bool_decide_eq_false_2; [ exact IH | ].
    intros Hp.
    assert (Htrue : (2 <=? length (path l))%nat
              && bool_decide (path l !! 0%nat = Some loc_type)
              && bool_decide (path l !! 1%nat = Some loc_index) = true)
      by (apply has_prefix_iff; eauto).
    rewrite Htrue in Hpre. discriminate.
Qed.

(** C8. Narrowing a list of source locations to the prefix (field code,
    index) returns, in order, exactly the entries whose path begins with
    that prefix, each with the prefix stripped and its other data
    unchanged (the input list is a value and is not touched); the current
    location of the narrowed list is its first entry with an empty path,
    if any, which is the stripped copy of the first input entry whose path
    is the prefix itself. *)
Theorem filter_src_location_narrows (locations : list Location)
    (loc_type loc_index : Z) :
  Narrowed loc_type loc_index locations
    (filter_src_location locations loc_type loc_index)
  /\ (forall out, Narrowed loc_type loc_index locations out ->
        out = filter_src_location locations loc_type loc_index)
  /\ first_with_empty_path
       (filter_src_location locations loc_type loc_index)
       (current_location (filter_src_location locations loc_type loc_index))
  /\ current_location (filter_src_location locations loc_type loc_index) =
     relative_path <$>
       List.find (fun l => bool_decide (path l = [loc_type; loc_index])) locations.
Proof.
  split; [ apply filter_src_location_narrowed | ].
  split; [ intros out; apply narrowed_unique | ].
  split; [ apply current_location_first | apply current_location_of_narrowed ].
Qed.

(** * Type resolver *)

Lemma append_inj_l (s a b : string) : s +:+ a = s +:+ b -> a = b.
Proof.
  induction s as [ | c s IH ]; cbn; intros H; [ exact H | ].
  injection H as H. exact (IH H).
Qed.

Lemma find_nested_by_name (base : string) (message entry : DescriptorProto)
    (before after : list DescriptorProto) :
  msg_nested_type message = before ++ entry :: after ->
  Forall (fun nt => msg_name nt <> msg_name entry) before ->
  base = msg_name message +:+ "." +:+ msg_name entry ->
  List.find
    (fun nt => String.eqb base (msg_name message +:+ "." +:+ msg_name nt))
    (msg_nested_type message) = Some entry.
Proof.
  intros -> Hbefore ->.
  induction Hbefore as [ | nt before Hne _ IH ]; cbn [app List.find].
  - rewrite String.eqb_refl. reflexivity.
  - destruct (String.eqb_spec
                (msg_name message +:+ "." +:+ msg_name entry)
                (msg_name message +:+ "." +:+ msg_name nt)) as [Heq | _];
      [ | exact IH ].
    apply append_inj_l, append_inj_l in Heq. congruence.
Qed.

(** What the map-or-list decision does once the resolved element type
    is the text [M.E], [E] the nested type of that name in [M]: if [E] is
    flagged as a map entry, the member type is the mapping type from the
    resolved type of [E]'s first field to the resolved type of its
    second; if [E] is not flagged, the member type is the list type of
    the element type.  The resolved element type is that text for a
    top-level message of a file with a package, see
    [python_base_type_nested]. *)
Theorem python_field_type_repeated (package : string)
    (field : FieldDescriptorProto) (message entry : DescriptorProto)
    (before after : list DescriptorProto) :
  field_label field = LABEL_REPEATED ->
  msg_nested_type message = before ++ entry :: after ->
  Forall (fun nt => msg_name nt <> msg_name entry) before ->
  python_base_type package field true true
    = Ok (msg_name message +:+ "." +:+ msg_name entry) ->
  (msg_map_entry entry = true ->
   forall key value key_type value_type,
     msg_field entry !! 0%nat = Some key ->
     msg_field entry !! 1%nat = Some value ->
     python_base_type package key true true = Ok key_type ->
     python_base_type package value true true = Ok value_type ->
     python_field_type package field message
       = Ok ("_tp.Dict[" +:+ key_type +:+ ", " +:+ value_type +:+ "]"))
  /\ (msg_map_entry entry = false ->
      python_field_type package field message
        = Ok ("_tp.List[" +:+ (msg_name message +:+ "." +:+ msg_name entry) +:+ "]")).
Proof.
  intros Hlabel Hnested Hbefore Hbase.
  unfold python_field_type. rewrite Hbase. cbn [mbind result_bind].
  rewrite bool_decide_eq_true_2 by exact Hlabel.
  rewrite (find_nested_by_name _ message entry before after Hnested Hbefore eq_refl).
  split.
  - intros Hflag key value key_type value_type Hk Hv Hkt Hvt.
    rewrite Hflag. unfold index. rewrite Hk, Hv. cbn [mbind result_bind].
    rewrite Hkt, Hvt. reflexivity.
  - intros Hflag. rewrite Hflag. reflexivity.
Qed.

(** The map field of the example message resolves to a dictionary, and
    to a list once the entry type is not flagged. *)
Lemma python_field_type_repeated_witness :
  python_field_type "pkg" (ex_tags "pkg.M") (ex_message true)
    = Ok "_tp.Dict[str, int]"
  /\ python_field_type "pkg" (ex_tags "pkg.M") (ex_message false)
    = Ok "_tp.List[M.TagsEntry]".
Proof.
  split.
  - apply (proj1 (python_field_type_repeated "pkg" (ex_tags "pkg.M")
                    (ex_message true) (ex_entry true) [] []
                    eq_refl eq_refl (List.Forall_nil _) eq_refl)
             eq_refl
             (ex_field "key" LABEL_OPTIONAL TYPE_STRING "")
             (ex_field "value" LABEL_OPTIONAL TYPE_INT32 "")
             "str" "int" eq_refl eq_refl eq_refl eq_refl).
  - apply (proj2 (python_field_type_repeated "pkg" (ex_tags "pkg.M")
                    (ex_message false) (ex_entry false) [] []
                    eq_refl eq_refl (List.Forall_nil _) eq_refl)
             eq_refl).
Defined.

Lemma append_nil (t : string) : "" +:+ t = t.
Proof. reflexivity. Qed.

Lemma append_cons (c : ascii) (s t : string) :
  String c s +:+ t = String c (s +:+ t).
Proof. reflexivity. Qed.

Lemma startswith_app (p rest : string) : PyStr.startswith (p +:+ rest) p = true.
Proof.
  induction p as [ | c p IH ].
  - destruct rest; reflexivity.
  - rewrite append_cons. cbn. rewrite Ascii.eqb_refl. exact IH.
Qed.

(** The name of a type of the current package, as a field refers to it
    (leading dot, package, dot, relative name), resolves to the relative
    name, unless that begins with the reserved root [trac.]. *)
Lemma python_type_name_relative (package rest : string) :
  PyStr.startswith rest "trac." = false ->
  python_type_name package ("." +:+ package +:+ "." +:+ rest) true true = rest.
Proof.
  intros Halias. unfold python_type_name.
  rewrite (startswith_app "." (package +:+ "." +:+ rest)).
  change (PyStr.drop 1 ("." +:+ package +:+ "." +:+ rest))
    with (package +:+ "." +:+ rest).
  cbn [andb]. rewrite startswith_app.
  replace (String.length package + 1)%nat with (S (String.length package)) by lia.
  assert (Hdrop : PyStr.drop (S (String.length package)) (package +:+ "." +:+ rest) = rest).
  { induction package as [ | c p IH ]; [ reflexivity | ].
    rewrite append_cons. exact IH. }
  rewrite Hdrop, Halias. reflexivity.
Qed.

(** A message-typed field of the current package that refers to the
    nested type [E] of the top-level message [M] resolves to [M.E]: the
    element type the map-or-list decision of [python_field_type] looks
    for. *)
Lemma python_base_type_nested (package : string) (field : FieldDescriptorProto)
    (message entry : string) :
  field_type field = TYPE_MESSAGE ->
  field_type_name field = "." +:+ package +:+ "." +:+ (message +:+ "." +:+ entry) ->
  PyStr.startswith (message +:+ "." +:+ entry) "trac." = false ->
  python_base_type package field true true = Ok (message +:+ "." +:+ entry).
Proof.
  intros Htype Hname Halias. unfold python_base_type.
  rewrite Htype, Hname. cbn [Z.eqb TYPE_MESSAGE Pos.eqb orb].
  rewrite python_type_name_relative by exact Halias. reflexivity.
Qed.

(** * Default resolver *)

(** C4. On a well-formed field whose type code is supported, the default
    of a oneof member, of a non-repeated message field and of an
    explicitly optional field is [None]; the default of a repeated field
    is a default factory of an empty [dict] or of an empty [list], and so
    never [None]. *)
Theorem python_default_value_optionality (package : string)
    (field : FieldDescriptorProto) (message : DescriptorProto)
    (types : gmap string TypeInfo) :
  wf_field field ->
  is_ok (python_base_type package field false false) = true ->
  (is_Some (field_oneof_index field) ->
   python_default_value package field message types = Ok "None")
  /\ (field_label field <> LABEL_REPEATED -> field_type field = TYPE_MESSAGE ->
      python_default_value package field message types = Ok "None")
  /\ (field_proto3_optional field = true ->
      python_default_value package field message types = Ok "None")
  /\ (field_label field = LABEL_REPEATED ->
      (python_default_value package field message types
         = Ok "_dc.field(default_factory=dict)"
       \/ python_default_value package field message types
         = Ok "_dc.field(default_factory=list)")
      /\ python_default_value package field message types <> Ok "None").
Proof.
  intros [Hsynthetic Honeof] Hbase.
  unfold python_default_value.
  destruct (python_base_type package field false false) as [type_name | e];
    [ clear Hbase | discriminate ].
  cbn [mbind result_bind].
  destruct (decide (field_label field = LABEL_REPEATED)) as [Hrep | Hrep].
  - rewrite bool_decide_eq_true_2 by exact Hrep.
    split; [ intros Hin; destruct (Honeof Hin Hrep) | ].
    split; [ intros Hn; contradiction | ].
    split; [ intros Hopt; destruct (Honeof (Hsynthetic Hopt) Hrep) | ].
    intros _.
    destruct (List.find _ _) as [nested_type | ];
      [ destruct (msg_map_entry nested_type) | ];
      (split; [ (left; reflexivity) || (right; reflexivity) | discriminate ]).
  - rewrite bool_decide_eq_false_2 by exact Hrep.
    destruct (decide (is_Some (field_oneof_index field))) as [Hin | Hout].
    + rewrite bool_decide_eq_true_2 by exact Hin.
      split; [ reflexivity | ]. split; [ reflexivity | ].
      split; [ reflexivity | intros Hn; contradiction ].
    + rewrite bool_decide_eq_false_2 by exact Hout.
      split; [ intros Hin; contradiction | ].
      split; [ intros _ ->; reflexivity | ].
      split; [ intros Hopt; destruct (Hout (Hsynthetic Hopt)) | ].
      intros Hn; contradiction.
Qed.

(** An [optional] enum field in its synthetic oneof defaults to [None]. *)
Lemma python_default_value_optionality_witness :
  python_default_value "pkg" ex_optional_color_field (ex_message true)
    (build_type_map [ex_color_file]) = Ok "None".
Proof.
  refine (proj1 (proj2 (proj2
            (python_default_value_optionality "pkg" ex_optional_color_field
               (ex_message true) (build_type_map [ex_color_file]) _ eq_refl)))
            eq_refl).
  split; [ intros _; eexists; reflexivity | intros _; discriminate ].
Defined.

(** What the synthetic oneof is needed for: an [optional] enum field
    outside any oneof, which protoc never emits, would default to the
    enum's first value. *)
Remark optional_enum_outside_oneof :
  python_default_value "pkg"
    {| field_name := "c"; field_label := LABEL_OPTIONAL; field_type := TYPE_ENUM;
       field_type_name := ".pkg.Color"; field_oneof_index := None;
       field_proto3_optional := true |}
    (ex_message true) (build_type_map [ex_color_file]) = Ok "Color.RED".
Proof. vm_compute. reflexivity. Qed.

(** C5. The default of a non-repeated field of enum type outside any oneof
    is the first declared value of the enum the registry holds for the
    field's type name, written [Enum.VALUE]. *)
Theorem python_default_value_enum (package : string)
    (field : FieldDescriptorProto) (message : DescriptorProto)
    (types : gmap string TypeInfo) (type_info : TypeInfo)
    (enum_type : EnumDescriptorProto) (first_value : EnumValueDescriptorProto)
    (other_values : list EnumValueDescriptorProto) :
  field_label field <> LABEL_REPEATED ->
  field_oneof_index field = None ->
  field_type field = TYPE_ENUM ->
  types !! python_type_name package (field_type_name field) false false
    = Some type_info ->
  ti_enum type_info = Some enum_type ->
  enum_value enum_type = first_value :: other_values ->
  python_default_value package field message types
    = Ok (enum_name enum_type +:+ "." +:+ ev_name first_value).
Proof.
  intros Hlabel Honeof Htype Hinfo Henum Hvalues.
  unfold python_default_value, python_base_type.
  rewrite Htype. cbn [Z.eqb TYPE_ENUM TYPE_MESSAGE Pos.eqb orb mbind result_bind].
  rewrite Hinfo, Henum.
  rewrite bool_decide_eq_false_2 by exact Hlabel.
  rewrite Honeof.
  rewrite bool_decide_eq_false_2 by (intros [? ?]; discriminate).
  unfold index. rewrite Hvalues. reflexivity.
Qed.

(** [enum Color { RED = 0; BLUE = 1; }]: a field of type [Color] defaults
    to [Color.RED] under the registry built from the declaring file. *)
Lemma python_default_value_enum_witness :
  python_default_value "pkg" ex_color_field (ex_message true)
    (build_type_map [ex_color_file]) = Ok "Color.RED".
Proof.
  apply (python_default_value_enum "pkg" ex_color_field (ex_message true)
           (build_type_map [ex_color_file])
           {| typeClass := ENUM; ti_enum := Some ex_color;
              ti_message := None; ti_service := None |}
           ex_color {| ev_name := "RED"; ev_number := 0 |}
           [ {| ev_name := "BLUE"; ev_number := 1 |} ]).
  - discriminate.
  - reflexivity.
  - reflexivity.
  - vm_compute. reflexivity.
  - reflexivity.
  - reflexivity.
Defined.

(** * Consistency of the two resolvers on map fields *)

(** C10, at its failing input.  For the map field [tags] of a message [M]
    declared inside [Outer], the type resolver compares the resolved name
    [Outer.M.TagsEntry] with [M.TagsEntry] for equality and answers a list
    type, while the default resolver compares by suffix and answers the
    empty-mapping factory. *)
Theorem map_field_of_nested_message (types : gmap string TypeInfo) :
  python_field_type "pkg" (ex_tags "pkg.Outer.M") ex_inner
    = Ok "_tp.List[Outer.M.TagsEntry]"
  /\ python_default_value "pkg" (ex_tags "pkg.Outer.M") ex_inner types
    = Ok "_dc.field(default_factory=dict)".
Proof. split; reflexivity. Qed.

(** The same field in the top-level message is classified as a map by both
    resolvers. *)
Remark map_field_of_top_level_message (types : gmap string TypeInfo) :
  python_field_type "pkg" (ex_tags "pkg.M") (ex_message true)
    = Ok "_tp.Dict[str, int]"
  /\ python_default_value "pkg" (ex_tags "pkg.M") (ex_message true) types
    = Ok "_dc.field(default_factory=dict)".
Proof. split; reflexivity. Qed.

(** * Documentation comments *)

Lemma rev_onto_empty (s acc : string) :
  PyStr.rev_onto s acc = "" -> s = "" /\ acc = "".
Proof.
  revert acc. induction s as [ | c s IH ]; cbn; intros acc H.
  - split; [ reflexivity | exact H ].
  - apply IH in H as [_ H]. discriminate.
Qed.

Lemma whitespace_only_rev_onto (s acc : string) :
  whitespace_only (PyStr.rev_onto s acc)
  <-> whitespace_only s /\ whitespace_only acc.
Proof.
  revert acc. induction s as [ | c s IH ]; cbn; intros acc.
  - tauto.
  - rewrite IH. cbn. tauto.
Qed.

Lemma lstrip_empty_iff (s : string) :
  PyStr.lstrip s = "" <-> whitespace_only s.
Proof.
  induction s as [ | c s IH ]; cbn.
  - tauto.
  - destruct (PyStr.isspace c).
    + rewrite IH. tauto.
    + split; [ discriminate | intros [H _]; discriminate ].
Qed.

Lemma lstrip_whitespace_only (s : string) :
  whitespace_only (PyStr.lstrip s) -> PyStr.lstrip s = "".
Proof.
  induction s as [ | c s IH ]; cbn; [ reflexivity | ].
  destruct (PyStr.isspace c) eqn:Hc; [ exact IH | ].
  cbn. rewrite Hc. intros [H _]. discriminate.
Qed.

(** [s.strip() == ""] holds exactly for the whitespace-only strings. *)
Lemma strip_empty_iff (s : string) :
  PyStr.strip s = "" <-> whitespace_only s.
Proof.
  unfold PyStr.strip, PyStr.rstrip, PyStr.rev. split.
  - intros H. apply rev_onto_empty in H as [H _].
    apply lstrip_empty_iff, whitespace_only_rev_onto in H as [H _].
    apply lstrip_empty_iff, lstrip_whitespace_only, H.
  - intros H. apply lstrip_empty_iff in H. rewrite H. reflexivity.
Qed.

(** [replace] passes over a prefix that does not contain the first
    character of the searched text. *)
Lemma replace_go_prefix (o : ascii) (old' new a b : string) :
  PyStr.contains_char o a = false ->
  PyStr.replace_go (String o old') new (a +:+ b) 0
  = a +:+ PyStr.replace_go (String o old') new b 0.
Proof.
  induction a as [ | c a IH ]; intros Hfree.
  - reflexivity.
  - cbn in Hfree. destruct (Ascii.eqb c o) eqn:Hc; [ discriminate | ].
    rewrite !append_cons. cbn [PyStr.replace_go PyStr.startswith].
    rewrite Hc, (IH Hfree). reflexivity.
Qed.

Lemma replace_go_skip (old new x b : string) :
  PyStr.replace_go old new (x +:+ b) (String.length x)
  = PyStr.replace_go old new b 0.
Proof.
  induction x as [ | c x IH ].
  - reflexivity.
  - rewrite append_cons. cbn [String.length PyStr.replace_go].
    destruct b; exact IH.
Qed.

(** [replace] substitutes an occurrence of the searched text and goes on
    behind it. *)
Lemma replace_go_match (o : ascii) (old' new b : string) :
  PyStr.replace_go (String o old') new (String o old' +:+ b) 0
  = new +:+ PyStr.replace_go (String o old') new b 0.
Proof.
  rewrite append_cons. cbn [PyStr.replace_go].
  change (String o (old' +:+ b)) with (String o old' +:+ b).
  rewrite startswith_app. cbn [String.length Nat.sub]. rewrite Nat.sub_0_r.
  rewrite replace_go_skip. reflexivity.
Qed.

Lemma indent_str_no_brace (n : nat) :
  PyStr.contains_char "{" (indent_str n) = false.
Proof.
  unfold indent_str. induction n as [ | n IH ]; [ reflexivity | ].
  cbn [PyStr.repeat]. unfold INDENT_TEMPLATE.
  rewrite !append_cons, append_nil. cbn. exact IH.
Qed.

Lemma append_assoc (a b c : string) : (a +:+ b) +:+ c = a +:+ b +:+ c.
Proof.
  induction a as [ | x a IH ]; [ reflexivity | ].
  rewrite !append_cons, IH. reflexivity.
Qed.

Lemma render_single_line (n : nat) (text : string) :
  PyStr.replace "{COMMENT}" text
    (PyStr.replace "{INDENT}" (indent_str n) COMMENT_SINGLE_LINE)
  = single_line_comment (indent_str n) text.
Proof.
  assert (H1 : forall ind, PyStr.replace "{INDENT}" ind COMMENT_SINGLE_LINE
                 = ind +:+ dq3 +:+ "{COMMENT}" +:+ dq3 +:+ nl +:+ nl)
    by (intros ind; vm_compute; reflexivity).
  rewrite H1. unfold PyStr.replace, single_line_comment.
  rewrite replace_go_prefix by apply indent_str_no_brace.
  reflexivity.
Qed.

Lemma render_multi_line (n : nat) (text : string) :
  PyStr.replace "{COMMENT}" text
    (PyStr.replace "{INDENT}" (indent_str n) COMMENT_MULTI_LINE)
  = multi_line_comment (indent_str n) text.
Proof.
  assert (H1 : forall ind, PyStr.replace "{INDENT}" ind COMMENT_MULTI_LINE
                 = ind +:+ (dq3 +:+ nl) +:+ "{COMMENT}" +:+ nl +:+ ind
                   +:+ dq3 +:+ nl +:+ nl)
    by (intros ind; vm_compute; reflexivity).
  rewrite H1. unfold PyStr.replace, multi_line_comment.
  rewrite replace_go_prefix by apply indent_str_no_brace.
  rewrite (replace_go_prefix "{" "COMMENT}" text (dq3 +:+ nl)) by reflexivity.
  rewrite replace_go_match.
  rewrite (replace_go_prefix "{" "COMMENT}" text nl) by reflexivity.
  rewrite replace_go_prefix by apply indent_str_no_brace.
  reflexivity.
Qed.

(** C9. [format_doc_comment] gives no comment (the empty string) when the
    translated comment is absent, empty or whitespace-only, and so when
    there is no comment to translate; otherwise it gives the single-line
    comment of the stripped translated text when that text has no line
    break, and the multi-line comment block of the translated text when
    it has one. *)
Theorem format_doc_comment_cases (re : ReModule) (ctx : LocationContext)
    (comment : option string) (next_indent : bool) :
  let translated := translate_comment_from_proto re ctx comment next_indent in
  let ind := indent_str (if next_indent then indent ctx + 1 else indent ctx) in
  ((translated = None \/ exists t, translated = Some t /\ whitespace_only t) ->
   format_doc_comment re ctx comment next_indent = "")
  /\ (comment = None -> format_doc_comment re ctx comment next_indent = "")
  /\ (forall t, translated = Some t -> ~ whitespace_only t ->
      PyStr.contains_char "010" (PyStr.strip t) = false ->
      format_doc_comment re ctx comment next_indent
        = single_line_comment ind (PyStr.strip t))
  /\ (forall t, translated = Some t -> ~ whitespace_only t ->
      PyStr.contains_char "010" (PyStr.strip t) = true ->
      format_doc_comment re ctx comment next_indent
        = multi_line_comment ind t).
Proof.
  cbv zeta. unfold format_doc_comment.
  split; [ | split; [ | split ] ].
  - intros [-> | (t & -> & Hws)]; [ reflexivity | ].
    apply strip_empty_iff in Hws. rewrite Hws. reflexivity.
  - intros ->. reflexivity.
  - intros t -> Hws Hline.
    destruct (String.eqb_spec (PyStr.strip t) "") as [Hs | _];
      [ apply strip_empty_iff in Hs; contradiction | ].
    rewrite Hline. apply render_single_line.
  - intros t -> Hws Hline.
    destruct (String.eqb_spec (PyStr.strip t) "") as [Hs | _];
      [ apply strip_empty_iff in Hs; contradiction | ].
    rewrite Hline. apply render_multi_line.
Qed.

(** At indentation 0: a comment of one line, one of two lines, and an
    empty one. *)
Lemma format_doc_comment_cases_witness :
  format_doc_comment re_no_match
    ex_ctx
    (Some "Hello  ") false
  = dq3 +:+ "Hello" +:+ dq3 +:+ nl +:+ nl
  /\ format_doc_comment re_no_match
    ex_ctx
    (Some ("Hello" +:+ nl +:+ "World")) false
  = dq3 +:+ nl +:+ "Hello" +:+ nl +:+ "World" +:+ nl +:+ dq3 +:+ nl +:+ nl
  /\ format_doc_comment re_no_match
    ex_ctx
    (Some "") false
  = "".
Proof.
  split; [ | split ].
  - refine (proj1 (proj2 (proj2
              (format_doc_comment_cases re_no_match ex_ctx (Some "Hello  ") false)))
              "Hello  " eq_refl _ eq_refl).
    cbn. intros [H _]. discriminate.
  - refine (proj2 (proj2 (proj2
              (format_doc_comment_cases re_no_match ex_ctx
                 (Some ("Hello" +:+ nl +:+ "World")) false)))
              ("Hello" +:+ nl +:+ "World") eq_refl _ eq_refl).
    cbn. intros [H _]. discriminate.
  - refine (proj1 (format_doc_comment_cases re_no_match ex_ctx (Some "") false) _).
    right. exists "". split; [ reflexivity | exact I ].
Defined.

(** * Nested enums *)

Lemma bind_raise {A B : Type} (r : result A) (k : A -> result B) :
  is_ok r = false -> is_ok (r ≫= k) = false.
Proof. destruct r; [ discriminate | reflexivity ]. Qed.

Lemma bind_ok_raise {A B : Type} (r : result A) (k : A -> result B) :
  (forall a, is_ok (k a) = false) -> is_ok (r ≫= k) = false.
Proof. intros H. destruct r; [ apply H | reflexivity ]. Qed.

Lemma mapM_from_fails {A B : Type} (f : nat -> A -> result B) (l : list A) (a : A) :
  In a l -> (forall i, is_ok (f i a) = false) ->
  forall i, is_ok (mapM_from f i l) = false.
Proof.
  intros Hin Hf. induction l as [ | x l IH ]; [ destruct Hin | ].
  intros i. cbn [mapM_from].
  destruct Hin as [-> | Hin].
  - apply bind_raise, Hf.
  - apply bind_ok_raise. intros b. apply bind_raise, IH, Hin.
Qed.

Lemma mapM_unless_fails {A B : Type} (skip : A -> bool)
    (f : nat -> A -> result B) (l : list A) (a : A) :
  In a l -> skip a = false -> (forall i, is_ok (f i a) = false) ->
  forall i, is_ok (mapM_unless skip f i l) = false.
Proof.
  intros Hin Hskip Hf. induction l as [ | x l IH ]; [ destruct Hin | ].
  intros i. cbn [mapM_unless].
  destruct Hin as [-> | Hin].
  - rewrite Hskip. apply bind_raise, Hf.
  - destruct (negb (skip x)); [ | apply IH, Hin ].
    apply bind_ok_raise. intros b. apply bind_raise, IH, Hin.
Qed.

Lemma foldM_fails {A S : Type} (f : S -> A -> result S) (l : list A) (a : A) :
  In a l -> (forall s, is_ok (f s a) = false) ->
  forall s, is_ok (foldM f s l) = false.
Proof.
  intros Hin Hf. induction l as [ | x l IH ]; [ destruct Hin | ].
  intros s. cbn [foldM].
  destruct Hin as [-> | Hin].
  - apply bind_raise, Hf.
  - apply bind_ok_raise. intros s'. apply IH, Hin.
Qed.

Section NestedEnums.

Context (re : ReModule) (self : TracGenerator).

(** The enum emitter rejects every scope that is neither [None] nor
    empty. *)
Lemma generate_enum_scoped (ctx : LocationContext)
    (descriptor : EnumDescriptorProto) (scope : string) :
  scope <> "" ->
  generate_enum re self ctx descriptor (Some scope)
  = Raise (nested_enum_error scope (enum_name descriptor)).
Proof.
  intros Hscope. unfold generate_enum, truthy.
  destruct (String.eqb_spec scope "") as [Heq | _]; [ contradiction | ].
  reflexivity.
Qed.

Lemma nested_scope_not_empty (message_scope name : string) :
  message_scope +:+ "." +:+ name <> "".
Proof. destruct message_scope; discriminate. Qed.

(** One unfolding of [generate_data_class]. *)
Lemma generate_data_class_unfold (package message_scope : string)
    (ctx : LocationContext) (descriptor : DescriptorProto)
    (types : gmap string TypeInfo) :
  generate_data_class re self package (Some message_scope) ctx descriptor types
  = (let filtered_loc :=
       filter_src_location (src_locations ctx) (src_loc_code ctx) (src_loc_index ctx) in
     let nested_scope := message_scope +:+ "." +:+ msg_name descriptor in
     nested_enums ←
       mapM_from
         (fun i enum_desc =>
            generate_enum re self
              (index_sub_ctx filtered_loc (_desc_file_enum self) (indent ctx + 1) i)
              enum_desc (Some nested_scope))
         0 (msg_enum_type descriptor);
     nested_types ←
       mapM_unless msg_map_entry
         (fun i sub_desc =>
            generate_data_class re self package (Some nested_scope)
              (index_sub_ctx filtered_loc (_desc_file_message self) (indent ctx + 1) i)
              sub_desc types)
         0 (msg_nested_type descriptor);
     data_members ←
       generate_data_members re self package
         {| src_locations := filtered_loc; src_loc_code := src_loc_code ctx;
            src_loc_index := src_loc_index ctx; indent := (indent ctx + 1)%nat |}
         descriptor types;
     let doc_comment :=
       format_doc_comment re ctx (comment_for_current_location filtered_loc) true in
     Ok (PyStr.replace "{DATA_MEMBERS}" data_members
        (PyStr.replace "{NESTED_CLASSES}" (PyStr.join "" nested_types)
        (PyStr.replace "{NESTED_ENUMS}" (PyStr.join "" nested_enums)
        (PyStr.replace "{DOC_COMMENT}" doc_comment
        (PyStr.replace "{CLASS_NAME}" (msg_name descriptor)
        (PyStr.replace "{NEXT_INDENT}" (indent_str (indent ctx + 1))
        (PyStr.replace "{INDENT}" (indent_str (indent ctx))
           DATA_CLASS_TEMPLATE)))))))).
Proof. destruct descriptor; reflexivity. Qed.

(** A message that declares an enum is rejected with the error of its
    first enum, before anything else of the message is generated. *)
Lemma generate_data_class_enum (package message_scope : string)
    (ctx : LocationContext) (descriptor : DescriptorProto)
    (types : gmap string TypeInfo) (first : EnumDescriptorProto)
    (others : list EnumDescriptorProto) :
  msg_enum_type descriptor = first :: others ->
  generate_data_class re self package (Some message_scope) ctx descriptor types
  = Raise (nested_enum_error (message_scope +:+ "." +:+ msg_name descriptor)
             (enum_name first)).
Proof.
  intros Henums. rewrite generate_data_class_unfold. cbv zeta.
  rewrite Henums. cbn [mapM_from].
  rewrite generate_enum_scoped by apply nested_scope_not_empty.
  reflexivity.
Qed.

Lemma generate_data_class_fails (descriptor : DescriptorProto) :
  has_nested_enum descriptor ->
  forall package message_scope ctx types,
    is_ok (generate_data_class re self package (Some message_scope) ctx
             descriptor types) = false.
Proof.
  induction 1 as [ m Henums | m sub Hin Hflag _ IH ];
    intros package message_scope ctx types.
  - destruct (msg_enum_type m) as [ | first others ] eqn:He; [ contradiction | ].
    rewrite (generate_data_class_enum _ _ _ _ _ _ _ He). reflexivity.
  - rewrite generate_data_class_unfold. cbv zeta.
    apply bind_ok_raise. intros nested_enums. apply bind_raise.
    apply (mapM_unless_fails _ _ _ sub Hin Hflag).
    intros i. apply IH.
Qed.

Lemma generate_file_fails (src_loc : list Location) (indent : nat)
    (descriptor : FileDescriptorProto) (api_package : string)
    (type_map : gmap string TypeInfo) (include_header : bool)
    (message : DescriptorProto) :
  In message (file_message_type descriptor) -> has_nested_enum message ->
  is_ok (generate_file re self src_loc indent descriptor api_package type_map
           include_header) = false.
Proof.
  intros Hin Hnested. unfold generate_file.
  destruct (if include_header then _ else _) as [[file_header std_imports] import_stmts].
  apply bind_ok_raise. intros enums. apply bind_raise.
  apply (mapM_from_fails _ _ message Hin).
  intros i. apply generate_data_class_fails, Hnested.
Qed.

Lemma generate_package_fails (api_package : string)
    (files : list FileDescriptorProto) (type_map : gmap string TypeInfo)
    (file : FileDescriptorProto) (message : DescriptorProto) :
  In file files -> In message (file_message_type file) ->
  has_nested_enum message ->
  is_ok (generate_package re self api_package files type_map) = false.
Proof.
  intros Hfile Hin Hnested. unfold generate_package, package_output_files.
  apply bind_raise, bind_raise.
  apply (foldM_fails _ _ file Hfile).
  intros [output_files package_imports]. unfold package_file_step.
  apply bind_raise. eapply generate_file_fails; eassumption.
Qed.

End NestedEnums.

(** C6. The enum emitter raises the generation error for every enclosing
    scope it is given for a nested enum, which is the dotted name of the
    declaring message in its own scope: a message that declares an enum is
    rejected with that error, and a run over files in which an emitted
    message declares an enum, at any depth, raises and returns no output
    file. *)
Theorem nested_enum_rejected (re : ReModule) (self : TracGenerator) :
  (forall ctx descriptor message_scope name,
     generate_enum re self ctx descriptor (Some (message_scope +:+ "." +:+ name))
     = Raise (nested_enum_error (message_scope +:+ "." +:+ name)
                (enum_name descriptor)))
  /\ (forall package message_scope ctx message types first others,
        msg_enum_type message = first :: others ->
        generate_data_class re self package (Some message_scope) ctx message types
        = Raise (nested_enum_error (message_scope +:+ "." +:+ msg_name message)
                   (enum_name first)))
  /\ (forall api_package files type_map file message,
        In file files -> In message (file_message_type file) ->
        has_nested_enum message ->
        exists e, generate_package re self api_package files type_map = Raise e).
Proof.
  split; [ | split ].
  - intros ctx descriptor message_scope name.
    apply generate_enum_scoped, nested_scope_not_empty.
  - intros package message_scope ctx message types first others.
    apply generate_data_class_enum.
  - intros api_package files type_map file message Hfile Hin Hnested.
    pose proof (generate_package_fails re self api_package files type_map
                  file message Hfile Hin Hnested) as Hfail.
    destruct (generate_package re self api_package files type_map) as [out | e];
      [ discriminate | exists e; reflexivity ].
Qed.

(** The message [Shape] of package [pkg], which declares the enum [Kind],
    is rejected, and so is a run over the file that declares it. *)
Lemma nested_enum_rejected_witness :
  generate_data_class re_no_match (generator ∅) "pkg" (Some "pkg") ex_ctx
    ex_shape (build_type_map [ex_shape_file])
  = Raise (nested_enum_error "pkg.Shape" "Kind")
  /\ exists e,
      generate_package re_no_match (generator ∅) "pkg" [ex_shape_file]
        (build_type_map [ex_shape_file]) = Raise e.
Proof.
  split.
  - exact (proj1 (proj2 (nested_enum_rejected re_no_match (generator ∅)))
             "pkg" "pkg" ex_ctx ex_shape (build_type_map [ex_shape_file])
             _ [] eq_refl).
  - exact (proj2 (proj2 (nested_enum_rejected re_no_match (generator ∅)))
             "pkg" [ex_shape_file] (build_type_map [ex_shape_file])
             ex_shape_file ex_shape
             (or_introl eq_refl) (or_intror (or_introl eq_refl))
             (nested_enum_here ex_shape ltac:(discriminate))).
Defined.

(** The run of the witness: the first message of the file is generated,
    the second raises the error of its enum. *)
Remark nested_enum_run :
  generate_package re_no_match (generator ∅) "pkg" [ex_shape_file]
    (build_type_map [ex_shape_file])
  = Raise (nested_enum_error "pkg.Shape" "Kind").
Proof. vm_compute. reflexivity. Qed.

(** The guard of the emitter is Python truthiness: an empty scope, which
    no caller passes, is let through like [None]. *)
Remark generate_enum_empty_scope :
  is_ok (generate_enum re_no_match (generator ∅) ex_ctx ex_color (Some "")) = true.
Proof. vm_compute. reflexivity. Qed.

(** * Package filter *)

Lemma startswith_iff (s p : string) :
  PyStr.startswith s p = true <-> exists rest, s = p +:+ rest.
Proof.
  split.
  - revert s. induction p as [ | b p IH ]; intros s H.
    + exists s. reflexivity.
    + destruct s as [ | a s ]; [ discriminate | ]. cbn in H.
      destruct (Ascii.eqb_spec a b) as [-> | _]; [ | discriminate ].
      destruct (IH s H) as [rest ->]. exists rest. reflexivity.
  - intros [rest ->]. apply startswith_app.
Qed.

Lemma length_append (a b : string) :
  String.length (a +:+ b) = (String.length a + String.length b)%nat.
Proof.
  induction a as [ | c a IH ]; [ reflexivity | ].
  rewrite append_cons. cbn [String.length]. rewrite IH. reflexivity.
Qed.

Lemma is_descendant_iff (a b : string) :
  PyStr.startswith a (b +:+ ".") = true <-> is_descendant a b.
Proof.
  rewrite startswith_iff. unfold is_descendant.
  split; intros [rest ->]; exists rest;
    [ apply append_assoc | symmetry; apply append_assoc ].
Qed.

Lemma is_descendant_longer (a b : string) :
  is_descendant a b -> (String.length b < String.length a)%nat.
Proof.
  intros [rest ->]. rewrite length_append, append_cons. cbn [String.length]. lia.
Qed.

(** C1. With the list of output files of a package at hand: without a
    filter, for the filtered package itself and for its descendants,
    [generate_package] returns that list; for a package of which the
    filter is a descendant it returns the one empty [__init__] placeholder
    of the package; in every other case it returns the empty list. *)
Theorem generate_package_filter (re : ReModule) (self : TracGenerator)
    (api_package : string) (files : list FileDescriptorProto)
    (type_map : gmap string TypeInfo) (output_files : list File) :
  package_output_files re self api_package files type_map = Ok output_files ->
  (_options self !! "packages" = None ->
   generate_package re self api_package files type_map = Ok output_files)
  /\ (forall package_filter,
        _options self !! "packages" = Some package_filter ->
        (api_package = package_filter \/ is_descendant api_package package_filter ->
         generate_package re self api_package files type_map = Ok output_files)
        /\ (is_descendant package_filter api_package ->
            generate_package re self api_package files type_map
            = Ok [placeholder api_package])
        /\ (api_package <> package_filter ->
            ~ is_descendant api_package package_filter ->
            ~ is_descendant package_filter api_package ->
            generate_package re self api_package files type_map = Ok [])).
Proof.
  intros Hout. unfold generate_package. rewrite Hout. cbn [mbind result_bind].
  split; [ intros ->; reflexivity | ].
  intros package_filter ->.
  destruct (String.eqb_spec api_package package_filter) as [Heq | Hne].
  { cbn [orb]. split; [ reflexivity | ]. split.
    - intros Hdesc%is_descendant_longer. subst. lia.
    - intros Hn. contradiction. }
  cbn [orb].
  destruct (PyStr.startswith api_package (package_filter +:+ ".")) eqn:Hdown.
  { apply is_descendant_iff in Hdown. split; [ reflexivity | ]. split.
    - intros Hup%is_descendant_longer. apply is_descendant_longer in Hdown. lia.
    - intros _ Hn. contradiction. }
  assert (Hnot : ~ is_descendant api_package package_filter).
  { intros H%is_descendant_iff. congruence. }
  destruct (PyStr.startswith package_filter (api_package +:+ ".")) eqn:Hup.
  - apply is_descendant_iff in Hup. split; [ | split ].
    + intros [? | ?]; contradiction.
    + reflexivity.
    + intros _ _ Hn. contradiction.
  - split; [ | split ].
    + intros [? | ?]; contradiction.
    + intros H%is_descendant_iff. congruence.
    + reflexivity.
Qed.

(** Filter [a.b] in package [a]: one empty placeholder named
    [a/__init__.py]; filter [x.y] in package [a.b]: nothing. *)
Lemma generate_package_filter_witness :
  generate_package re_no_match (generator {[ "packages" := "a.b" ]}) "a" [] ∅
  = Ok [ {| out_name := "a/__init__.py"; out_content := "" |} ]
  /\ generate_package re_no_match (generator {[ "packages" := "x.y" ]}) "a.b" [] ∅
  = Ok [].
Proof.
  split.
  - refine (proj1 (proj2 (proj2 (generate_package_filter re_no_match
              (generator {[ "packages" := "a.b" ]}) "a" [] ∅ _ eq_refl)
              "a.b" eq_refl)) _).
    exists "b". reflexivity.
  - refine (proj2 (proj2 (proj2 (generate_package_filter re_no_match
              (generator {[ "packages" := "x.y" ]}) "a.b" [] ∅ _ eq_refl)
              "x.y" eq_refl)) _ _ _).
    + discriminate.
    + intros [rest H]. discriminate.
    + intros [rest H]. discriminate.
Defined.

(** Filter [a.b.c] in package [a.b]: the filter is a descendant of the
    package, and the output is the placeholder, not the normal output;
    filter [a.b] in package [a.b.c]: the normal output. *)
Remark generate_package_filter_below :
  generate_package re_no_match (generator {[ "packages" := "a.b.c" ]}) "a.b" [] ∅
  = Ok [ {| out_name := "a/b/__init__.py"; out_content := "" |} ]
  /\ generate_package re_no_match (generator {[ "packages" := "a.b" ]}) "a.b.c" [] ∅
  = generate_package re_no_match (generator ∅) "a.b.c" [] ∅.
Proof. split; vm_compute; reflexivity. Qed.

(** * Flat-pack and per-module output *)

(** C2, as the code has it. For three input files whose code is generated,
    and no package filter: in flat-pack mode [generate_package] returns
    three records, the first named by the module path of the package and
    carrying the file header, the other two with an empty name (chunks
    that the plugin protocol appends to the file before them), so one
    output file in all; otherwise it returns four records, one module per
    input file, named by the stem of the input under the package
    directory, and the package [__init__] file. *)
Theorem generate_package_three_files (re : ReModule) (self : TracGenerator)
    (api_package : string) (f1 f2 f3 : FileDescriptorProto)
    (type_map : gmap string TypeInfo) (c1 c2 c3 : string) :
  let flat_pack := bool_decide (is_Some (_options self !! "flat_pack")) in
  _options self !! "packages" = None ->
  generate_file re self (file_locations f1) 0 f1 api_package type_map
    (negb flat_pack) = Ok c1 ->
  generate_file re self (file_locations f2) 0 f2 api_package type_map
    (negb flat_pack) = Ok c2 ->
  generate_file re self (file_locations f3) 0 f3 api_package type_map
    (negb flat_pack) = Ok c3 ->
  (flat_pack = true ->
   forall module_path,
     package_module api_package = Ok module_path ->
     generate_package re self api_package [f1; f2; f3] type_map
     = Ok [ {| out_name := Pathlib.str module_path;
               out_content := FILE_HEADER +:+ STD_IMPORTS +:+ c1 |};
            {| out_name := ""; out_content := c2 |};
            {| out_name := ""; out_content := c3 |} ])
  /\ (flat_pack = false ->
      forall m1 m2 m3,
        module_file api_package f1 = Ok m1 ->
        module_file api_package f2 = Ok m2 ->
        module_file api_package f3 = Ok m3 ->
        generate_package re self api_package [f1; f2; f3] type_map
        = Ok [ {| out_name := Pathlib.str m1;
                  out_content := PyStr.strip_double_nl c1 |};
               {| out_name := Pathlib.str m2;
                  out_content := PyStr.strip_double_nl c2 |};
               {| out_name := Pathlib.str m3;
                  out_content := PyStr.strip_double_nl c3 |};
               {| out_name := init_name api_package;
                  out_content :=
                    PyStr.drop_last FILE_HEADER
                    +:+ ((("" +:+ generate_package_imports f1)
                          +:+ generate_package_imports f2)
                         +:+ generate_package_imports f3) |} ]).
Proof.
  cbv zeta. intros Hfilter H1 H2 H3.
  unfold generate_package, package_output_files, package_module, module_file,
    package_path, init_name.
  rewrite Hfilter. cbn [foldM]. unfold package_file_step.
  destruct (bool_decide (is_Some (_options self !! "flat_pack"))) eqn:Hflat;
    cbn [negb] in H1, H2, H3; cbn [negb andb orb];
    rewrite H1; cbn [mbind result_bind length Nat.ltb Nat.leb Nat.eqb app].
  - split; [ intros _ module_path Hm | discriminate ].
    rewrite Hm. cbn [mbind result_bind length Nat.eqb app].
    rewrite H2. cbn [mbind result_bind length Nat.eqb app].
    rewrite H3. reflexivity.
  - split; [ discriminate | intros _ m1 m2 m3 Hm1 Hm2 Hm3 ].
    rewrite Hm1. cbn [mbind result_bind length Nat.eqb app].
    rewrite H2. cbn [mbind result_bind].
    rewrite Hm2. cbn [mbind result_bind length Nat.eqb app].
    rewrite H3. cbn [mbind result_bind].
    rewrite Hm3. reflexivity.
Qed.

(** Three files of package [p]: the names of the records in flat-pack mode
    and in the default mode. *)
Lemma generate_package_three_files_witness :
  fmap (M := list) out_name <$>
    generate_package re_no_match ex_flat_generator "p"
      ex_three_files ex_no_types
  = Ok [ "p.py"; ""; "" ]
  /\ fmap (M := list) out_name <$>
       generate_package re_no_match ex_generator "p" ex_three_files ex_no_types
     = Ok [ "p/a.py"; "p/b.py"; "p/c.py"; "p/__init__.py" ].
Proof.
  split.
  - pose proof (proj1 (generate_package_three_files re_no_match
               ex_flat_generator "p"
               (ex_empty_file "p/a.proto") (ex_empty_file "p/b.proto")
               (ex_empty_file "p/c.proto") ex_no_types _ _ _
               ltac:(vm_compute; reflexivity) ltac:(vm_compute; reflexivity) ltac:(vm_compute; reflexivity)
               ltac:(vm_compute; reflexivity))
               ltac:(vm_compute; reflexivity) _ ltac:(vm_compute; reflexivity)) as Hflat.
    change ([ex_empty_file "p/a.proto"; ex_empty_file "p/b.proto";
             ex_empty_file "p/c.proto"]) with ex_three_files in Hflat.
    rewrite Hflat. reflexivity.
  - pose proof (proj2 (generate_package_three_files re_no_match
               ex_generator "p"
               (ex_empty_file "p/a.proto") (ex_empty_file "p/b.proto")
               (ex_empty_file "p/c.proto") ex_no_types _ _ _
               ltac:(vm_compute; reflexivity) ltac:(vm_compute; reflexivity) ltac:(vm_compute; reflexivity)
               ltac:(vm_compute; reflexivity))
               ltac:(vm_compute; reflexivity) _ _ _ ltac:(vm_compute; reflexivity) ltac:(vm_compute; reflexivity)
               ltac:(vm_compute; reflexivity)) as Hmodules.
    change ([ex_empty_file "p/a.proto"; ex_empty_file "p/b.proto";
             ex_empty_file "p/c.proto"]) with ex_three_files in Hmodules.
    rewrite Hmodules. reflexivity.
Defined.

(** C2 as stated fails in flat-pack mode: for three input files of package
    [p] the generator returns three records, whatever the regular
    expression engine, not one. *)
Lemma flat_pack_returns_three_records :
  (forall re,
     length <$>
       generate_package re ex_flat_generator "p"
         ex_three_files ex_no_types
     = Ok 3%nat)
  /\ ~ (exists re file,
          generate_package re ex_flat_generator "p"
            ex_three_files ex_no_types
          = Ok [file]).
Proof.
  assert (H : forall re,
            length <$>
              generate_package re ex_flat_generator "p"
                ex_three_files ex_no_types
            = Ok 3%nat)
    by (intros re; vm_compute; reflexivity).
  split; [ exact H | ].
  intros (re & file & Hone). specialize (H re). rewrite Hone in H. discriminate.
Qed.

(** * Further properties of the generator *)

(** ** Descriptor field numbers *)

(** X1. [get_field_number] returns the number of the first field of the
    schema with the given name; it raises the generation error, naming
    the field and the type, exactly when the schema has no such field. *)
Theorem get_field_number_first (message_descriptor : MessageSchema)
    (field_name : string) :
  match get_field_number message_descriptor field_name with
  | Ok number =>
      exists before after,
        schema_fields message_descriptor
        = before ++ (field_name, number) :: after
        /\ Forall (fun f => fst f <> field_name) before
  | Raise e =>
      e = ECodeGeneration
            ("Field " +:+ field_name +:+ " not found in type "
             +:+ schema_name message_descriptor)
      /\ Forall (fun f => fst f <> field_name) (schema_fields message_descriptor)
  end.
Proof.
  unfold get_field_number.
  induction (schema_fields message_descriptor) as [ | [n k] fields IH ];
    cbn [List.find fst snd].
  - split; [ reflexivity | constructor ].
  - destruct (String.eqb_spec n field_name) as [-> | Hne]; cbn [snd].
    + exists [], fields. split; [ reflexivity | constructor ].
    + destruct (List.find _ fields) as [[n' k'] | ]; cbn [snd] in IH |- *.
      * destruct IH as (before & after & -> & Hbefore).
        exists ((n, k) :: before), after.
        split; [ reflexivity | constructor; [ exact Hne | exact Hbefore ] ].
      * destruct IH as [He Hall].
        split; [ exact He | constructor; [ exact Hne | exact Hall ] ].
Qed.

(** ** Comment translation and enum comments *)

Lemma translate_comment_some (re : ReModule) (ctx : LocationContext)
    (comment : option string) (use_next_indent : bool) :
  exists t, translate_comment_from_proto re ctx comment use_next_indent = Some t.
Proof.
  unfold translate_comment_from_proto.
  destruct comment as [comment | ]; [ cbv zeta | eexists; reflexivity ].
  destruct (String.eqb _ ""); eexists; reflexivity.
Qed.

(** X2. Whatever the regular expression engine does, the translation of
    a comment is never [None]; it is the empty string for an absent
    comment, and otherwise the empty string or a text that is not
    whitespace only. *)
Theorem translate_comment_normalised (re : ReModule) (ctx : LocationContext)
    (comment : option string) (use_next_indent : bool) :
  exists t,
    translate_comment_from_proto re ctx comment use_next_indent = Some t
    /\ (t = "" \/ ~ whitespace_only t)
    /\ (comment = None -> t = "").
Proof.
  unfold translate_comment_from_proto.
  destruct comment as [comment | ].
  - cbv zeta.
    match goal with
    | |- context [ String.eqb (PyStr.strip ?x) "" ] =>
        set (t := x); destruct (String.eqb_spec (PyStr.strip t) "") as [Hs | Hs]
    end.
    + exists "". split; [ reflexivity | ].
      split; [ left; reflexivity | discriminate ].
    + exists t. split; [ reflexivity | ].
      split; [ right; intros Hw; apply Hs, strip_empty_iff, Hw | discriminate ].
  - exists "". split; [ reflexivity | ]. split; [ left; reflexivity | reflexivity ].
Qed.

Lemma lstrip_idempotent (s : string) : PyStr.lstrip (PyStr.lstrip s) = PyStr.lstrip s.
Proof.
  induction s as [ | c s IH ]; [ reflexivity | ]. cbn.
  destruct (PyStr.isspace c) eqn:Hc; [ exact IH | ].
  cbn. rewrite Hc. reflexivity.
Qed.

Lemma strip_lstrip (s : string) : PyStr.strip (PyStr.lstrip s) = PyStr.strip s.
Proof. unfold PyStr.strip. rewrite lstrip_idempotent. reflexivity. Qed.

Lemma render_enum_single_line (ind text : string) :
  PyStr.replace "{COMMENT}" text
    (PyStr.replace "{INDENT}" ind ENUM_COMMENT_SINGLE_LINE)
  = dq3 +:+ text +:+ dq3.
Proof. vm_compute. reflexivity. Qed.

Lemma render_enum_multi_line (n : nat) (text : string) :
  PyStr.replace "{COMMENT}" text
    (PyStr.replace "{INDENT}" (indent_str n) ENUM_COMMENT_MULTI_LINE)
  = dq3 +:+ text +:+ nl +:+ indent_str n +:+ dq3.
Proof.
  assert (H1 : forall ind, PyStr.replace "{INDENT}" ind ENUM_COMMENT_MULTI_LINE
                 = dq3 +:+ "{COMMENT}" +:+ nl +:+ ind +:+ dq3)
    by (intros ind; vm_compute; reflexivity).
  rewrite H1. unfold PyStr.replace.
  rewrite (replace_go_prefix "{" "COMMENT}" text dq3) by reflexivity.
  rewrite replace_go_match.
  rewrite (replace_go_prefix "{" "COMMENT}" text nl) by reflexivity.
  rewrite replace_go_prefix by apply indent_str_no_brace.
  reflexivity.
Qed.

Lemma format_enum_comment_ok (re : ReModule) (ctx : LocationContext)
    (comment : option string) :
  is_ok (format_enum_comment re ctx comment) = true.
Proof.
  unfold format_enum_comment.
  destruct (translate_comment_from_proto re ctx comment false) as [t | ] eqn:Ht.
  - destruct (String.eqb _ ""); [ reflexivity | ].
    destruct (negb _); reflexivity.
  - unfold translate_comment_from_proto in Ht.
    destruct comment; [ | discriminate ].
    cbv zeta in Ht. destruct (String.eqb _ "") in Ht; discriminate.
Qed.

(** X3. The comment of an enum value never raises.  It is empty when the
    translated comment is whitespace only; the stripped text between
    triple quotes when that text has no line break; and otherwise the
    text without its leading whitespace, a line break, the indentation
    and the closing quotes. *)
Theorem format_enum_comment_cases (re : ReModule) (ctx : LocationContext)
    (comment : option string) :
  is_ok (format_enum_comment re ctx comment) = true
  /\ (forall t,
        translate_comment_from_proto re ctx comment false = Some t ->
        (whitespace_only t -> format_enum_comment re ctx comment = Ok "")
        /\ (~ whitespace_only t ->
            PyStr.contains_char "010" (PyStr.strip t) = false ->
            format_enum_comment re ctx comment
            = Ok (dq3 +:+ PyStr.strip t +:+ dq3))
        /\ (~ whitespace_only t ->
            PyStr.contains_char "010" (PyStr.strip t) = true ->
            format_enum_comment re ctx comment
            = Ok (dq3 +:+ PyStr.lstrip t +:+ nl
                  +:+ indent_str (indent ctx) +:+ dq3))).
Proof.
  unfold format_enum_comment.
  destruct (translate_comment_some re ctx comment false) as [t Ht].
  rewrite Ht. rewrite strip_lstrip.
  split.
  - destruct (String.eqb (PyStr.strip t) ""); [ reflexivity | ].
    destruct (negb _); reflexivity.
  - intros t' [= <-].
    destruct (String.eqb_spec (PyStr.strip t) "") as [Hs | Hs].
    + apply strip_empty_iff in Hs.
      split; [ reflexivity | split; intros Hn; contradiction ].
    + split; [ intros Hw; apply strip_empty_iff in Hw; contradiction | ].
      split; intros _ Hline; rewrite Hline; cbn [negb].
      * rewrite render_enum_single_line. reflexivity.
      * rewrite render_enum_multi_line. reflexivity.
Qed.

(** ** Documentation of a node *)

(** X4. The raw comment of the node at (field code, index) is the
    leading comment of the first location entry whose path is exactly
    that pair; without such an entry there is no raw comment and the node
    gets no documentation comment, whatever the engine. *)
Theorem comment_of_node (locations : list Location) (loc_type loc_index : Z) :
  comment_for_current_location
    (filter_src_location locations loc_type loc_index)
  = leading_comments <$>
      List.find (fun l => bool_decide (path l = [loc_type; loc_index])) locations
  /\ (Forall (fun l => path l <> [loc_type; loc_index]) locations ->
      forall re ctx next_indent,
        format_doc_comment re ctx
          (comment_for_current_location
             (filter_src_location locations loc_type loc_index))
          next_indent = "").
Proof.
  assert (Hcomment :
    comment_for_current_location
      (filter_src_location locations loc_type loc_index)
    = leading_comments <$>
        List.find (fun l => bool_decide (path l = [loc_type; loc_index])) locations).
  { unfold comment_for_current_location.
    rewrite current_location_of_narrowed.
    destruct (List.find _ locations); reflexivity. }
  split; [ exact Hcomment | ].
  intros Hnone re ctx next_indent. rewrite Hcomment. clear Hcomment.
  replace (List.find _ locations) with (@None Location); [ reflexivity | ].
  symmetry. induction Hnone as [ | l locations Hl _ IH ]; [ reflexivity | ].
  cbn [List.find]. rewrite bool_decide_eq_false_2 by exact Hl. exact IH.
Qed.

(** X5. Narrowing twice, to (a, b) and then to (c, d), keeps exactly the
    entries whose path begins with a, b, c, d, in order, each with these
    four numbers taken off its path. *)
Theorem filter_src_location_twice (locations : list Location) (a b c d : Z) :
  filter_src_location (filter_src_location locations a b) c d
  = List.map (fun l => relative_path (relative_path l))
      (List.filter (fun l => bool_decide (take 4 (path l) = [a; b; c; d]))
         locations).
Proof.
  induction locations as [ | l locations IH ]; [ reflexivity | ].
  rewrite filter_src_location_cons. cbn [List.filter].
  destruct (_ && _ && _) eqn:Hpre.
  - apply has_prefix_iff in Hpre as [rest Hrest].
    rewrite filter_src_location_cons.
    assert (Hrel : path (relative_path l) = rest)
      by (unfold relative_path; cbn; rewrite Hrest; reflexivity).
    destruct (_ && _ && _) eqn:Hpre2.
    + apply has_prefix_iff in Hpre2 as [rest2 Hrest2].
      rewrite Hrel in Hrest2. rewrite Hrest2 in Hrest.
      rewrite bool_decide_eq_true_2 by (rewrite Hrest; reflexivity).
      cbn [List.map]. rewrite IH. reflexivity.
    + rewrite bool_decide_eq_false_2; [ exact IH | ].
      intros Htake. rewrite Hrest in Htake.
      assert (Htrue : (2 <=? length (path (relative_path l)))%nat
                && bool_decide (path (relative_path l) !! 0%nat = Some c)
                && bool_decide (path (relative_path l) !! 1%nat = Some d) = true).
      { apply has_prefix_iff. rewrite Hrel.
        destruct rest as [ | c' [ | d' rest' ] ]; cbn in Htake; try discriminate.
        injection Htake as -> ->. eauto. }
      rewrite Htrue in Hpre2. discriminate.
  - rewrite bool_decide_eq_false_2; [ exact IH | ].
    intros Htake.
    assert (Htrue : (2 <=? length (path l))%nat
              && bool_decide (path l !! 0%nat = Some a)
              && bool_decide (path l !! 1%nat = Some b) = true).
    { apply has_prefix_iff.
      destruct (path l) as [ | a' [ | b' [ | c' [ | d' rest' ] ] ] ];
        cbn in Htake; try discriminate.
      injection Htake as -> -> -> ->. eauto. }
    rewrite Htrue in Hpre. discriminate.
Qed.

(** ** Templates and chains of [replace] *)

Lemma token_mismatch (n name rest : string) :
  PyStr.contains_char "}" n = false ->
  PyStr.contains_char "}" name = false ->
  n <> name ->
  PyStr.startswith (n +:+ "}" +:+ rest) (name +:+ "}") = false.
Proof.
  revert name. induction n as [ | a n IH ]; intros name Hn Hname Hne.
  - destruct name as [ | c name ]; [ contradiction | ].
    rewrite append_nil, !append_cons. cbn [PyStr.startswith].
    cbn in Hname. destruct (Ascii.eqb_spec "}" c) as [<- | _]; [ | reflexivity ].
    rewrite Ascii.eqb_refl in Hname. discriminate.
  - cbn in Hn. destruct (Ascii.eqb a "}") eqn:Ha; [ discriminate | ].
    destruct name as [ | c name ].
    + rewrite append_nil, !append_cons. cbn [PyStr.startswith].
      rewrite Ha. reflexivity.
    + rewrite !append_cons. cbn [PyStr.startswith].
      destruct (Ascii.eqb_spec a c) as [<- | _]; [ | reflexivity ].
      cbn in Hname. rewrite Ha in Hname.
      apply IH; [ exact Hn | exact Hname | congruence ].
Qed.

(** A [replace] of the placeholder [name] fills exactly the segments of
    that name, provided no other segment contains a brace. *)
Lemma replace_segments (name value : string) (l : list segment) :
  token_name name -> Forall plain l ->
  PyStr.replace ("{" +:+ name +:+ "}") value (flatten l)
  = flatten (List.map (fill name value) l).
Proof.
  intros [Hopen Hclose] Hl.
  change (PyStr.replace ("{" +:+ name +:+ "}") value (flatten l))
    with (PyStr.replace_go (String "{" (name +:+ "}")) value (flatten l) 0).
  induction Hl as [ | s l Hs _ IH ]; [ reflexivity | ].
  cbn [flatten List.map].
  destruct s as [ text | n ]; cbn [segment_text fill].
  - rewrite replace_go_prefix by exact Hs. rewrite IH. reflexivity.
  - destruct Hs as [Hnopen Hnclose].
    destruct (String.eqb_spec n name) as [-> | Hne]; cbn [segment_text].
    + change ("{" +:+ name +:+ "}") with (String "{" (name +:+ "}")).
      rewrite replace_go_match, IH. reflexivity.
    + change ("{" +:+ n +:+ "}") with (String "{" (n +:+ "}")).
      rewrite append_cons, append_assoc. cbn [PyStr.replace_go PyStr.startswith].
      rewrite Ascii.eqb_refl.
      rewrite token_mismatch by assumption.
      rewrite replace_go_prefix by exact Hnopen.
      rewrite append_cons, append_nil. cbn [PyStr.replace_go PyStr.startswith].
      change (Ascii.eqb "}" "{") with false. cbn iota.
      rewrite IH. rewrite append_cons, append_assoc. reflexivity.
Qed.

Lemma append_empty_r (s : string) : s +:+ "" = s.
Proof.
  induction s as [ | c s IH ]; [ reflexivity | ].
  rewrite append_cons, IH. reflexivity.
Qed.

Lemma replace_token (old name value : string) (l : list segment) :
  old = "{" +:+ name +:+ "}" ->
  token_name name -> Forall plain l ->
  PyStr.replace old value (flatten l) = flatten (List.map (fill name value) l).
Proof. intros ->. apply replace_segments. Qed.

Ltac fill_template name :=
  rewrite (replace_token _ name);
  [ cbn [List.map fill String.eqb Ascii.eqb Bool.eqb andb]
  | reflexivity
  | split; reflexivity
  | repeat constructor;
    first [ assumption | apply indent_str_no_brace | split; reflexivity | reflexivity ] ].

Ltac close_template :=
  cbn [flatten segment_text]; rewrite ?append_empty_r; reflexivity.

Lemma DATA_MEMBER_TEMPLATE_segments :
  DATA_MEMBER_TEMPLATE
  = flatten [ Tok "INDENT"; Tok "MEMBER_NAME"; Lit ": "; Tok "MEMBER_TYPE";
              Lit " = "; Tok "MEMBER_DEFAULT"; Lit (nl +:+ nl); Tok "DOC_COMMENT" ].
Proof. reflexivity. Qed.

(** X6. A data member whose name, resolved type and default contain no
    opening brace is the line [name: type = default] at the indentation
    of its context, an empty line, and its documentation comment. *)
Theorem generate_data_member_text (re : ReModule) (package : string)
    (ctx : LocationContext) (message : DescriptorProto)
    (field : FieldDescriptorProto) (types : gmap string TypeInfo)
    (field_type field_default : string) :
  python_field_type package field message = Ok field_type ->
  python_default_value package field message types = Ok field_default ->
  brace_free (field_name field) ->
  brace_free field_type ->
  brace_free field_default ->
  generate_data_member re package ctx message field types
  = Ok (indent_str (indent ctx) +:+ field_name field +:+ ": " +:+ field_type
        +:+ " = " +:+ field_default +:+ (nl +:+ nl)
        +:+ format_doc_comment re ctx
              (comment_for_current_location
                 (filter_src_location (src_locations ctx) (src_loc_code ctx)
                    (src_loc_index ctx)))
              false).
Proof.
  intros Htype Hdefault Hname Hty Hdf.
  unfold generate_data_member. rewrite Htype, Hdefault.
  cbn [mbind result_bind]. f_equal.
  rewrite DATA_MEMBER_TEMPLATE_segments.
  fill_template "INDENT". fill_template "MEMBER_NAME".
  fill_template "MEMBER_TYPE". fill_template "MEMBER_DEFAULT".
  fill_template "DOC_COMMENT".
  close_template.
Qed.

(** The member [n] of type [int32] at depth 1. *)
Lemma generate_data_member_text_witness :
  generate_data_member re_no_match "pkg"
    {| src_locations := []; src_loc_code := 2; src_loc_index := 0; indent := 1 |}
    (ex_message true) (ex_field "n" LABEL_OPTIONAL TYPE_INT32 "") ex_no_types
  = Ok ("    n: int = None" +:+ nl +:+ nl).
Proof.
  exact (generate_data_member_text re_no_match "pkg"
           {| src_locations := []; src_loc_code := 2; src_loc_index := 0; indent := 1 |}
           (ex_message true) (ex_field "n" LABEL_OPTIONAL TYPE_INT32 "") ex_no_types
           "int" "None" eq_refl eq_refl eq_refl eq_refl eq_refl).
Defined.

Lemma ENUM_VALUE_TEMPLATE_segments :
  ENUM_VALUE_TEMPLATE
  = flatten [ Tok "INDENT"; Tok "ENUM_VALUE_NAME"; Lit " = ";
              Tok "ENUM_VALUE_NUMBER"; Lit ", "; Tok "QUOTED_COMMENT";
              Lit (nl +:+ nl) ].
Proof. reflexivity. Qed.

(** X7. An enum value whose name and formatted comment contain no
    opening brace is the line [NAME = number, comment] at the indentation
    of its context, followed by an empty line. *)
Theorem generate_enum_value_text (re : ReModule) (ctx : LocationContext)
    (descriptor : EnumValueDescriptorProto) (formatted_comment : string) :
  format_enum_comment re ctx
    (comment_for_current_location
       (filter_src_location (src_locations ctx) (src_loc_code ctx)
          (src_loc_index ctx)))
  = Ok formatted_comment ->
  brace_free (ev_name descriptor) ->
  brace_free formatted_comment ->
  generate_enum_value re ctx descriptor
  = Ok (indent_str (indent ctx) +:+ ev_name descriptor +:+ " = "
        +:+ PyStr.of_Z (ev_number descriptor) +:+ ", " +:+ formatted_comment
        +:+ (nl +:+ nl)).
Proof.
  intros Hcomment Hname Hfree.
  unfold generate_enum_value. rewrite Hcomment.
  cbn [mbind result_bind]. f_equal.
  rewrite ENUM_VALUE_TEMPLATE_segments.
  fill_template "INDENT". fill_template "QUOTED_COMMENT".
  fill_template "ENUM_VALUE_NAME". fill_template "ENUM_VALUE_NUMBER".
  close_template.
Qed.

(** The value [RED = 0] of an enum at depth 1, without comment. *)
Lemma generate_enum_value_text_witness :
  generate_enum_value re_no_match
    {| src_locations := []; src_loc_code := 2; src_loc_index := 0; indent := 1 |}
    {| ev_name := "RED"; ev_number := 0 |}
  = Ok ("    RED = 0, " +:+ nl +:+ nl).
Proof.
  exact (generate_enum_value_text re_no_match
           {| src_locations := []; src_loc_code := 2; src_loc_index := 0; indent := 1 |}
           {| ev_name := "RED"; ev_number := 0 |} "" eq_refl eq_refl eq_refl).
Defined.

Lemma SERVICE_METHOD_TEMPLATE_segments :
  SERVICE_METHOD_TEMPLATE
  = flatten [ Tok "INDENT"; Lit "def "; Tok "METHOD_NAME";
              Lit "(self, request: "; Tok "REQUEST_TYPE"; Lit ") -> ";
              Tok "RESPONSE_TYPE"; Lit (":" +:+ nl +:+ nl); Tok "DOC_COMMENT";
              Tok "NEXT_INDENT"; Lit ("pass" +:+ nl +:+ nl) ].
Proof. reflexivity. Qed.

(** X8. A service method whose name and request and response type names
    contain no opening brace is the stub
    [def name(self, request: Request) -> Response:], an empty line, its
    documentation comment and a [pass] one level deeper; the type names
    are made relative to the package and are not aliased. *)
Theorem generate_service_method_text (re : ReModule) (package : string)
    (ctx : LocationContext) (descriptor : MethodDescriptorProto) :
  brace_free (method_name descriptor) ->
  brace_free (python_type_name package (method_input_type descriptor) true false) ->
  brace_free (python_type_name package (method_output_type descriptor) true false) ->
  generate_service_method re package ctx descriptor
  = indent_str (indent ctx) +:+ "def " +:+ method_name descriptor
    +:+ "(self, request: "
    +:+ python_type_name package (method_input_type descriptor) true false
    +:+ ") -> "
    +:+ python_type_name package (method_output_type descriptor) true false
    +:+ (":" +:+ nl +:+ nl)
    +:+ format_doc_comment re ctx
          (comment_for_current_location
             (filter_src_location (src_locations ctx) (src_loc_code ctx)
                (src_loc_index ctx)))
          true
    +:+ indent_str (indent ctx + 1) +:+ ("pass" +:+ nl +:+ nl).
Proof.
  intros Hname Hrequest Hresponse.
  unfold generate_service_method.
  rewrite SERVICE_METHOD_TEMPLATE_segments.
  fill_template "INDENT". fill_template "NEXT_INDENT".
  fill_template "METHOD_NAME". fill_template "REQUEST_TYPE".
  fill_template "RESPONSE_TYPE". fill_template "DOC_COMMENT".
  close_template.
Qed.

(** The method [get] of a service of package [pkg], from [M] to [M]. *)
Lemma generate_service_method_text_witness :
  generate_service_method re_no_match "pkg" ex_ctx
    {| method_name := "get"; method_input_type := ".pkg.M";
       method_output_type := ".pkg.M" |}
  = "def get(self, request: M) -> M:" +:+ nl +:+ nl
    +:+ "    pass" +:+ nl +:+ nl.
Proof.
  exact (generate_service_method_text re_no_match "pkg" ex_ctx
           {| method_name := "get"; method_input_type := ".pkg.M";
              method_output_type := ".pkg.M" |} eq_refl eq_refl eq_refl).
Defined.

(** ** Declarations *)

Lemma mapM_from_ok_iff {A B : Type} (f : nat -> A -> result B) (l : list A) (i : nat) :
  is_ok (mapM_from f i l) = true
  <-> forall j a, l !! j = Some a -> is_ok (f (i + j)%nat a) = true.
Proof.
  revert i. induction l as [ | x l IH ]; intros i; cbn [mapM_from].
  - split; [ intros _ j a Hj; destruct j; discriminate | reflexivity ].
  - split.
    + intros Hok j a Hj.
      destruct (f i x) as [b | e] eqn:Hx; [ | discriminate ].
      cbn [mbind result_bind] in Hok.
      destruct (mapM_from f (S i) l) as [bs | e] eqn:Hl; [ | discriminate ].
      destruct j as [ | j ]; cbn in Hj.
      * injection Hj as <-. rewrite Nat.add_0_r, Hx. reflexivity.
      * replace (i + S j)%nat with (S i + j)%nat by lia.
        apply (proj1 (IH (S i))); [ rewrite Hl; reflexivity | exact Hj ].
    + intros Hall.
      pose proof (Hall 0%nat x eq_refl) as Hx. rewrite Nat.add_0_r in Hx.
      destruct (f i x) as [b | e]; [ | discriminate ].
      cbn [mbind result_bind].
      assert (Hl : is_ok (mapM_from f (S i) l) = true).
      { apply IH. intros j a Hj.
        replace (S i + j)%nat with (i + S j)%nat by lia.
        apply Hall. exact Hj. }
      destruct (mapM_from f (S i) l); [ reflexivity | discriminate ].
Qed.

Lemma generate_enum_value_ok (re : ReModule) (ctx : LocationContext)
    (descriptor : EnumValueDescriptorProto) :
  is_ok (generate_enum_value re ctx descriptor) = true.
Proof.
  unfold generate_enum_value.
  pose proof (format_enum_comment_ok re ctx
    (comment_for_current_location
       (filter_src_location (src_locations ctx) (src_loc_code ctx)
          (src_loc_index ctx)))) as Hok.
  destruct (format_enum_comment re ctx _); [ reflexivity | discriminate ].
Qed.

Lemma generate_enum_values_ok (re : ReModule) (ctxs : nat -> LocationContext)
    (values : list EnumValueDescriptorProto) (i : nat) :
  is_ok (mapM_from (fun i ev => generate_enum_value re (ctxs i) ev) i values) = true.
Proof.
  apply mapM_from_ok_iff. intros j a _. apply generate_enum_value_ok.
Qed.

Lemma render_pass (n : nat) :
  PyStr.replace "{INDENT}" (indent_str n) PASS_TEMPLATE
  = indent_str n +:+ "pass" +:+ nl +:+ nl.
Proof.
  assert (H : PASS_TEMPLATE = flatten [ Tok "INDENT"; Lit ("pass" +:+ nl +:+ nl) ])
    by reflexivity.
  rewrite H. fill_template "INDENT". close_template.
Qed.

Lemma ENUM_TEMPLATE_segments :
  ENUM_TEMPLATE
  = flatten [ Tok "INDENT"; Lit "class "; Tok "CLASS_NAME";
              Lit ("(_enum.Enum):" +:+ nl +:+ nl); Tok "DOC_COMMENT";
              Tok "ENUM_VALUES" ].
Proof. reflexivity. Qed.

(** X9. A top-level enum never aborts generation.  An enum without
    values gives the indented [pass] line alone, without any class
    header; an enum with values whose name and documentation comment
    contain no opening brace gives the [class Name(_enum.Enum):] header,
    the comment and the texts of its values in declaration order. *)
Theorem generate_enum_top_level (re : ReModule) (self : TracGenerator)
    (ctx : LocationContext) (descriptor : EnumDescriptorProto) :
  let filtered_loc :=
    filter_src_location (src_locations ctx) (src_loc_code ctx) (src_loc_index ctx) in
  let doc_comment :=
    format_doc_comment re ctx (comment_for_current_location filtered_loc) true in
  is_ok (generate_enum re self ctx descriptor None) = true
  /\ (enum_value descriptor = [] ->
      generate_enum re self ctx descriptor None
      = Ok (indent_str (indent ctx) +:+ "pass" +:+ nl +:+ nl))
  /\ (enum_value descriptor <> [] ->
      forall values,
        mapM_from
          (fun i ev =>
             generate_enum_value re
               (index_sub_ctx filtered_loc (_desc_enum_value self) (indent ctx + 1) i)
               ev)
          0 (enum_value descriptor) = Ok values ->
        brace_free (enum_name descriptor) ->
        brace_free doc_comment ->
        generate_enum re self ctx descriptor None
        = Ok (indent_str (indent ctx) +:+ "class " +:+ enum_name descriptor
              +:+ ("(_enum.Enum):" +:+ nl +:+ nl) +:+ doc_comment
              +:+ PyStr.join "" values)).
Proof.
  cbv zeta. unfold generate_enum. cbn [truthy].
  split; [ | split ].
  - destruct (bool_decide _); [ reflexivity | ].
    match goal with
    | |- context [ mapM_from ?f 0%nat ?l ] =>
        pose proof (generate_enum_values_ok re
          (index_sub_ctx
             (filter_src_location (src_locations ctx) (src_loc_code ctx)
                (src_loc_index ctx))
             (_desc_enum_value self) (indent ctx + 1))
          l 0) as Hok;
        destruct (mapM_from f 0%nat l); [ reflexivity | discriminate ]
    end.
  - intros Hempty. rewrite bool_decide_eq_true_2 by exact Hempty.
    rewrite render_pass. reflexivity.
  - intros Hvalues values Hgen Hname Hdoc.
    rewrite bool_decide_eq_false_2 by exact Hvalues.
    rewrite Hgen. cbn [mbind result_bind]. f_equal.
    rewrite ENUM_TEMPLATE_segments.
    fill_template "INDENT". fill_template "NEXT_INDENT".
    fill_template "DOC_COMMENT". fill_template "CLASS_NAME".
    fill_template "ENUM_VALUES".
    close_template.
Qed.

(** [enum Color] at the top level of a file without comments. *)
Lemma generate_enum_top_level_witness :
  generate_enum re_no_match ex_generator
    {| src_locations := []; src_loc_code := 5; src_loc_index := 0; indent := 0 |}
    ex_color None
  = Ok ("class Color(_enum.Enum):" +:+ nl +:+ nl
        +:+ "    RED = 0, " +:+ nl +:+ nl
        +:+ "    BLUE = 1, " +:+ nl +:+ nl).
Proof.
  refine (proj2 (proj2 (generate_enum_top_level re_no_match ex_generator
            {| src_locations := []; src_loc_code := 5; src_loc_index := 0; indent := 0 |}
            ex_color)) _ _ eq_refl eq_refl eq_refl).
  discriminate.
Defined.

Lemma DATA_CLASS_TEMPLATE_segments :
  DATA_CLASS_TEMPLATE
  = flatten [ Tok "INDENT"; Lit ("@_dc.dataclass" +:+ nl); Tok "INDENT";
              Lit "class "; Tok "CLASS_NAME"; Lit (":" +:+ nl +:+ nl);
              Tok "DOC_COMMENT"; Tok "NESTED_ENUMS"; Tok "NESTED_CLASSES";
              Tok "DATA_MEMBERS" ].
Proof. reflexivity. Qed.

Lemma render_data_class (n : nat) (name doc enums classes members : string) :
  brace_free name -> brace_free doc -> brace_free enums -> brace_free classes ->
  PyStr.replace "{DATA_MEMBERS}" members
    (PyStr.replace "{NESTED_CLASSES}" classes
    (PyStr.replace "{NESTED_ENUMS}" enums
    (PyStr.replace "{DOC_COMMENT}" doc
    (PyStr.replace "{CLASS_NAME}" name
    (PyStr.replace "{NEXT_INDENT}" (indent_str (n + 1))
    (PyStr.replace "{INDENT}" (indent_str n) DATA_CLASS_TEMPLATE))))))
  = indent_str n +:+ ("@_dc.dataclass" +:+ nl) +:+ indent_str n +:+ "class "
    +:+ name +:+ (":" +:+ nl +:+ nl) +:+ doc +:+ enums +:+ classes +:+ members.
Proof.
  intros Hname Hdoc Henums Hclasses.
  rewrite DATA_CLASS_TEMPLATE_segments.
  fill_template "INDENT". fill_template "NEXT_INDENT".
  fill_template "CLASS_NAME". fill_template "DOC_COMMENT".
  fill_template "NESTED_ENUMS". fill_template "NESTED_CLASSES".
  fill_template "DATA_MEMBERS".
  close_template.
Qed.

(** X10. A message without enums, in the scope [message_scope], whose
    nested classes and data members are generated, is the decorated
    [class Name:] header at the indentation of its context, its
    documentation comment, the nested classes and the data members, in
    this order, provided the name, the comment and the nested classes
    contain no opening brace. *)
Theorem generate_data_class_text (re : ReModule) (self : TracGenerator)
    (package message_scope : string) (ctx : LocationContext)
    (descriptor : DescriptorProto) (types : gmap string TypeInfo)
    (nested_types : list string) (data_members : string) :
  let filtered_loc :=
    filter_src_location (src_locations ctx) (src_loc_code ctx) (src_loc_index ctx) in
  let nested_scope := message_scope +:+ "." +:+ msg_name descriptor in
  let doc_comment :=
    format_doc_comment re ctx (comment_for_current_location filtered_loc) true in
  msg_enum_type descriptor = [] ->
  mapM_unless msg_map_entry
    (fun i sub_desc =>
       generate_data_class re self package (Some nested_scope)
         (index_sub_ctx filtered_loc (_desc_file_message self) (indent ctx + 1) i)
         sub_desc types)
    0 (msg_nested_type descriptor) = Ok nested_types ->
  generate_data_members re self package
    {| src_locations := filtered_loc; src_loc_code := src_loc_code ctx;
       src_loc_index := src_loc_index ctx; indent := (indent ctx + 1)%nat |}
    descriptor types = Ok data_members ->
  brace_free (msg_name descriptor) ->
  brace_free doc_comment ->
  brace_free (PyStr.join "" nested_types) ->
  generate_data_class re self package (Some message_scope) ctx descriptor types
  = Ok (indent_str (indent ctx) +:+ ("@_dc.dataclass" +:+ nl)
        +:+ indent_str (indent ctx) +:+ "class " +:+ msg_name descriptor
        +:+ (":" +:+ nl +:+ nl) +:+ doc_comment
        +:+ PyStr.join "" nested_types +:+ data_members).
Proof.
  cbv zeta. intros Henums Hnested Hmembers Hname Hdoc Hclasses.
  rewrite generate_data_class_unfold. cbv zeta.
  rewrite Henums. cbn [mapM_from mbind result_bind].
  rewrite Hnested. cbn [mbind result_bind].
  rewrite Hmembers. cbn [mbind result_bind]. f_equal.
  rewrite render_data_class by (assumption || reflexivity).
  reflexivity.
Qed.

(** The example message with its map field: the entry type is passed over
    and the class holds the one member. *)
Lemma generate_data_class_text_witness :
  generate_data_class re_no_match ex_generator "pkg" (Some "pkg") ex_ctx
    (ex_message true) ex_no_types
  = Ok ("@_dc.dataclass" +:+ nl +:+ "class M:" +:+ nl +:+ nl
        +:+ "    tags: _tp.Dict[str, int] = _dc.field(default_factory=dict)"
        +:+ nl +:+ nl).
Proof.
  exact (generate_data_class_text re_no_match ex_generator "pkg" "pkg" ex_ctx
           (ex_message true) ex_no_types [] _
           eq_refl eq_refl eq_refl eq_refl eq_refl eq_refl).
Defined.

(** X11. A message without fields, enums and nested types, whose name and
    documentation comment contain no opening brace, is its class header,
    its comment and a [pass] line one level deeper: the body is never
    empty. *)
Theorem generate_data_class_empty (re : ReModule) (self : TracGenerator)
    (package message_scope : string) (ctx : LocationContext)
    (descriptor : DescriptorProto) (types : gmap string TypeInfo) :
  let doc_comment :=
    format_doc_comment re ctx
      (comment_for_current_location
         (filter_src_location (src_locations ctx) (src_loc_code ctx)
            (src_loc_index ctx)))
      true in
  msg_field descriptor = [] ->
  msg_enum_type descriptor = [] ->
  msg_nested_type descriptor = [] ->
  brace_free (msg_name descriptor) ->
  brace_free doc_comment ->
  generate_data_class re self package (Some message_scope) ctx descriptor types
  = Ok (indent_str (indent ctx) +:+ ("@_dc.dataclass" +:+ nl)
        +:+ indent_str (indent ctx) +:+ "class " +:+ msg_name descriptor
        +:+ (":" +:+ nl +:+ nl) +:+ doc_comment
        +:+ indent_str (indent ctx + 1) +:+ "pass" +:+ nl +:+ nl).
Proof.
  cbv zeta. intros Hfields Henums Hnested Hname Hdoc.
  rewrite generate_data_class_unfold. cbv zeta.
  rewrite Henums, Hnested. cbn [mapM_from mapM_unless mbind result_bind].
  unfold generate_data_members. rewrite bool_decide_eq_true_2 by exact Hfields.
  cbn [mbind result_bind indent]. f_equal.
  rewrite render_data_class by (assumption || reflexivity).
  rewrite render_pass. reflexivity.
Qed.

(** [message Empty {}] at the top level of a file without comments. *)
Lemma generate_data_class_empty_witness :
  generate_data_class re_no_match ex_generator "pkg" (Some "pkg") ex_ctx
    (Build_DescriptorProto "Empty" [] [] [] false) ex_no_types
  = Ok ("@_dc.dataclass" +:+ nl +:+ "class Empty:" +:+ nl +:+ nl
        +:+ "    pass" +:+ nl +:+ nl).
Proof.
  exact (generate_data_class_empty re_no_match ex_generator "pkg" "pkg" ex_ctx
           (Build_DescriptorProto "Empty" [] [] [] false) ex_no_types
           eq_refl eq_refl eq_refl eq_refl eq_refl).
Defined.

(** ** Type registry *)

Lemma DescriptorProto_nested_ind (P : DescriptorProto -> Prop) :
  (forall name field nested_type enum_type map_entry,
     Forall P nested_type ->
     P (Build_DescriptorProto name field nested_type enum_type map_entry)) ->
  forall d, P d.
Proof.
  intros H. fix IH 1. intros [name field nested_type enum_type map_entry].
  apply H. induction nested_type as [ | x l IHl ].
  - constructor.
  - constructor; [ apply IH | exact IHl ].
Qed.

Section Folds.

Context {A : Type} (f : gmap string TypeInfo -> A -> gmap string TypeInfo).

Lemma fold_left_invariant (P : gmap string TypeInfo -> Prop) (l : list A) :
  Forall (fun x => forall t, P t -> P (f t x)) l ->
  forall t, P t -> P (fold_left f l t).
Proof.
  induction 1 as [ | x l Hx _ IH ]; intros t Ht; cbn [fold_left].
  - exact Ht.
  - apply IH, Hx, Ht.
Qed.

Lemma fold_left_adds (key : string) (l : list A) (a : A) :
  Forall (fun x => forall t, is_Some (t !! key) -> is_Some (f t x !! key)) l ->
  In a l -> (forall t, is_Some (f t a !! key)) ->
  forall t, is_Some (fold_left f l t !! key).
Proof.
  induction 1 as [ | x l Hx Hl IH ]; intros Hin Ha t; [ destruct Hin | ].
  cbn [fold_left]. destruct Hin as [-> | Hin].
  - apply (fold_left_invariant (fun t => is_Some (t !! key)) l Hl), Ha.
  - apply IH; assumption.
Qed.

Lemma fold_left_only (key : string) (R : A -> Prop) (l : list A) :
  Forall (fun x => forall t, is_Some (f t x !! key) -> is_Some (t !! key) \/ R x) l ->
  forall t, is_Some (fold_left f l t !! key) ->
            is_Some (t !! key) \/ exists x, In x l /\ R x.
Proof.
  induction 1 as [ | x l Hx _ IH ]; intros t Hkey; cbn [fold_left] in Hkey.
  - left. exact Hkey.
  - destruct (IH _ Hkey) as [Hstep | (y & Hy & HR)].
    + destruct (Hx _ Hstep) as [Ht | HR]; [ left; exact Ht | ].
      right. exists x. split; [ left; reflexivity | exact HR ].
    + right. exists y. split; [ right; exact Hy | exact HR ].
Qed.

End Folds.

Lemma Forall_all {A : Type} (P : A -> Prop) (l : list A) :
  (forall x, P x) -> Forall P l.
Proof. intros H. induction l; constructor; [ apply H | assumption ]. Qed.

Lemma build_type_map_for_message_wf (d : DescriptorProto) :
  forall scope types,
    map_Forall (fun _ info => wf_type_info info) types ->
    map_Forall (fun _ info => wf_type_info info)
      (build_type_map_for_message scope types d).
Proof.
  induction d as [name field nested_type enum_type map_entry IH]
    using DescriptorProto_nested_ind.
  intros scope types Hwf. cbn [build_type_map_for_message].
  apply map_Forall_insert_2.
  { cbn. repeat split; eexists; reflexivity. }
  apply (fold_left_invariant _ (map_Forall (fun _ info => wf_type_info info))).
  { apply Forall_all. intros e t Ht. apply map_Forall_insert_2; [ | exact Ht ].
    cbn. repeat split; eexists; reflexivity. }
  apply (fold_left_invariant _ (map_Forall (fun _ info => wf_type_info info)));
    [ | exact Hwf ].
  eapply Forall_impl; [ exact IH | ].
  intros sub Hsub t Ht. cbn beta. apply Hsub, Ht.
Qed.

Lemma build_type_map_for_file_wf (f : FileDescriptorProto)
    (types : gmap string TypeInfo) :
  map_Forall (fun _ info => wf_type_info info) types ->
  map_Forall (fun _ info => wf_type_info info) (build_type_map_for_file types f).
Proof.
  intros Hwf. unfold build_type_map_for_file.
  apply (fold_left_invariant _ (map_Forall (fun _ info => wf_type_info info))).
  { apply Forall_all. intros s t Ht. apply map_Forall_insert_2; [ | exact Ht ].
    cbn. repeat split; eexists; reflexivity. }
  apply (fold_left_invariant _ (map_Forall (fun _ info => wf_type_info info))).
  { apply Forall_all. intros e t Ht. apply map_Forall_insert_2; [ | exact Ht ].
    cbn. repeat split; eexists; reflexivity. }
  apply (fold_left_invariant _ (map_Forall (fun _ info => wf_type_info info)));
    [ | exact Hwf ].
  apply Forall_all. intros m t Ht. apply build_type_map_for_message_wf, Ht.
Qed.

(** X12. Every entry of the registry built from a list of files carries
    the descriptor of its class and no other: an entry of class [ENUM]
    holds an enum descriptor, one of class [MESSAGE] a message
    descriptor, one of class [SERVICE] a service descriptor. *)
Theorem build_type_map_wf (proto_files : list FileDescriptorProto)
    (key : string) (info : TypeInfo) :
  build_type_map proto_files !! key = Some info -> wf_type_info info.
Proof.
  revert key info. change (map_Forall (fun _ info => wf_type_info info)
                             (build_type_map proto_files)).
  unfold build_type_map.
  apply (fold_left_invariant _ (map_Forall (fun _ info => wf_type_info info)));
    [ | apply map_Forall_empty ].
  apply Forall_all. intros f t Ht. apply build_type_map_for_file_wf, Ht.
Qed.

(** The registry of the example file holds [Color] as an enum. *)
Lemma build_type_map_wf_witness :
  wf_type_info
    {| typeClass := ENUM; ti_enum := Some ex_color; ti_message := None;
       ti_service := None |}.
Proof.
  apply (build_type_map_wf [ex_color_file] "pkg.Color").
  vm_compute. reflexivity.
Defined.

Lemma insert_keeps (types : gmap string TypeInfo) (k key : string) (info : TypeInfo) :
  is_Some (types !! key) -> is_Some (<[k := info]> types !! key).
Proof. intros H. apply lookup_insert_is_Some'. right. exact H. Qed.

Lemma build_type_map_for_message_keeps (d : DescriptorProto) :
  forall scope types key,
    is_Some (types !! key) ->
    is_Some (build_type_map_for_message scope types d !! key).
Proof.
  induction d as [name field nested_type enum_type map_entry IH]
    using DescriptorProto_nested_ind.
  intros scope types key Hkey. cbn [build_type_map_for_message].
  apply insert_keeps.
  apply (fold_left_invariant _ (fun t => is_Some (t !! key))).
  { apply Forall_all. intros e t Ht. apply insert_keeps, Ht. }
  apply (fold_left_invariant _ (fun t => is_Some (t !! key))); [ | exact Hkey ].
  eapply Forall_impl; [ exact IH | ].
  intros sub Hsub t Ht. cbn beta. apply Hsub, Ht.
Qed.

Lemma build_type_map_for_message_adds (scope : string) (d : DescriptorProto)
    (key : string) :
  declares scope d key ->
  forall types, is_Some (build_type_map_for_message scope types d !! key).
Proof.
  induction 1 as [ scope m | scope m e He | scope m sub key Hsub _ IH ];
    intros types; destruct m as [name field nested_type enum_type map_entry];
    cbn [build_type_map_for_message msg_name msg_enum_type msg_nested_type] in *.
  - apply lookup_insert_is_Some'. left. reflexivity.
  - apply insert_keeps.
    apply (fold_left_adds _ _ _ e); [ | exact He | ].
    + apply Forall_all. intros x t Ht. apply insert_keeps, Ht.
    + intros t. apply lookup_insert_is_Some'. left. reflexivity.
  - apply insert_keeps.
    apply (fold_left_invariant _ (fun t => is_Some (t !! key))).
    { apply Forall_all. intros e t Ht. apply insert_keeps, Ht. }
    apply (fold_left_adds _ _ _ sub); [ | exact Hsub | exact IH ].
    apply Forall_all. intros x t Ht. apply build_type_map_for_message_keeps, Ht.
Qed.

Lemma build_type_map_for_message_only (d : DescriptorProto) :
  forall scope types key,
    is_Some (build_type_map_for_message scope types d !! key) ->
    is_Some (types !! key) \/ declares scope d key.
Proof.
  induction d as [name field nested_type enum_type map_entry IH]
    using DescriptorProto_nested_ind.
  intros scope types key Hkey. cbn [build_type_map_for_message] in Hkey.
  set (m := Build_DescriptorProto name field nested_type enum_type map_entry).
  apply lookup_insert_is_Some' in Hkey as [<- | Hkey];
    [ right; apply (declares_self scope m) | ].
  apply (fold_left_only _ key
           (fun e => key = (scope +:+ name +:+ ".") +:+ enum_name e)) in Hkey.
  - destruct Hkey as [Hkey | (e & He & ->)];
      [ | right; apply (declares_enum scope m e He) ].
    apply (fold_left_only _ key
             (fun sub => declares (scope +:+ name +:+ ".") sub key)) in Hkey.
    + destruct Hkey as [Hkey | (sub & Hsub & Hdecl)]; [ left; exact Hkey | ].
      right. apply (declares_nested scope m sub key Hsub Hdecl).
    + eapply Forall_impl; [ exact IH | ].
      intros sub Hsub t Ht. cbn beta. apply Hsub, Ht.
  - apply Forall_all. intros e t Ht.
    apply lookup_insert_is_Some' in Ht as [<- | Ht];
      [ right; reflexivity | left; exact Ht ].
Qed.

Lemma build_type_map_for_file_keeps (f : FileDescriptorProto)
    (types : gmap string TypeInfo) (key : string) :
  is_Some (types !! key) -> is_Some (build_type_map_for_file types f !! key).
Proof.
  intros Hkey. unfold build_type_map_for_file.
  apply (fold_left_invariant _ (fun t => is_Some (t !! key))).
  { apply Forall_all. intros s t Ht. apply insert_keeps, Ht. }
  apply (fold_left_invariant _ (fun t => is_Some (t !! key))).
  { apply Forall_all. intros e t Ht. apply insert_keeps, Ht. }
  apply (fold_left_invariant _ (fun t => is_Some (t !! key))); [ | exact Hkey ].
  apply Forall_all. intros m t Ht. apply build_type_map_for_message_keeps, Ht.
Qed.

Lemma build_type_map_for_file_adds (f : FileDescriptorProto) (key : string) :
  declared_in f key ->
  forall types, is_Some (build_type_map_for_file types f !! key).
Proof.
  intros [ m key' Hm Hdecl | e He | s Hs ] types;
    unfold build_type_map_for_file; fold (file_scope f).
  - apply (fold_left_invariant _ (fun t => is_Some (t !! key'))).
    { apply Forall_all. intros x t Ht. apply insert_keeps, Ht. }
    apply (fold_left_invariant _ (fun t => is_Some (t !! key'))).
    { apply Forall_all. intros x t Ht. apply insert_keeps, Ht. }
    apply (fold_left_adds _ _ _ m); [ | exact Hm | ].
    + apply Forall_all. intros x t Ht. apply build_type_map_for_message_keeps, Ht.
    + intros t. apply build_type_map_for_message_adds, Hdecl.
  - apply (fold_left_invariant _
             (fun t => is_Some (t !! (file_scope f +:+ enum_name e)))).
    { apply Forall_all. intros x t Ht. apply insert_keeps, Ht. }
    apply (fold_left_adds _ _ _ e); [ | exact He | ].
    + apply Forall_all. intros x t Ht. apply insert_keeps, Ht.
    + intros t. apply lookup_insert_is_Some'. left. reflexivity.
  - apply (fold_left_adds _ _ _ s); [ | exact Hs | ].
    + apply Forall_all. intros x t Ht. apply insert_keeps, Ht.
    + intros t. apply lookup_insert_is_Some'. left. reflexivity.
Qed.

Lemma build_type_map_for_file_only (f : FileDescriptorProto)
    (types : gmap string TypeInfo) (key : string) :
  is_Some (build_type_map_for_file types f !! key) ->
  is_Some (types !! key) \/ declared_in f key.
Proof.
  unfold build_type_map_for_file; fold (file_scope f). intros Hkey.
  apply (fold_left_only _ key
           (fun s => key = file_scope f +:+ service_name s)) in Hkey.
  - destruct Hkey as [Hkey | (s & Hs & ->)];
      [ | right; apply (declared_service f s Hs) ].
    apply (fold_left_only _ key
             (fun e => key = file_scope f +:+ enum_name e)) in Hkey.
    + destruct Hkey as [Hkey | (e & He & ->)];
        [ | right; apply (declared_enum f e He) ].
      apply (fold_left_only _ key
               (fun m => declares (file_scope f) m key)) in Hkey.
      * destruct Hkey as [Hkey | (m & Hm & Hdecl)]; [ left; exact Hkey | ].
        right. apply (declared_message f m key Hm Hdecl).
      * apply Forall_all. intros m t Ht.
        apply build_type_map_for_message_only, Ht.
    + apply Forall_all. intros e t Ht.
      apply lookup_insert_is_Some' in Ht as [<- | Ht];
        [ right; reflexivity | left; exact Ht ].
  - apply Forall_all. intros s t Ht.
    apply lookup_insert_is_Some' in Ht as [<- | Ht];
      [ right; reflexivity | left; exact Ht ].
Qed.

(** X13. The keys of the registry built from a list of files are exactly
    the qualified names the files declare: the messages and enums of a
    file, at any nesting depth, and its services, each prefixed by the
    package and the enclosing message names. *)
Theorem build_type_map_keys (proto_files : list FileDescriptorProto)
    (key : string) :
  is_Some (build_type_map proto_files !! key)
  <-> exists f, In f proto_files /\ declared_in f key.
Proof.
  unfold build_type_map. split.
  - intros Hkey.
    apply (fold_left_only _ key (fun f => declared_in f key)) in Hkey.
    + destruct Hkey as [Hkey | Hkey]; [ | exact Hkey ].
      rewrite lookup_empty in Hkey. destruct Hkey as [? Hkey]. discriminate.
    + apply Forall_all. intros f t Ht. apply build_type_map_for_file_only, Ht.
  - intros (f & Hf & Hdecl).
    apply (fold_left_adds _ _ _ f); [ | exact Hf | ].
    + apply Forall_all. intros x t Ht. apply build_type_map_for_file_keeps, Ht.
    + intros t. apply build_type_map_for_file_adds, Hdecl.
Qed.

(** ** Type names, member types and defaults *)

(** X14. With [make_relative], a qualified name that begins with the text
    of the package loses that text and the one character after it,
    whatever that character is: nothing checks that it is the dot.  With
    the empty package every name loses its first character. *)
Theorem python_type_name_drops_one_more (package : string) (c : ascii)
    (rest : string) (alias : bool) :
  (alias = true -> PyStr.startswith rest "trac." = false) ->
  python_type_name package ("." +:+ package +:+ String c rest) true alias = rest.
Proof.
  intros Halias. unfold python_type_name.
  rewrite (startswith_app "." (package +:+ String c rest)).
  change (PyStr.drop 1 ("." +:+ package +:+ String c rest))
    with (package +:+ String c rest).
  cbn [andb]. rewrite startswith_app.
  replace (String.length package + 1)%nat with (S (String.length package)) by lia.
  assert (Hdrop : PyStr.drop (S (String.length package)) (package +:+ String c rest)
                  = rest).
  { induction package as [ | a p IH ]; [ reflexivity | ].
    rewrite append_cons. exact IH. }
  rewrite Hdrop.
  destruct alias; [ rewrite (Halias eq_refl) | ]; reflexivity.
Qed.

(** In a file without package the message [Foo] is referred to as [oo];
    from package [trac.meta], the type [trac.metadata.Tag] of another
    package becomes [ata.Tag]. *)
Lemma python_type_name_drops_one_more_witness :
  python_type_name "" ".Foo" true true = "oo"
  /\ python_type_name "trac.meta" ".trac.metadata.Tag" true true = "ata.Tag".
Proof.
  split.
  - apply (python_type_name_drops_one_more "" "F" "oo" true). reflexivity.
  - apply (python_type_name_drops_one_more "trac.meta" "d" "ata.Tag" true).
    reflexivity.
Defined.

(** X15. A non-repeated field of a primitive type, outside any oneof and
    not marked optional, is typed with the bare Python type of the table
    and yet defaults to [None]. *)
Theorem primitive_member (package : string) (field : FieldDescriptorProto)
    (message : DescriptorProto) (types : gmap string TypeInfo) (t : PyType) :
  PRIMITIVE_TYPE_MAPPING !! field_type field = Some t ->
  field_label field <> LABEL_REPEATED ->
  field_oneof_index field = None ->
  field_proto3_optional field = false ->
  python_field_type package field message = Ok (py_name t)
  /\ python_default_value package field message types = Ok "None".
Proof.
  intros Ht Hlabel Honeof Hopt.
  assert (Hbase : forall mr al, python_base_type package field mr al = Ok (py_name t)).
  { intros mr al.
    destruct (python_base_type_cases package field mr al)
      as [[Href Hr] | [[_ (t' & Ht' & Hr)] | (_ & Hnone & _)]].
    - rewrite (reference_not_primitive _ Href) in Ht. discriminate.
    - congruence.
    - congruence. }
  assert (Hm : (field_type field =? TYPE_MESSAGE) = false).
  { apply Z.eqb_neq. intros Heq.
    rewrite (reference_not_primitive _ (or_introl Heq)) in Ht. discriminate. }
  assert (He : (field_type field =? TYPE_ENUM) = false).
  { apply Z.eqb_neq. intros Heq.
    rewrite (reference_not_primitive _ (or_intror Heq)) in Ht. discriminate. }
  unfold python_field_type, python_default_value. rewrite !Hbase.
  cbn [mbind result_bind].
  rewrite !bool_decide_eq_false_2 by exact Hlabel.
  rewrite Hopt, Honeof.
  rewrite !bool_decide_eq_false_2 by (intros [? ?]; discriminate).
  rewrite Hm, He. split; reflexivity.
Qed.

(** The field [int32 n]. *)
Lemma primitive_member_witness :
  python_field_type "pkg" (ex_field "n" LABEL_OPTIONAL TYPE_INT32 "") (ex_message true)
    = Ok "int"
  /\ python_default_value "pkg" (ex_field "n" LABEL_OPTIONAL TYPE_INT32 "")
       (ex_message true) ex_no_types
     = Ok "None".
Proof.
  apply (primitive_member "pkg" (ex_field "n" LABEL_OPTIONAL TYPE_INT32 "")
           (ex_message true) ex_no_types py_int).
  - vm_compute. reflexivity.
  - discriminate.
  - reflexivity.
  - reflexivity.
Defined.

(** X16. For a non-repeated enum field outside any oneof, the default
    resolver raises [AttributeError] exactly when the registry has no
    entry for the field's type name or the entry holds no enum, and
    [IndexError] exactly when the registered enum declares no value. *)
Theorem python_default_value_enum_errors (package : string)
    (field : FieldDescriptorProto) (message : DescriptorProto)
    (types : gmap string TypeInfo) :
  field_label field <> LABEL_REPEATED ->
  field_oneof_index field = None ->
  field_type field = TYPE_ENUM ->
  (python_default_value package field message types = Raise AttributeError
   <-> (forall info,
          types !! python_type_name package (field_type_name field) false false
          = Some info -> ti_enum info = None))
  /\ (python_default_value package field message types = Raise IndexError
      <-> exists info enum_type,
            types !! python_type_name package (field_type_name field) false false
            = Some info
            /\ ti_enum info = Some enum_type /\ enum_value enum_type = []).
Proof.
  intros Hlabel Honeof Htype.
  unfold python_default_value, python_base_type.
  rewrite Htype. cbn [Z.eqb TYPE_ENUM TYPE_MESSAGE Pos.eqb orb mbind result_bind].
  rewrite bool_decide_eq_false_2 by exact Hlabel.
  rewrite Honeof.
  rewrite bool_decide_eq_false_2 by (intros [? ?]; discriminate).
  destruct (types !! _) as [info | ].
  - destruct (ti_enum info) as [enum_type | ] eqn:Henum.
    + unfold index. destruct (enum_value enum_type) as [ | v vs ] eqn:Hv; cbn.
      * split; split.
        -- discriminate.
        -- intros H. specialize (H info eq_refl). congruence.
        -- intros _. exists info, enum_type. repeat split; assumption.
        -- reflexivity.
      * split; split.
        -- discriminate.
        -- intros H. specialize (H info eq_refl). congruence.
        -- discriminate.
        -- intros (info' & e' & [= <-] & He' & Hv').
           rewrite Henum in He'. injection He' as <-. congruence.
    + split; split.
      * intros _ info' [= <-]. exact Henum.
      * reflexivity.
      * discriminate.
      * intros (info' & e' & [= <-] & He' & _). congruence.
  - split; split.
    + intros _ info H. discriminate.
    + reflexivity.
    + discriminate.
    + intros (info' & e' & H & _). discriminate.
Qed.

(** An enum field whose type is not in the registry. *)
Lemma python_default_value_enum_errors_witness :
  python_default_value "pkg" ex_color_field (ex_message true) ex_no_types
  = Raise AttributeError.
Proof.
  apply (proj1 (python_default_value_enum_errors "pkg" ex_color_field
                  (ex_message true) ex_no_types
                  ltac:(discriminate) eq_refl eq_refl)).
  intros info H. vm_compute in H. discriminate.
Defined.

Lemma rev_onto_app (s acc : string) :
  PyStr.rev_onto s acc = PyStr.rev s +:+ acc.
Proof.
  unfold PyStr.rev. revert acc.
  induction s as [ | c s IH ]; intros acc; cbn [PyStr.rev_onto].
  - reflexivity.
  - rewrite IH, (IH (String c "")), append_assoc. reflexivity.
Qed.

Lemma rev_cons (c : ascii) (s : string) :
  PyStr.rev (String c s) = PyStr.rev s +:+ String c "".
Proof. unfold PyStr.rev at 1. cbn [PyStr.rev_onto]. apply rev_onto_app. Qed.

Lemma rev_app (a b : string) : PyStr.rev (a +:+ b) = PyStr.rev b +:+ PyStr.rev a.
Proof.
  induction a as [ | c a IH ].
  - rewrite append_nil, append_empty_r. reflexivity.
  - rewrite append_cons, !rev_cons, IH, append_assoc. reflexivity.
Qed.

Lemma rev_involutive (s : string) : PyStr.rev (PyStr.rev s) = s.
Proof.
  induction s as [ | c s IH ]; [ reflexivity | ].
  rewrite rev_cons, rev_app, IH. reflexivity.
Qed.

(** [s.endswith(p)] holds exactly when [s] is some text followed by [p]. *)
Lemma endswith_iff (s p : string) :
  PyStr.endswith s p = true <-> exists pre, s = pre +:+ p.
Proof.
  unfold PyStr.endswith. rewrite startswith_iff. split.
  - intros [r Hr]. exists (PyStr.rev r).
    rewrite <- (rev_involutive s), Hr, rev_app, rev_involutive. reflexivity.
  - intros [pre ->]. exists (PyStr.rev pre). apply rev_app.
Qed.

Lemma contains_char_app (c : ascii) (a b : string) :
  PyStr.contains_char c (a +:+ b)
  = PyStr.contains_char c a || PyStr.contains_char c b.
Proof.
  induction a as [ | x a IH ]; [ reflexivity | ].
  rewrite append_cons. cbn [PyStr.contains_char].
  destruct (Ascii.eqb x c); [ reflexivity | exact IH ].
Qed.

Lemma contains_char_rev (c : ascii) (s : string) :
  PyStr.contains_char c (PyStr.rev s) = PyStr.contains_char c s.
Proof.
  induction s as [ | x s IH ]; [ reflexivity | ].
  rewrite rev_cons, contains_char_app, IH. cbn [PyStr.contains_char].
  destruct (Ascii.eqb x c); [ apply orb_true_r | apply orb_false_r ].
Qed.

(** Two texts without dot that are followed by a dot in the same string
    are equal. *)
Lemma before_first_dot (u u' r r' : string) :
  PyStr.contains_char "." u = false ->
  PyStr.contains_char "." u' = false ->
  u +:+ "." +:+ r = u' +:+ "." +:+ r' -> u = u'.
Proof.
  revert u'. induction u as [ | c u IH ]; intros u' Hu Hu' Heq.
  - destruct u' as [ | c' u' ]; [ reflexivity | ].
    rewrite append_nil, !append_cons in Heq. injection Heq as <- _.
    cbn in Hu'. discriminate.
  - destruct u' as [ | c' u' ].
    + rewrite append_nil, !append_cons in Heq. injection Heq as -> _.
      cbn in Hu. discriminate.
    + rewrite !append_cons in Heq. injection Heq as <- Heq.
      cbn in Hu, Hu'. destruct (Ascii.eqb c "."); [ discriminate | ].
      f_equal. exact (IH u' Hu Hu' Heq).
Qed.

(** Two dot-free names that end the same string behind a dot are equal. *)
Lemma after_last_dot (a a' n n' : string) :
  PyStr.contains_char "." n = false ->
  PyStr.contains_char "." n' = false ->
  a +:+ "." +:+ n = a' +:+ "." +:+ n' -> n = n'.
Proof.
  intros Hn Hn' Heq.
  apply (f_equal PyStr.rev) in Heq.
  rewrite !rev_app in Heq.
  change (PyStr.rev ".") with "." in Heq.
  rewrite !append_assoc in Heq.
  apply before_first_dot in Heq; [ | rewrite contains_char_rev; assumption .. ].
  rewrite <- (rev_involutive n), Heq, rev_involutive. reflexivity.
Qed.

Lemma drop_is_suffix (k : nat) (s : string) :
  exists pre, s = pre +:+ PyStr.drop k s.
Proof.
  revert s. induction k as [ | k IH ]; intros s.
  - exists "". destruct s; reflexivity.
  - destruct s as [ | c s ]; [ exists ""; reflexivity | ].
    destruct (IH s) as [pre Hpre]. exists (String c pre).
    rewrite append_cons. cbn [PyStr.drop]. rewrite <- Hpre. reflexivity.
Qed.

(** The relative, aliased name of a type ends its qualified name. *)
Lemma python_type_name_suffix (package proto_type_name : string) :
  exists pre,
    python_type_name package proto_type_name false false
    = pre +:+ python_type_name package proto_type_name true true.
Proof.
  unfold python_type_name. cbn [andb].
  set (t1 := if PyStr.startswith proto_type_name "." then _ else _).
  set (t2 := if PyStr.startswith t1 package then _ else _).
  assert (H12 : exists pre, t1 = pre +:+ t2).
  { subst t2. destruct (PyStr.startswith t1 package);
      [ apply drop_is_suffix | exists ""; reflexivity ]. }
  destruct H12 as [pre1 H1].
  destruct (PyStr.startswith t2 "trac.").
  - destruct (drop_is_suffix (String.length "trac.") t2) as [pre2 H2].
    exists (pre1 +:+ pre2). rewrite append_assoc, <- H2. exact H1.
  - exists pre1. exact H1.
Qed.

Lemma find_ext_in {A : Type} (p q : A -> bool) (l : list A) :
  Forall (fun x => p x = q x) l -> List.find p l = List.find q l.
Proof.
  induction 1 as [ | x l Hx _ IH ]; [ reflexivity | ].
  cbn [List.find]. rewrite Hx, IH. reflexivity.
Qed.

Lemma py_name_no_dot (t : PyType) : PyStr.contains_char "." (py_name t) = false.
Proof. destruct t; reflexivity. Qed.

(** * Map fields of messages declared inside other messages *)

Lemma find_none {A : Type} (p : A -> bool) (l : list A) :
  Forall (fun x => p x = false) l -> List.find p l = None.
Proof.
  induction 1 as [ | x l Hx _ IH ]; [ reflexivity | ].
  cbn [List.find]. rewrite Hx. exact IH.
Qed.

(** A name qualified by an enclosing scope is not the name qualified by
    the message alone: [outer.M.E] is [M.N] for no nested type [N] of a
    dot-free name. *)
Lemma scoped_name_differs (outer m e n : string) :
  PyStr.contains_char "." e = false ->
  PyStr.contains_char "." n = false ->
  outer +:+ "." +:+ m +:+ "." +:+ e <> m +:+ "." +:+ n.
Proof.
  intros He Hn Heq.
  assert (Hlast : e = n).
  { apply (after_last_dot (outer +:+ "." +:+ m) m e n He Hn).
    rewrite <- Heq, <- !append_assoc. reflexivity. }
  subst n. apply (f_equal String.length) in Heq.
  rewrite !length_append in Heq. cbn [String.length] in Heq. lia.
Qed.

(** C3, where it fails.  For a message [M] declared inside [outer], with
    a nested type [E] flagged as a map entry and a repeated field whose
    element type is that [E], the type resolver finds no nested type: it
    compares the package-relative name [outer.M.E] with [M.N] for every
    nested type [N], and answers the list type of [outer.M.E], not the
    mapping type.  The names of the nested types contain no dot, as
    identifiers do. *)
Theorem python_field_type_nested_map (package outer : string)
    (field : FieldDescriptorProto) (message entry : DescriptorProto) :
  field_label field = LABEL_REPEATED ->
  field_type field = TYPE_MESSAGE ->
  In entry (msg_nested_type message) ->
  msg_map_entry entry = true ->
  field_type_name field
    = "." +:+ package +:+ "."
      +:+ (outer +:+ "." +:+ (msg_name message +:+ "." +:+ msg_name entry)) ->
  PyStr.startswith
    (outer +:+ "." +:+ (msg_name message +:+ "." +:+ msg_name entry)) "trac."
    = false ->
  Forall (fun nt => PyStr.contains_char "." (msg_name nt) = false)
    (msg_nested_type message) ->
  python_field_type package field message
  = Ok ("_tp.List["
        +:+ (outer +:+ "." +:+ (msg_name message +:+ "." +:+ msg_name entry))
        +:+ "]").
Proof.
  intros Hlabel Htype Hin _ Hname Halias Hdots.
  unfold python_field_type.
  rewrite (python_base_type_nested package field outer
             (msg_name message +:+ "." +:+ msg_name entry) Htype Hname Halias).
  cbn [mbind result_bind].
  rewrite bool_decide_eq_true_2 by exact Hlabel.
  rewrite find_none; [ reflexivity | ].
  assert (He : PyStr.contains_char "." (msg_name entry) = false).
  { rewrite List.Forall_forall in Hdots. exact (Hdots entry Hin). }
  eapply Forall_impl; [ exact Hdots | ].
  intros nt Hnt. cbv beta in Hnt |- *.
  apply String.eqb_neq. apply scoped_name_differs; assumption.
Qed.

(** [message Outer { message M { map<string, int32> tags = 1; } }]: the
    member [tags] of [M] is typed as a list of the entry type. *)
Lemma python_field_type_nested_map_witness :
  python_field_type "pkg" (ex_tags "pkg.Outer.M") ex_inner
  = Ok "_tp.List[Outer.M.TagsEntry]".
Proof.
  refine (python_field_type_nested_map "pkg" "Outer" (ex_tags "pkg.Outer.M")
            ex_inner (ex_entry true) eq_refl eq_refl _ eq_refl eq_refl eq_refl _).
  - left. reflexivity.
  - repeat constructor.
Defined.

(** The same slip in a file without package: the relative name of the
    entry type of the top-level message [M] loses [M] and keeps the dot,
    and no nested type is found either. *)
Remark map_field_without_package :
  python_field_type "" (ex_tags "M") (ex_message true)
  = Ok "_tp.List[.TagsEntry]".
Proof. reflexivity. Qed.

(** X17. Whenever the type resolver types a repeated field as a
    dictionary, the default resolver gives it the empty-dictionary
    factory, provided the names of the nested types of the message
    contain no dot. *)
Theorem dict_type_has_dict_default (package : string)
    (field : FieldDescriptorProto) (message : DescriptorProto)
    (types : gmap string TypeInfo) (field_type : string) :
  field_label field = LABEL_REPEATED ->
  Forall (fun nt => PyStr.contains_char "." (msg_name nt) = false)
    (msg_nested_type message) ->
  python_field_type package field message = Ok field_type ->
  PyStr.startswith field_type "_tp.Dict[" = true ->
  python_default_value package field message types
  = Ok "_dc.field(default_factory=dict)".
Proof.
  intros Hlabel Hnames Htype Hdict.
  unfold python_field_type in Htype. unfold python_default_value.
  destruct (python_base_type_cases package field true true)
    as [[Href Hr] | [[Hnref (t & Ht & Hr)] | (_ & _ & Hr)]];
    rewrite Hr in Htype; cbn [mbind result_bind] in Htype;
    [ | | discriminate ];
    rewrite bool_decide_eq_true_2 in Htype by exact Hlabel.
  - (* a message or enum reference *)
    destruct (python_base_type_cases package field false false)
      as [[_ Hr'] | [[Hn _] | (Hn & _)]]; [ | contradiction .. ].
    rewrite Hr'. cbn [mbind result_bind].
    rewrite bool_decide_eq_true_2 by exact Hlabel.
    destruct (python_type_name_suffix package (field_type_name field))
      as [pre Hpre].
    set (base := python_type_name package (field_type_name field) true true) in *.
    set (qualified := python_type_name package (field_type_name field) false false) in *.
    destruct (List.find _ (msg_nested_type message)) as [entry | ] eqn:Hfind in Htype;
      [ | injection Htype as <-; discriminate ].
    destruct (msg_map_entry entry) eqn:Hflag;
      [ | injection Htype as <-; discriminate ].
    pose proof (find_some _ _ Hfind) as [Hin Heq].
    apply String.eqb_eq in Heq.
    rewrite (find_ext_in
               (fun nt => PyStr.endswith qualified
                            (msg_name message +:+ "." +:+ msg_name nt))
               (fun nt => String.eqb base
                            (msg_name message +:+ "." +:+ msg_name nt))).
    + rewrite Hfind, Hflag. reflexivity.
    + rewrite Forall_forall in Hnames.
      apply Forall_forall. intros nt Hnt.
      destruct (String.eqb_spec base (msg_name message +:+ "." +:+ msg_name nt))
        as [Hbase | Hbase].
      * apply endswith_iff. exists pre. rewrite <- Hbase. exact Hpre.
      * destruct (PyStr.endswith qualified _) eqn:Hends; [ | reflexivity ].
        apply endswith_iff in Hends as [pre' Hpre'].
        exfalso. apply Hbase. rewrite Heq. f_equal. f_equal.
        rewrite Hpre, Heq in Hpre'. rewrite <- !append_assoc in Hpre'.
        rewrite (append_assoc (pre +:+ msg_name message)),
          (append_assoc (pre' +:+ msg_name message)) in Hpre'.
        apply (after_last_dot _ _ _ _
                 (Hnames entry (proj2 (list_elem_of_In _ _) Hin))
                 (Hnames nt Hnt)) in Hpre'.
        exact Hpre'.
  - (* a primitive type: its name has no dot and matches no nested type *)
    destruct (List.find _ (msg_nested_type message)) as [entry | ] eqn:Hfind in Htype;
      [ | injection Htype as <-; discriminate ].
    pose proof (find_some _ _ Hfind) as [_ Heq].
    apply String.eqb_eq in Heq.
    apply (f_equal (PyStr.contains_char ".")) in Heq.
    rewrite py_name_no_dot, !contains_char_app in Heq.
    cbn in Heq. rewrite orb_true_r in Heq. discriminate.
Qed.

(** The map field of the example message. *)
Lemma dict_type_has_dict_default_witness :
  python_default_value "pkg" (ex_tags "pkg.M") (ex_message true) ex_no_types
  = Ok "_dc.field(default_factory=dict)".
Proof.
  apply (dict_type_has_dict_default "pkg" (ex_tags "pkg.M") (ex_message true)
           ex_no_types "_tp.Dict[str, int]").
  - reflexivity.
  - repeat constructor.
  - reflexivity.
  - reflexivity.
Defined.

(** ** Package output *)

Section PackageOutput.

Context (re : ReModule) (self : TracGenerator) (api_package : string)
  (all_files : list FileDescriptorProto) (type_map : gmap string TypeInfo).

(** One turn of the loop in flat-pack mode: the first record is named by
    the module of the package, every later one has no name. *)
Lemma package_file_step_flat (output_files : list File) (package_imports : string)
    (f : FileDescriptorProto) (st : list File * string) :
  is_Some (_options self !! "flat_pack") -> all_files <> [] ->
  package_file_step re self api_package all_files type_map
    (output_files, package_imports) f = Ok st ->
  exists r,
    st = (output_files ++ [r], package_imports)
    /\ (output_files <> [] -> out_name r = "")
    /\ (output_files = [] ->
        exists module_path,
          package_module api_package = Ok module_path
          /\ out_name r = Pathlib.str module_path).
Proof.
  intros Hflat Hall Hstep.
  assert (Hlen : (0 <? length all_files)%nat = true)
    by (destruct all_files; [ contradiction | reflexivity ]).
  unfold package_file_step in Hstep.
  rewrite bool_decide_eq_true_2 in Hstep by exact Hflat.
  destruct (generate_file re self (file_locations f) 0 f api_package type_map
              (negb true)) as [module_code | e]; [ | discriminate ].
  cbn [mbind result_bind andb] in Hstep. rewrite Hlen in Hstep.
  destruct output_files as [ | r0 rs ]; cbn [length Nat.eqb] in Hstep.
  - fold (package_path api_package) in Hstep.
    fold (package_module api_package) in Hstep.
    destruct (package_module api_package) as [module_path | e]; [ | discriminate ].
    cbn [mbind result_bind] in Hstep. injection Hstep as <-.
    eexists. split; [ reflexivity | ].
    split; [ intros Hne; contradiction | ].
    intros _. exists module_path. split; reflexivity.
  - injection Hstep as <-.
    eexists. split; [ reflexivity | ].
    split; [ reflexivity | discriminate ].
Qed.

(** One turn of the loop outside flat-pack mode: the record of the module
    of the file. *)
Lemma package_file_step_module (output_files : list File) (package_imports : string)
    (f : FileDescriptorProto) (st : list File * string) :
  _options self !! "flat_pack" = None ->
  package_file_step re self api_package all_files type_map
    (output_files, package_imports) f = Ok st ->
  exists r module_path,
    st = (output_files ++ [r], package_imports +:+ generate_package_imports f)
    /\ module_file api_package f = Ok module_path
    /\ out_name r = Pathlib.str module_path.
Proof.
  intros Hflat Hstep. unfold package_file_step in Hstep.
  rewrite bool_decide_eq_false_2 in Hstep
    by (rewrite Hflat; intros [? ?]; discriminate).
  destruct (generate_file re self (file_locations f) 0 f api_package type_map
              (negb false)) as [module_code | e]; [ | discriminate ].
  cbn [mbind result_bind andb] in Hstep.
  fold (package_path api_package) in Hstep.
  fold (module_file api_package f) in Hstep.
  destruct (module_file api_package f) as [module_path | e]; [ | discriminate ].
  cbn [mbind result_bind] in Hstep. injection Hstep as <-.
  eexists _, module_path. split; [ reflexivity | ]. split; reflexivity.
Qed.

Lemma flat_pack_steps (files : list FileDescriptorProto) :
  is_Some (_options self !! "flat_pack") -> all_files <> [] ->
  forall output_files package_imports out imports,
    output_files <> [] ->
    foldM (package_file_step re self api_package all_files type_map)
      (output_files, package_imports) files = Ok (out, imports) ->
    exists added,
      out = output_files ++ added /\ length added = length files
      /\ Forall (fun r => out_name r = "") added.
Proof.
  intros Hflat Hall.
  induction files as [ | f files IH ];
    intros output_files package_imports out imports Hne Hfold; cbn [foldM] in Hfold.
  - injection Hfold as <- _. exists []. rewrite app_nil_r. repeat split. constructor.
  - destruct (package_file_step re self api_package all_files type_map
                (output_files, package_imports) f) as [st | e] eqn:Hstep;
      [ | discriminate ].
    cbn [mbind result_bind] in Hfold.
    apply package_file_step_flat in Hstep as (r & -> & Hname & _);
      [ | assumption .. ].
    apply IH in Hfold as (added & -> & Hadded & Hnames);
      [ | destruct output_files; discriminate ].
    exists (r :: added).
    split; [ rewrite <- app_assoc; reflexivity | ].
    split; [ cbn; rewrite Hadded; reflexivity | ].
    constructor; [ apply Hname, Hne | exact Hnames ].
Qed.

Lemma module_steps (files : list FileDescriptorProto) :
  _options self !! "flat_pack" = None ->
  forall output_files package_imports out imports,
    foldM (package_file_step re self api_package all_files type_map)
      (output_files, package_imports) files = Ok (out, imports) ->
    exists added,
      out = output_files ++ added
      /\ Forall2 (fun f r => exists module_path,
                    module_file api_package f = Ok module_path
                    /\ out_name r = Pathlib.str module_path)
           files added.
Proof.
  intros Hflat.
  induction files as [ | f files IH ];
    intros output_files package_imports out imports Hfold; cbn [foldM] in Hfold.
  - injection Hfold as <- _. exists []. rewrite app_nil_r. split; constructor.
  - destruct (package_file_step re self api_package all_files type_map
                (output_files, package_imports) f) as [st | e] eqn:Hstep;
      [ | discriminate ].
    cbn [mbind result_bind] in Hfold.
    apply package_file_step_module in Hstep as (r & module_path & -> & Hpath & Hname);
      [ | assumption ].
    apply IH in Hfold as (added & -> & Hadded).
    exists (r :: added).
    split; [ rewrite <- app_assoc; reflexivity | ].
    constructor; [ | exact Hadded ].
    exists module_path. split; assumption.
Qed.

End PackageOutput.

(** X18. The output files of a package, for any number of input files.
    Outside flat-pack mode they are one module per input file, in order,
    each named by the stem of its input under the package directory, and
    the package [__init__] file last.  In flat-pack mode with at least
    one input file they are one record per input file, the first named
    by the module path of the package and all others without name; with
    no input file the [__init__] file is the only record in both
    modes. *)
Theorem package_output_files_shape (re : ReModule) (self : TracGenerator)
    (api_package : string) (files : list FileDescriptorProto)
    (type_map : gmap string TypeInfo) (out : list File) :
  package_output_files re self api_package files type_map = Ok out ->
  (_options self !! "flat_pack" = None ->
   exists modules init,
     out = modules ++ [init]
     /\ out_name init = init_name api_package
     /\ Forall2 (fun f r => exists module_path,
                   module_file api_package f = Ok module_path
                   /\ out_name r = Pathlib.str module_path)
          files modules)
  /\ (is_Some (_options self !! "flat_pack") -> files <> [] ->
      exists first others module_path,
        out = first :: others
        /\ package_module api_package = Ok module_path
        /\ out_name first = Pathlib.str module_path
        /\ Forall (fun r => out_name r = "") others
        /\ length out = length files)
  /\ (files = [] ->
      out = [ {| out_name := init_name api_package;
                 out_content := PyStr.drop_last FILE_HEADER |} ]).
Proof.
  intros Hout. unfold package_output_files in Hout.
  destruct (foldM _ _ files) as [[output_files package_imports] | e] eqn:Hfold;
    [ | discriminate ].
  cbn [mbind result_bind] in Hout.
  split; [ | split ].
  - intros Hflat.
    rewrite bool_decide_eq_false_2 in Hout
      by (rewrite Hflat; intros [? ?]; discriminate).
    cbn [negb orb] in Hout. injection Hout as <-.
    apply (module_steps re self api_package files type_map files Hflat) in Hfold
      as (added & -> & Hadded).
    eexists added, _. split; [ reflexivity | ]. split; [ reflexivity | exact Hadded ].
  - intros Hflat Hfiles.
    rewrite bool_decide_eq_true_2 in Hout by exact Hflat.
    destruct files as [ | f files ]; [ contradiction | ].
    cbn [negb orb length Nat.eqb] in Hout. injection Hout as <-.
    cbn [foldM] in Hfold.
    destruct (package_file_step re self api_package (f :: files) type_map
                ([], "") f) as [st | e] eqn:Hstep; [ | discriminate ].
    cbn [mbind result_bind] in Hfold.
    apply package_file_step_flat in Hstep as (r & -> & _ & Hfirst);
      [ | assumption | discriminate ].
    destruct (Hfirst eq_refl) as (module_path & Hpath & Hname).
    apply (flat_pack_steps re self api_package (f :: files) type_map files Hflat)
      in Hfold as (added & -> & Hadded & Hnames); [ | discriminate .. ].
    exists r, added, module_path.
    split; [ reflexivity | ]. split; [ exact Hpath | ].
    split; [ exact Hname | ]. split; [ exact Hnames | ].
    cbn. rewrite Hadded. reflexivity.
  - intros ->. cbn [foldM] in Hfold. injection Hfold as <- <-.
    cbn [length Nat.eqb] in Hout. rewrite orb_true_r in Hout.
    injection Hout as <-. reflexivity.
Qed.

(** The three example files in flat-pack mode: three records, the first
    named [p.py]. *)
Lemma package_output_files_shape_witness :
  exists out first others module_path,
    package_output_files re_no_match ex_flat_generator "p" ex_three_files
      ex_no_types = Ok out
    /\ out = first :: others
    /\ package_module "p" = Ok module_path
    /\ out_name first = Pathlib.str module_path
    /\ Forall (fun r => out_name r = "") others
    /\ length out = length ex_three_files.
Proof.
  destruct (package_output_files re_no_match ex_flat_generator "p"
              ex_three_files ex_no_types) as [out | e] eqn:Hout;
    [ | vm_compute in Hout; discriminate ].
  destruct (proj1 (proj2 (package_output_files_shape re_no_match
              ex_flat_generator "p" ex_three_files ex_no_types out Hout)))
    as (first & others & module_path & H);
    [ eexists; vm_compute; reflexivity | discriminate | ].
  exists out, first, others, module_path. split; [ reflexivity | exact H ].
Defined.

(** X19. A file that cannot be generated aborts the whole package,
    whatever the package filter: the filter is applied after all files
    have been generated, so a package outside the filter still raises. *)
Theorem generate_package_aborts (re : ReModule) (self : TracGenerator)
    (api_package : string) (files : list FileDescriptorProto)
    (type_map : gmap string TypeInfo) (f : FileDescriptorProto) :
  In f files ->
  is_ok (generate_file re self (file_locations f) 0 f api_package type_map
           (negb (bool_decide (is_Some (_options self !! "flat_pack"))))) = false ->
  is_ok (generate_package re self api_package files type_map) = false.
Proof.
  intros Hin Hfile. unfold generate_package, package_output_files.
  apply bind_raise, bind_raise.
  apply (foldM_fails _ _ f Hin).
  intros [output_files package_imports]. unfold package_file_step.
  apply bind_raise, Hfile.
Qed.

(** The file with the nested enum, in a package that the filter [x.y]
    leaves out. *)
Lemma generate_package_aborts_witness :
  is_ok (generate_package re_no_match ex_filtered_generator "pkg"
           [ex_shape_file] ex_no_types) = false.
Proof.
  apply (generate_package_aborts re_no_match ex_filtered_generator "pkg"
           [ex_shape_file] ex_no_types ex_shape_file).
  - left. reflexivity.
  - vm_compute. reflexivity.
Defined.

(** X20. In flat-pack mode a package whose path has no name, as the
    package of a file without package has, makes the run raise
    [ValueError] once its first file is generated, whatever the package
    filter. *)
Theorem flat_pack_needs_package_name (re : ReModule) (self : TracGenerator)
    (api_package : string) (f : FileDescriptorProto)
    (files : list FileDescriptorProto) (type_map : gmap string TypeInfo) :
  is_Some (_options self !! "flat_pack") ->
  Pathlib.name (package_path api_package) = "" ->
  is_ok (generate_file re self (file_locations f) 0 f api_package type_map false)
  = true ->
  generate_package re self api_package (f :: files) type_map = Raise ValueError.
Proof.
  intros Hflat Hname Hfile.
  assert (Hstep : package_file_step re self api_package (f :: files) type_map
                    ([], "") f = Raise ValueError).
  { unfold package_file_step.
    rewrite bool_decide_eq_true_2 by exact Hflat. cbn [negb].
    destruct (generate_file re self (file_locations f) 0 f api_package type_map false)
      as [module_code | e]; [ | discriminate ].
    cbn [mbind result_bind andb length Nat.ltb Nat.leb Nat.eqb].
    fold (package_path api_package).
    unfold Pathlib.with_suffix. rewrite Hname. reflexivity. }
  unfold generate_package, package_output_files. cbn [foldM].
  rewrite Hstep. reflexivity.
Qed.

(** A file without package in flat-pack mode. *)
Lemma flat_pack_needs_package_name_witness :
  generate_package re_no_match ex_flat_generator ""
    [ex_empty_file "a.proto"] ex_no_types
  = Raise ValueError.
Proof.
  apply (flat_pack_needs_package_name re_no_match ex_flat_generator ""
           (ex_empty_file "a.proto") [] ex_no_types).
  - eexists. vm_compute. reflexivity.
  - reflexivity.
  - reflexivity.
Defined.

Lemma join_empty_cons (x : string) (l : list string) :
  PyStr.join "" (x :: l) = x +:+ PyStr.join "" l.
Proof.
  destruct l as [ | y l ]; cbn [PyStr.join].
  - symmetry. apply append_empty_r.
  - rewrite append_nil. reflexivity.
Qed.

Lemma fold_left_lines {A : Type} (g : A -> string) (l : list A) (init : string) :
  fold_left (fun imports x => imports +:+ g x) l init
  = init +:+ PyStr.join "" (List.map g l).
Proof.
  revert init. induction l as [ | x l IH ]; intros init; cbn [fold_left List.map].
  - symmetry. apply append_empty_r.
  - rewrite IH, join_empty_cons, append_assoc. reflexivity.
Qed.

Lemma join_empty_app (a b : list string) :
  PyStr.join "" (a ++ b) = PyStr.join "" a +:+ PyStr.join "" b.
Proof.
  induction a as [ | x a IH ]; [ reflexivity | ].
  cbn [app]. rewrite !join_empty_cons, IH, append_assoc. reflexivity.
Qed.

(** X21. The imports of a file in the package [__init__] are one line
    [from .module import Name] per top-level enum and then per top-level
    message, in declaration order, with the stem of the file name as
    module, after one empty line; a file that declares neither gives
    nothing, and services and nested types are never imported. *)
Theorem generate_package_imports_lines (descriptor : FileDescriptorProto) :
  let module_name := Pathlib.stem (Pathlib.of_args [file_name descriptor]) in
  let names :=
    List.map enum_name (file_enum_type descriptor)
    ++ List.map msg_name (file_message_type descriptor) in
  generate_package_imports descriptor
  = (match names with [] => "" | _ :: _ => nl end)
    +:+ PyStr.join ""
          (List.map (fun name => "from ." +:+ module_name +:+ " import " +:+ name +:+ nl)
             names).
Proof.
  cbv zeta. unfold generate_package_imports.
  rewrite (fold_left_lines
             (fun message_type =>
                package_import
                  (Pathlib.stem (Pathlib.of_args [file_name descriptor]))
                  (msg_name message_type))).
  rewrite (fold_left_lines
             (fun enum_type =>
                package_import
                  (Pathlib.stem (Pathlib.of_args [file_name descriptor]))
                  (enum_name enum_type))).
  rewrite List.map_app, !List.map_map, join_empty_app, append_assoc.
  f_equal.
  destruct (file_enum_type descriptor), (file_message_type descriptor); reflexivity.
Qed.

(** ** Files, services and module imports *)

Lemma generate_enum_none_ok (re : ReModule) (self : TracGenerator)
    (ctx : LocationContext) (descriptor : EnumDescriptorProto) :
  is_ok (generate_enum re self ctx descriptor None) = true.
Proof.
  unfold generate_enum. cbn [truthy].
  destruct (bool_decide _); [ reflexivity | ].
  match goal with
  | |- context [ mapM_from ?f 0%nat ?l ] =>
      pose proof (generate_enum_values_ok re
        (index_sub_ctx
           (filter_src_location (src_locations ctx) (src_loc_code ctx)
              (src_loc_index ctx))
           (_desc_enum_value self) (indent ctx + 1))
        l 0) as Hok;
      destruct (mapM_from f 0%nat l); [ reflexivity | discriminate ]
  end.
Qed.

(** X22. Top-level enums and services never abort a file: the code of a
    file is generated exactly when each of its top-level messages is,
    the i-th with the context of index i and the package as its scope. *)
Theorem generate_file_ok_iff (re : ReModule) (self : TracGenerator)
    (src_loc : list Location) (indent : nat) (descriptor : FileDescriptorProto)
    (api_package : string) (type_map : gmap string TypeInfo)
    (include_header : bool) :
  is_ok (generate_file re self src_loc indent descriptor api_package type_map
           include_header) = true
  <-> forall i message,
        file_message_type descriptor !! i = Some message ->
        is_ok (generate_data_class re self (file_package descriptor)
                 (Some (file_package descriptor))
                 (index_sub_ctx src_loc (_desc_file_message self) indent i)
                 message type_map) = true.
Proof.
  unfold generate_file.
  destruct (if include_header then _ else _) as [[file_header std_imports] import_stmts].
  assert (Henums :
    is_ok (mapM_from
             (fun i desc =>
                generate_enum re self
                  (index_sub_ctx src_loc (_desc_file_enum self) indent i) desc None)
             0 (file_enum_type descriptor)) = true).
  { apply mapM_from_ok_iff. intros j a _. apply generate_enum_none_ok. }
  destruct (mapM_from _ 0%nat (file_enum_type descriptor)) as [enums | e];
    [ clear Henums | discriminate ].
  cbn [mbind result_bind].
  rewrite <- (mapM_from_ok_iff
                (fun i desc =>
                   generate_data_class re self (file_package descriptor)
                     (Some (file_package descriptor))
                     (index_sub_ctx src_loc (_desc_file_message self) indent i)
                     desc type_map)
                (file_message_type descriptor) 0).
  destruct (mapM_from _ 0%nat (file_message_type descriptor)); reflexivity.
Qed.

Lemma SERVICE_CLASS_TEMPLATE_segments :
  SERVICE_CLASS_TEMPLATE
  = flatten [ Tok "INDENT"; Lit "class "; Tok "SERVICE_NAME";
              Lit (":" +:+ nl +:+ nl); Tok "DOC_COMMENT"; Tok "METHODS" ].
Proof. reflexivity. Qed.

(** X23. A service whose name and documentation comment contain no
    opening brace is the header [class Name:], the comment and the stubs
    of its methods in declaration order; a service without methods gets
    no [pass] line, only the header and the comment. *)
Theorem generate_service_class_text (re : ReModule) (self : TracGenerator)
    (package : string) (ctx : LocationContext)
    (descriptor : ServiceDescriptorProto) :
  let filtered_loc :=
    filter_src_location (src_locations ctx) (src_loc_code ctx) (src_loc_index ctx) in
  let doc_comment :=
    format_doc_comment re ctx (comment_for_current_location filtered_loc) true in
  let header :=
    indent_str (indent ctx) +:+ "class " +:+ service_name descriptor
    +:+ (":" +:+ nl +:+ nl) +:+ doc_comment in
  brace_free (service_name descriptor) ->
  brace_free doc_comment ->
  generate_service_class re self package ctx descriptor
  = header
    +:+ PyStr.join ""
          (imap (fun i method_desc =>
                   generate_service_method re package
                     (index_sub_ctx filtered_loc (_desc_service_method self)
                        (indent ctx + 1) i)
                     method_desc)
             (service_method descriptor))
  /\ (service_method descriptor = [] ->
      generate_service_class re self package ctx descriptor = header).
Proof.
  cbv zeta. intros Hname Hdoc.
  assert (Htext :
    generate_service_class re self package ctx descriptor
    = indent_str (indent ctx) +:+ "class " +:+ service_name descriptor
      +:+ (":" +:+ nl +:+ nl)
      +:+ format_doc_comment re ctx
            (comment_for_current_location
               (filter_src_location (src_locations ctx) (src_loc_code ctx)
                  (src_loc_index ctx))) true
      +:+ PyStr.join ""
            (imap (fun i method_desc =>
                     generate_service_method re package
                       (index_sub_ctx
                          (filter_src_location (src_locations ctx)
                             (src_loc_code ctx) (src_loc_index ctx))
                          (_desc_service_method self) (indent ctx + 1) i)
                       method_desc)
               (service_method descriptor))).
  { unfold generate_service_class.
    rewrite SERVICE_CLASS_TEMPLATE_segments.
    fill_template "INDENT". fill_template "SERVICE_NAME".
    fill_template "DOC_COMMENT". fill_template "METHODS".
    cbn [flatten segment_text]. rewrite ?append_empty_r, ?append_assoc.
    reflexivity. }
  split.
  - rewrite Htext, ?append_assoc. reflexivity.
  - intros Hempty. rewrite Htext, Hempty. cbn [imap PyStr.join].
    rewrite ?append_empty_r, ?append_assoc. reflexivity.
Qed.

(** A service without methods and without comment. *)
Lemma generate_service_class_text_witness :
  generate_service_class re_no_match ex_generator "pkg" ex_ctx
    {| service_name := "S"; service_method := [] |}
  = "class S:" +:+ nl +:+ nl.
Proof.
  exact (proj2 (generate_service_class_text re_no_match ex_generator "pkg" ex_ctx
                  {| service_name := "S"; service_method := [] |}
                  eq_refl eq_refl) eq_refl).
Defined.

Lemma FILE_TEMPLATE_segments :
  FILE_TEMPLATE
  = flatten [ Tok "FILE_HEADER"; Tok "STD_IMPORTS"; Tok "PKG_IMPORTS";
              Tok "ENUMS_CODE"; Lit nl; Tok "MESSAGES_CODE"; Lit nl;
              Tok "SERVICES_CODE"; Lit nl ].
Proof. reflexivity. Qed.

Lemma render_file (n : nat) (header std pkg enums messages services : string) :
  brace_free header -> brace_free std -> brace_free pkg ->
  brace_free enums -> brace_free messages ->
  PyStr.replace "{SERVICES_CODE}" services
    (PyStr.replace "{MESSAGES_CODE}" messages
    (PyStr.replace "{ENUMS_CODE}" enums
    (PyStr.replace "{PKG_IMPORTS}" pkg
    (PyStr.replace "{STD_IMPORTS}" std
    (PyStr.replace "{FILE_HEADER}" header
    (PyStr.replace "{INDENT}" (indent_str n) FILE_TEMPLATE))))))
  = header +:+ std +:+ pkg +:+ enums +:+ nl +:+ messages +:+ nl
    +:+ services +:+ nl.
Proof.
  intros Hheader Hstd Hpkg Henums Hmessages.
  rewrite FILE_TEMPLATE_segments.
  fill_template "INDENT". fill_template "FILE_HEADER".
  fill_template "STD_IMPORTS". fill_template "PKG_IMPORTS".
  fill_template "ENUMS_CODE". fill_template "MESSAGES_CODE".
  fill_template "SERVICES_CODE".
  close_template.
Qed.

(** X24. The body of a file in flat-pack mode, generated without header:
    the enums joined by line breaks, a line break, the messages joined
    by line breaks, a line break, the services joined by line breaks and
    a line break, provided the code of the enums and of the messages
    contains no opening brace.  Neither the dependencies of the file nor
    the package asked for have any part in it. *)
Theorem generate_file_body (re : ReModule) (self : TracGenerator)
    (src_loc : list Location) (indent : nat) (descriptor : FileDescriptorProto)
    (api_package : string) (type_map : gmap string TypeInfo)
    (enums messages : list string) :
  mapM_from
    (fun i desc =>
       generate_enum re self
         (index_sub_ctx src_loc (_desc_file_enum self) indent i) desc None)
    0 (file_enum_type descriptor) = Ok enums ->
  mapM_from
    (fun i desc =>
       generate_data_class re self (file_package descriptor)
         (Some (file_package descriptor))
         (index_sub_ctx src_loc (_desc_file_message self) indent i)
         desc type_map)
    0 (file_message_type descriptor) = Ok messages ->
  brace_free (PyStr.join nl enums) ->
  brace_free (PyStr.join nl messages) ->
  generate_file re self src_loc indent descriptor api_package type_map false
  = Ok (PyStr.join nl enums +:+ nl +:+ PyStr.join nl messages +:+ nl
        +:+ PyStr.join nl
              (imap (fun i service_desc =>
                       generate_service_class re self (file_package descriptor)
                         (index_sub_ctx src_loc (_desc_file_service self) indent i)
                         service_desc)
                 (file_service descriptor))
        +:+ nl).
Proof.
  intros Henums Hmessages Hfree_enums Hfree_messages.
  unfold generate_file. cbv iota beta. cbn [existsb].
  rewrite Henums. cbn [mbind result_bind].
  rewrite Hmessages. cbn [mbind result_bind]. f_equal.
  rewrite render_file by (assumption || reflexivity).
  reflexivity.
Qed.

(** The file that declares [Color] and the message [Pixel]. *)
Lemma generate_file_body_witness :
  generate_file re_no_match ex_generator [] 0 ex_color_file "pkg"
    (build_type_map [ex_color_file]) false
  = Ok ("class Color(_enum.Enum):" +:+ nl +:+ nl
        +:+ "    RED = 0, " +:+ nl +:+ nl
        +:+ "    BLUE = 1, " +:+ nl +:+ nl +:+ nl
        +:+ "@_dc.dataclass" +:+ nl +:+ "class Pixel:" +:+ nl +:+ nl
        +:+ "    c: Color = Color.RED" +:+ nl +:+ nl +:+ nl +:+ nl).
Proof.
  exact (generate_file_body re_no_match ex_generator [] 0 ex_color_file "pkg"
           (build_type_map [ex_color_file])
           [ "class Color(_enum.Enum):" +:+ nl +:+ nl
             +:+ "    RED = 0, " +:+ nl +:+ nl
             +:+ "    BLUE = 1, " +:+ nl +:+ nl ]
           [ "@_dc.dataclass" +:+ nl +:+ "class Pixel:" +:+ nl +:+ nl
             +:+ "    c: Color = Color.RED" +:+ nl +:+ nl ]
           ltac:(vm_compute; reflexivity) ltac:(vm_compute; reflexivity)
           ltac:(vm_compute; reflexivity) ltac:(vm_compute; reflexivity)).
Defined.

Section ModuleImports.

Context (re : ReModule) (self : TracGenerator) (api_package : string).

Lemma module_import_step_extends (st : list string * gset string) (dep : string) :
  exists added,
    fst (module_import_step re self api_package st dep) = fst st ++ added
    /\ (length added
        <= if bool_decide (is_Some (re_match2 re import_proto_pattern dep))
           then 1 else 0)%nat.
Proof.
  unfold module_import_step, import_proto_pattern.
  destruct st as [import_stmts prior_imports].
  destruct (re_match2 re _ dep) as [[g1 g2] | ].
  - rewrite (bool_decide_eq_true_2 (is_Some _)) by (eexists; reflexivity).
    destruct (String.eqb _ api_package && _).
    + eexists [_]. split; [ reflexivity | cbn; lia ].
    + destruct (negb (bool_decide (_ ∈ prior_imports))).
      * eexists [_]. split; [ reflexivity | cbn; lia ].
      * exists []. split; [ cbn; rewrite app_nil_r; reflexivity | cbn; lia ].
  - exists []. split; [ cbn; rewrite app_nil_r; reflexivity | cbn; lia ].
Qed.

Lemma module_import_fold_extends (deps : list string) :
  forall st,
  exists added,
    fst (fold_left (module_import_step re self api_package) deps st)
    = fst st ++ added
    /\ (length added
        <= length (List.filter
                     (fun dep => bool_decide
                        (is_Some (re_match2 re import_proto_pattern dep)))
                     deps))%nat.
Proof.
  induction deps as [ | dep deps IH ]; intros st; cbn [fold_left List.filter].
  - exists []. split; [ rewrite app_nil_r; reflexivity | cbn; lia ].
  - destruct (IH (module_import_step re self api_package st dep))
      as (added & Hadded & Hlen).
    destruct (module_import_step_extends st dep) as (first & Hfirst & Hone).
    exists (first ++ added).
    split; [ rewrite Hadded, Hfirst, app_assoc; reflexivity | ].
    rewrite length_app.
    destruct (bool_decide _); cbn [length]; lia.
Qed.

End ModuleImports.

(** X25. A file has at most one module import per dependency that the
    import pattern matches; a file none of whose dependencies matches
    has no module import at all. *)
Theorem generate_module_imports_bound (re : ReModule) (self : TracGenerator)
    (descriptor : FileDescriptorProto) (api_package : string) :
  (length (generate_module_imports re self descriptor api_package)
   <= length (List.filter
                (fun dep => bool_decide
                   (is_Some (re_match2 re import_proto_pattern dep)))
                (file_dependency descriptor)))%nat
  /\ (Forall (fun dep => re_match2 re import_proto_pattern dep = None)
        (file_dependency descriptor) ->
      generate_module_imports re self descriptor api_package = []).
Proof.
  unfold generate_module_imports.
  destruct (module_import_fold_extends re self api_package
              (file_dependency descriptor) ([], ∅)) as (added & Hadded & Hlen).
  rewrite Hadded. cbn [fst app].
  split; [ exact Hlen | ].
  intros Hnone.
  assert (Hfilter : List.filter
            (fun dep => bool_decide
               (is_Some (re_match2 re import_proto_pattern dep)))
            (file_dependency descriptor) = []).
  { clear Hadded Hlen.
    induction Hnone as [ | dep deps Hdep _ IH ]; [ reflexivity | ].
    cbn [List.filter]. rewrite Hdep.
    rewrite (bool_decide_eq_false_2 (is_Some _))
      by (intros [? ?]; discriminate).
    exact IH. }
  rewrite Hfilter in Hlen. destruct added; [ reflexivity | cbn in Hlen; lia ].
Qed.

Lemma render_scope_import (import_module : string) :
  PyStr.replace "{MODULE}" import_module SCOPE_IMPORT
  = "from ." +:+ import_module +:+ (" import *  # noqa" +:+ nl).
Proof.
  assert (H : SCOPE_IMPORT
              = flatten [ Lit "from ."; Tok "MODULE";
                          Lit (" import *  # noqa" +:+ nl) ]) by reflexivity.
  rewrite H. fill_template "MODULE". close_template.
Qed.

Lemma render_alias_import (qualified_package alias : string) :
  brace_free qualified_package ->
  PyStr.replace "{ALIAS}" alias
    (PyStr.replace "{MODULE}" qualified_package MODULE_ALIAS_IMPORT)
  = "import " +:+ qualified_package +:+ " as " +:+ alias +:+ nl.
Proof.
  intros Hfree.
  assert (H : MODULE_ALIAS_IMPORT
              = flatten [ Lit "import "; Tok "MODULE"; Lit " as "; Tok "ALIAS";
                          Lit nl ]) by reflexivity.
  rewrite H. fill_template "MODULE". fill_template "ALIAS". close_template.
Qed.

(** X26. The first dependency of a file, when the import pattern matches
    it, gives the first module import: a wildcard import of the sibling
    module when the dependency is of the package asked for, and
    otherwise the import of the dependency's package under the target
    root (option [target_package], [trac] by default), every [trac.] cut
    out of the package name, aliased to the last segment of that name. *)
Theorem generate_module_imports_first (re : ReModule) (self : TracGenerator)
    (descriptor : FileDescriptorProto) (api_package : string)
    (dep : string) (deps : list string) (g1 g2 : string) :
  let import_package := PyStr.replace "/" "." g1 in
  let import_module := PyStr.replace "/" "." g2 in
  let qualified_package :=
    default "trac" (_options self !! "target_package") +:+ "."
    +:+ PyStr.replace "trac." "" import_package in
  let alias :=
    match PyStr.rfind_char "." import_package with
    | Some i => PyStr.drop (i + 1) import_package
    | None => import_package
    end in
  file_dependency descriptor = dep :: deps ->
  re_match2 re import_proto_pattern dep = Some (g1, g2) ->
  (import_package = api_package ->
   exists more,
     generate_module_imports re self descriptor api_package
     = ("from ." +:+ import_module +:+ (" import *  # noqa" +:+ nl)) :: more)
  /\ (import_package <> api_package ->
      brace_free qualified_package ->
      exists more,
        generate_module_imports re self descriptor api_package
        = ("import " +:+ qualified_package +:+ " as " +:+ alias +:+ nl) :: more).
Proof.
  cbv zeta. intros Hdeps Hmatch.
  unfold generate_module_imports. rewrite Hdeps. cbn [fold_left].
  split.
  - intros Hsame.
    assert (Hstep : fst (module_import_step re self api_package ([], ∅) dep)
                    = [ "from ." +:+ PyStr.replace "/" "." g2
                        +:+ (" import *  # noqa" +:+ nl) ]).
    { unfold module_import_step. fold import_proto_pattern. rewrite Hmatch.
      rewrite (proj2 (String.eqb_eq _ _) Hsame).
      rewrite (bool_decide_eq_false_2 (_ ∈ (∅ : gset string)))
        by apply not_elem_of_empty.
      cbn [negb andb fst app]. rewrite render_scope_import. reflexivity. }
    destruct (module_import_fold_extends re self api_package deps
                (module_import_step re self api_package ([], ∅) dep))
      as (more & Hmore & _).
    rewrite Hmore, Hstep. exists more. reflexivity.
  - intros Hother Hfree.
    assert (Hstep : fst (module_import_step re self api_package ([], ∅) dep)
                    = [ "import "
                        +:+ (default "trac" (_options self !! "target_package")
                             +:+ "."
                             +:+ PyStr.replace "trac." ""
                                   (PyStr.replace "/" "." g1))
                        +:+ " as "
                        +:+ match PyStr.rfind_char "." (PyStr.replace "/" "." g1) with
                            | Some i => PyStr.drop (i + 1) (PyStr.replace "/" "." g1)
                            | None => PyStr.replace "/" "." g1
                            end
                        +:+ nl ]).
    { unfold module_import_step. fold import_proto_pattern. rewrite Hmatch.
      rewrite (proj2 (String.eqb_neq _ _) Hother).
      rewrite (bool_decide_eq_false_2 (_ ∈ (∅ : gset string)))
        by apply not_elem_of_empty.
      cbn [negb andb fst app].
      rewrite render_alias_import by exact Hfree. reflexivity. }
    destruct (module_import_fold_extends re self api_package deps
                (module_import_step re self api_package ([], ∅) dep))
      as (more & Hmore & _).
    rewrite Hmore, Hstep. exists more. reflexivity.
Qed.

(** A file of package [trac.api] that depends on the metadata objects
    imports their package as [metadata]. *)
Lemma generate_module_imports_first_witness :
  exists more,
    generate_module_imports re_one_import ex_generator ex_importing_file "trac.api"
    = ("import trac.metadata as metadata" +:+ nl) :: more.
Proof.
  refine (proj2 (generate_module_imports_first re_one_import ex_generator
            ex_importing_file "trac.api" "trac/metadata/object.proto" []
            "trac/metadata" "object" eq_refl eq_refl) _ _).
  - discriminate.
  - reflexivity.
Defined.
